(** * aiwaf_flask: request-risk evaluation, shallow embedding

    The development follows the Python sources:
    - [benchmark_rust_vs_python.py]: the reference feature extractor and
      anomaly scorer ([extract_features_python],
      [analyze_recent_behavior_python]);
    - [aiwaf_flask/blacklist_manager.py]: the bounded, redacted diagnostic
      payload ([_build_request_info]) and [BlacklistManager.block];
    - [aiwaf_flask/honeypot_timing_middleware.py]: the GET-then-POST timing
      detector ([before_request]).

    Python ints are [Z]. A Python float is held as the exact rational value
    of the double it is; float subtraction and the conversion of an int to a
    float round to the nearest double, ties to even ([Py.round64]), infinities
    and NaN being left out. The quotient [sum(l) / len(l)] of the two means
    is kept as the exact rational, and its [ZeroDivisionError] is kept in
    [Benchmark.truediv]. A Python [str] is a list of Unicode code points; a
    dict whose insertion order is observable (it is serialised) is an
    association list, a dict used as a plain map is a [gmap]. *)

From Stdlib Require Import ZArith QArith Qabs Lia List Bool Ascii String.
From Stdlib Require Import DecimalString Lqa Sorted.
From Stdlib Require PrimFloat SpecFloat FloatOps Uint63.
From stdpp Require Import gmap.

Set Warnings "-register-all".

Local Open Scope Z_scope.

(** ** Python values *)

Module Py.

(** A [str] is a sequence of code points. *)
Abbreviation pystr := (list N).

(** String literals of the source, written as Rocq strings. *)
Definition py (s : string) : pystr :=
  map N_of_ascii (list_ascii_of_string s).

(** [s.startswith(p)] *)
Fixpoint startswith (p s : pystr) : bool :=
  match p, s with
  | [], _ => true
  | _ :: _, [] => false
  | a :: p', b :: s' => (a =? b)%N && startswith p' s'
  end.

(** [kw in s] on strings: [kw] occurs as a contiguous substring of [s]. *)
Fixpoint contains (s kw : pystr) : bool :=
  startswith kw s ||
  match s with
  | [] => false
  | _ :: s' => contains s' kw
  end.

(** Truthiness of a string: [if s:]. *)
Definition truthy (s : pystr) : bool :=
  match s with [] => false | _ :: _ => true end.

(** [str.lower()] on the code points below 256 (ASCII and Latin-1, where
    every lower-case form is a single code point); the case table of the
    code points beyond is not reproduced, they are left as they are. *)
Definition lower_char (c : N) : N :=
  if ((65 <=? c) && (c <=? 90))%N then (c + 32)%N
  else if ((192 <=? c) && (c <=? 222) && negb (c =? 215))%N then (c + 32)%N
  else c.
Definition lower (s : pystr) : pystr := map lower_char s.

(** [str.upper()] on the code points below 256: the sharp s becomes two
    letters, the micro sign and the y with diaeresis leave Latin-1. *)
Definition upper_char (c : N) : pystr :=
  if ((97 <=? c) && (c <=? 122))%N then [(c - 32)%N]
  else if ((224 <=? c) && (c <=? 254) && negb (c =? 247))%N then [(c - 32)%N]
  else if (c =? 181)%N then [924%N]
  else if (c =? 223)%N then [83%N; 83%N]
  else if (c =? 255)%N then [376%N]
  else [c].
Definition upper (s : pystr) : pystr := flat_map upper_char s.

(** [s.replace(a, b)] for single characters [a] and [b]. *)
Definition replace_char (a b : N) (s : pystr) : pystr :=
  map (fun c => if (c =? a)%N then b else c) s.

(** [str.isspace()] for one code point. *)
Definition isspace (c : N) : bool :=
  (((9 <=? c) && (c <=? 13)) || ((28 <=? c) && (c <=? 32))
   || (c =? 133) || (c =? 160) || (c =? 5760)
   || ((8192 <=? c) && (c <=? 8202))
   || (c =? 8232) || (c =? 8233) || (c =? 8239) || (c =? 8287)
   || (c =? 12288))%N.

Fixpoint lstrip (s : pystr) : pystr :=
  match s with
  | c :: s' => if isspace c then lstrip s' else s
  | [] => []
  end.

(** [str.strip()] *)
Definition strip (s : pystr) : pystr := rev (lstrip (rev (lstrip s))).

(** [x * 2^k] *)
Definition scale2 (x : Q) (k : Z) : Q :=
  if 0 <=? k then Qmake (Qnum x * 2 ^ k) (Qden x)
  else Qmake (Qnum x) (Qden x * Z.to_pos (2 ^ (- k))).

(** The binary exponent of a positive rational: the [k] with
    [2^k <= x < 2^(k+1)]. *)
Definition floor_log2 (x : Q) : Z :=
  let k := Z.log2 (Qnum x) - Z.log2 (Zpos (Qden x)) in
  if Qle_bool 1 (scale2 x (- k)) then k else k - 1.

(** The nearest integer, ties to even. *)
Definition round_nearest_even (x : Q) : Z :=
  let n := Qnum x in
  let d := Zpos (Qden x) in
  let q := n / d in
  let r := n mod d in
  if 2 * r <? d then q
  else if d <? 2 * r then q + 1
  else if Z.even q then q else q + 1.

(** The double nearest to a non-negative real: 53 significant bits, the
    exponent of the last bit not below -1074 (the subnormal numbers). *)
Definition round_magnitude (x : Q) : Q :=
  if Qnum x =? 0 then 0%Q
  else
    let e := Z.max (floor_log2 x - 52) (-1074) in
    scale2 (inject_Z (round_nearest_even (scale2 x (- e)))) e.

(** Rounding to the nearest double, ties to even: what every float
    operation applies to its exact result. The rounding is symmetric about
    zero. Results beyond the largest double (the overflow to infinity) are
    not singled out. *)
Definition round64 (x : Q) : Q :=
  if Qnum x <? 0 then (- round_magnitude (Qabs x))%Q
  else round_magnitude (Qabs x).

(** [x - y] on floats. *)
Definition fsub (x y : Q) : Q := round64 (x - y).

(** A number held in a dict: an [int] or a [float] (by its exact value). *)
Inductive pynum :=
| PInt (z : Z)
| PFloat (q : Q).

(** [int(x)]: truncation toward zero on floats. *)
Definition int (x : pynum) : Z :=
  match x with
  | PInt z => z
  | PFloat q => Z.quot (Qnum q) (Zpos (Qden q))
  end.

(** [float(x)]: an int becomes the nearest double. *)
Definition float (x : pynum) : Q :=
  match x with
  | PInt z => round64 (inject_Z z)
  | PFloat q => q
  end.

(** [d.get(key, dflt)] on an optional field. *)
Definition get {A} (field : option A) (dflt : A) : A :=
  match field with Some v => v | None => dflt end.

(** [x < y] on floats. *)
Definition Qlt_bool (x y : Q) : bool := negb (Qle_bool y x).

(** [enumerate(l)] *)
Definition enumerate {A} (l : list A) : list (nat * A) :=
  combine (seq 0 (List.length l)) l.

End Py.
Import Py.

(** ** benchmark_rust_vs_python.py *)

Module Benchmark.

(** A request record / log entry: a dict read with [.get(key, default)],
    so every key may be missing. *)
Record record := {
  r_ip : option pystr;
  r_path_lower : option pystr;
  r_path_len : option pynum;
  r_timestamp : option pynum;
  r_response_time : option pynum;
  r_status : option pynum;
  r_status_idx : option pynum;
  r_kw_check : option bool;
  r_total_404 : option pynum
}.

Record feature := {
  f_ip : option pystr;
  f_path_len : Z;
  f_kw_hits : Z;
  f_response_time : Q;
  f_status_idx : Z;
  f_burst_count : Z;
  f_total_404 : Z
}.

Definition STATIC_KEYWORDS : list pystr :=
  [py "wp-admin"; py "sql"; py "select"; py "union"].

(** [sum(1 for kw in static_keywords if kw in path_lower)] *)
Definition count_keywords (static_keywords : list pystr) (path_lower : pystr) : Z :=
  fold_left (fun acc kw => if contains path_lower kw then acc + 1 else acc)
            static_keywords 0.

(** The body of the [for rec in records] loop. *)
Definition extract_one (static_keywords : list pystr) (rec : record) : feature :=
  let path_lower := get (r_path_lower rec) [] in
  let kw_check := get (r_kw_check rec) true in
  let kw_hits := if kw_check then count_keywords static_keywords path_lower else 0 in
  {| f_ip := r_ip rec;
     f_path_len := int (get (r_path_len rec) (PInt 0));
     f_kw_hits := kw_hits;
     f_response_time := float (get (r_response_time rec) (PFloat 0));
     f_status_idx := int (get (r_status_idx rec) (PInt (-1)));
     f_burst_count := 1;
     f_total_404 := int (get (r_total_404 rec) (PInt 0)) |}.

Definition extract_features_python (records : list record)
    (static_keywords : list pystr) : list feature :=
  fold_left (fun features rec => features ++ [extract_one static_keywords rec])
            records [].

(** The probe markers of the scanning-404 test. *)
Definition SCAN_MARKERS : list pystr :=
  [py "wp-admin"; py "wp-content"; py "phpmyadmin"; py ".env"; py ".git";
   py "xmlrpc"; py "sql"].

(** Accumulators of the main loop. *)
Record loop_state := {
  recent_kw_hits : list Z;
  recent_404s : Z;
  recent_burst_counts : list Z;
  st_scanning_404s : Z
}.

Definition loop_init : loop_state :=
  {| recent_kw_hits := []; recent_404s := 0;
     recent_burst_counts := []; st_scanning_404s := 0 |}.

Definition timestamp_of (e : record) : Q := float (get (r_timestamp e) (PFloat 0)).

(** The inner [for j, other in enumerate(entries)] loop. *)
Definition entry_burst_of (entries : list record) (i : nat) (timestamp : Q) : Z :=
  fold_left
    (fun entry_burst '(j, other) =>
       if Nat.eqb i j then entry_burst
       else if Qle_bool (Qabs (fsub timestamp (timestamp_of other))) 10
            then entry_burst + 1 else entry_burst)
    (enumerate entries) 0.

(** The body of [for i, entry in enumerate(entries)]. *)
Definition loop_body (entries : list record) (static_keywords : list pystr)
    (st : loop_state) (ie : nat * record) : loop_state :=
  let '(i, entry) := ie in
  let path_lower := get (r_path_lower entry) [] in
  let timestamp := timestamp_of entry in
  let status := int (get (r_status entry) (PInt 0)) in
  let kw_check := get (r_kw_check entry) true in
  let kw_hits := if kw_check then count_keywords static_keywords path_lower else 0 in
  let is404 := status =? 404 in
  let scanning := is404 && existsb (contains path_lower) SCAN_MARKERS in
  {| recent_kw_hits := recent_kw_hits st ++ [kw_hits];
     recent_404s := if is404 then recent_404s st + 1 else recent_404s st;
     recent_burst_counts :=
       recent_burst_counts st ++ [entry_burst_of entries i timestamp];
     st_scanning_404s :=
       if scanning then st_scanning_404s st + 1 else st_scanning_404s st |}.

Definition run_loop (entries : list record) (static_keywords : list pystr) : loop_state :=
  fold_left (loop_body entries static_keywords) (enumerate entries) loop_init.

(** [sum(l)] *)
Definition sum (l : list Z) : Z := fold_left Z.add l 0.

(** [sum(l) / len(l) if l else 0.0] *)
Definition mean (l : list Z) : Q :=
  match l with
  | [] => 0%Q
  | _ :: _ => (inject_Z (sum l) / inject_Z (Z.of_nat (List.length l)))%Q
  end.

Record snapshot := {
  avg_kw_hits : Q;
  max_404s : Z;
  avg_burst : Q;
  total_requests : Z;
  scanning_404s : Z;
  legitimate_404s : Z;
  should_block : bool
}.

Definition analyze_recent_behavior_python (entries : list record)
    (static_keywords : list pystr) : snapshot :=
  let st := run_loop entries static_keywords in
  let avg_kw_hits := mean (recent_kw_hits st) in
  let max_404s := recent_404s st in
  let avg_burst := mean (recent_burst_counts st) in
  let total_requests := Z.of_nat (List.length entries) in
  let scanning_404s := st_scanning_404s st in
  let legitimate_404s := max_404s - scanning_404s in
  let should_block :=
    negb (Qlt_bool avg_kw_hits 3
          && (scanning_404s <? 5)
          && (legitimate_404s <? 20)
          && Qlt_bool avg_burst 25
          && (total_requests <? 150)) in
  let should_block :=
    if Qeq_bool avg_kw_hits 0 && (max_404s =? 0) then false else should_block in
  {| avg_kw_hits := avg_kw_hits;
     max_404s := max_404s;
     avg_burst := avg_burst;
     total_requests := total_requests;
     scanning_404s := scanning_404s;
     legitimate_404s := legitimate_404s;
     should_block := should_block |}.

(** [a / b] on ints, with its error: [None] is the [ZeroDivisionError]
    raised on a zero divisor. *)
Definition truediv (a b : Z) : option Q :=
  if b =? 0 then None else Some (inject_Z a / inject_Z b)%Q.

(** [sum(l) / len(l) if l else 0.0], the error of the division kept. *)
Definition mean_checked (l : list Z) : option Q :=
  match l with
  | [] => Some 0%Q
  | _ :: _ => truediv (sum l) (Z.of_nat (List.length l))
  end.

(** [analyze_recent_behavior_python] with the errors of its two divisions
    kept: [None] is a [ZeroDivisionError] escaping the function. *)
Definition analyze_recent_behavior_checked (entries : list record)
    (static_keywords : list pystr) : option snapshot :=
  let st := run_loop entries static_keywords in
  match mean_checked (recent_kw_hits st) with
  | None => None
  | Some avg_kw_hits =>
      let max_404s := recent_404s st in
      match mean_checked (recent_burst_counts st) with
      | None => None
      | Some avg_burst =>
          let total_requests := Z.of_nat (List.length entries) in
          let scanning_404s := st_scanning_404s st in
          let legitimate_404s := max_404s - scanning_404s in
          let should_block :=
            negb (Qlt_bool avg_kw_hits 3
                  && (scanning_404s <? 5)
                  && (legitimate_404s <? 20)
                  && Qlt_bool avg_burst 25
                  && (total_requests <? 150)) in
          let should_block :=
            if Qeq_bool avg_kw_hits 0 && (max_404s =? 0) then false
            else should_block in
          Some {| avg_kw_hits := avg_kw_hits;
                  max_404s := max_404s;
                  avg_burst := avg_burst;
                  total_requests := total_requests;
                  scanning_404s := scanning_404s;
                  legitimate_404s := legitimate_404s;
                  should_block := should_block |}
      end
  end.

End Benchmark.

(** ** Flask collaborators: the current request and [app.config] *)

Module Flask.

(** The request accessor. [headers_get] is [request.headers.get];
    [query_string] is [request.query_string] already decoded as UTF-8
    (invalid sequences dropped). *)
Record request := {
  url : pystr;
  path : pystr;
  query_string : pystr;
  method : pystr;
  host : pystr;
  headers_get : pystr -> option pystr
}.

(** The key under which the WSGI environ holds a header, as Werkzeug's
    [EnvironHeaders.__getitem__] computes it from the name asked for:
    [key.upper().replace("-", "_")], with the prefix [HTTP_] except for the
    content type and the content length. *)
Definition environ_key (key : pystr) : pystr :=
  let key := replace_char 45 95 (upper key) in
  if decide (key = py "CONTENT_TYPE" \/ key = py "CONTENT_LENGTH") then key
  else py "HTTP_" ++ key.

(** [request.headers.get] over the header entries of a WSGI environ: the
    entry under the environ key of the name, so that the case of the name
    is ignored and [-] and [_] are read alike. *)
Fixpoint headers_of (environ : list (pystr * pystr)) (key : pystr) : option pystr :=
  match environ with
  | [] => None
  | (name, value) :: rest =>
      if decide (name = environ_key key) then Some value else headers_of rest key
  end.

(** [app.config]: every key may be unset. *)
Record config := {
  AIWAF_CAPTURE_EXTENDED_REQUEST_INFO : option bool;
  AIWAF_EXTENDED_REQUEST_INFO_MAX_BYTES : option Z;
  AIWAF_EXTENDED_REQUEST_INFO_HEADERS : option (list pystr);
  AIWAF_EXTENDED_REQUEST_INFO_REDACT_HEADERS : option (list pystr);
  AIWAF_HONEYPOT_SKIP_AUTHENTICATED : option bool;
  AIWAF_MIN_FORM_TIME : option Q
}.

End Flask.
Import Flask.

(** ** json.dumps and str.encode *)

Module Json.

Inductive json :=
| JStr (s : pystr)
| JBool (b : bool)
| JObj (items : list (pystr * json)).

(** An insertion-ordered dict with string keys. *)
Abbreviation dict := (list (pystr * json)).

(** [d[key] = v]: an existing key keeps its position. *)
Fixpoint dict_set {A} (key : pystr) (v : A) (d : list (pystr * A)) : list (pystr * A) :=
  match d with
  | [] => [(key, v)]
  | (k, w) :: d' =>
      if decide (k = key) then (k, v) :: d' else (k, w) :: dict_set key v d'
  end.

(** [d.get(key)] *)
Fixpoint dict_get {A} (key : pystr) (d : list (pystr * A)) : option A :=
  match d with
  | [] => None
  | (k, w) :: d' => if decide (k = key) then Some w else dict_get key d'
  end.

Definition hex_digit (n : N) : N :=
  if (n <? 10)%N then (48 + n)%N else (87 + n)%N.

(** The escape table of the encoder with [ensure_ascii=False]. *)
Definition escape_char (c : N) : pystr :=
  if (c =? 34)%N then [92; 34]%N
  else if (c =? 92)%N then [92; 92]%N
  else if (c =? 8)%N then [92; 98]%N
  else if (c =? 12)%N then [92; 102]%N
  else if (c =? 10)%N then [92; 110]%N
  else if (c =? 13)%N then [92; 114]%N
  else if (c =? 9)%N then [92; 116]%N
  else if (c <? 32)%N then
    [92; 117; 48; 48; hex_digit (c / 16); hex_digit (c mod 16)]%N
  else [c].

Definition quote (s : pystr) : pystr :=
  [34%N] ++ flat_map escape_char s ++ [34%N].

(** [json.dumps(v, separators=(",", ":"), ensure_ascii=False)] *)
Fixpoint dumps (v : json) : pystr :=
  match v with
  | JStr s => quote s
  | JBool b => if b then py "true" else py "false"
  | JObj items =>
      py "{" ++
      (fix members (l : list (pystr * json)) : pystr :=
         match l with
         | [] => []
         | [(k, w)] => quote k ++ py ":" ++ dumps w
         | (k, w) :: rest => quote k ++ py ":" ++ dumps w ++ py "," ++ members rest
         end) items
      ++ py "}"
  end.

(** UTF-8 encoding of one code point (a Unicode scalar value). *)
Definition encode_char (c : N) : list N :=
  if (c <? 128)%N then [c]
  else if (c <? 2048)%N then [192 + c / 64; 128 + c mod 64]%N
  else if (c <? 65536)%N then
    [224 + c / 4096; 128 + (c / 64) mod 64; 128 + c mod 64]%N
  else
    [240 + c / 262144; 128 + (c / 4096) mod 64; 128 + (c / 64) mod 64;
     128 + c mod 64]%N.

(** [s.encode("utf-8")] *)
Definition encode_utf8 (s : pystr) : list N := flat_map encode_char s.

(** [len(json.dumps(...).encode("utf-8"))] *)
Definition compact_size (payload : dict) : Z :=
  Z.of_nat (List.length (encode_utf8 (dumps (JObj payload)))).

End Json.
Import Json.

(** ** aiwaf_flask/blacklist_manager.py *)

Module BlacklistManager.

Definition DEFAULT_CAPTURE_HEADERS : list pystr :=
  [py "User-Agent"; py "Accept"; py "Accept-Language"; py "X-Forwarded-For";
   py "X-Real-IP"; py "Referer"].

Definition DEFAULT_REDACT_HEADERS : list pystr :=
  [py "Authorization"; py "Cookie"; py "Set-Cookie"; py "X-Api-Key"].

Definition REDACTED : pystr := py "[REDACTED]".

(** [{str(h).strip().lower() for h in redact_headers if h}] *)
Definition make_redact_set (redact_headers : list pystr) : gset pystr :=
  list_to_set (map (fun h => lower (strip h)) (filter (fun h => truthy h = true) redact_headers)).

(** The [for header_name in capture_headers] loop. *)
Definition select_header (request : request) (redact_set : gset pystr)
    (selected_headers : dict) (header_name : pystr) : dict :=
  if negb (truthy header_name) then selected_headers
  else
    let key := strip header_name in
    match headers_get request key with
    | None => selected_headers
    | Some value =>
        if bool_decide (lower key ∈ redact_set)
        then dict_set key (JStr REDACTED) selected_headers
        else dict_set key (JStr value) selected_headers
    end.

Definition select_headers (request : request) (redact_set : gset pystr)
    (capture_headers : list pystr) : dict :=
  fold_left (select_header request redact_set) capture_headers [].

(** [payload.get(key, default)] for a string-valued key, the default being
    the empty string. *)
Definition get_str (key : pystr) (payload : dict) : pystr :=
  match dict_get key payload with
  | Some (JStr s) => s
  | _ => []
  end.

Definition fits (payload : dict) (max_bytes : Z) : bool :=
  compact_size payload <=? max_bytes.

Definition minimal_payload (request : request) : dict :=
  [(py "path", JStr (path request));
   (py "method", JStr (method request));
   (py "host", JStr (host request));
   (py "truncated", JBool true)].

(** [ctx] is the active request context, [None] when
    [has_request_context()] is false. *)
Definition _build_request_info (ctx : option request) (cfg : config) : option dict :=
  match ctx with
  | None => None
  | Some request =>
    let enabled := get (AIWAF_CAPTURE_EXTENDED_REQUEST_INFO cfg) false in
    if negb enabled then None else
    let max_bytes := get (AIWAF_EXTENDED_REQUEST_INFO_MAX_BYTES cfg) 4096 in
    let capture_headers :=
      get (AIWAF_EXTENDED_REQUEST_INFO_HEADERS cfg) DEFAULT_CAPTURE_HEADERS in
    let redact_headers :=
      get (AIWAF_EXTENDED_REQUEST_INFO_REDACT_HEADERS cfg) DEFAULT_REDACT_HEADERS in
    let redact_set := make_redact_set redact_headers in
    let selected_headers := select_headers request redact_set capture_headers in
    let payload :=
      [(py "url", JStr (url request));
       (py "path", JStr (path request));
       (py "query", JStr (query_string request));
       (py "method", JStr (method request));
       (py "host", JStr (host request));
       (py "headers", JObj selected_headers)] in
    if fits payload max_bytes then Some payload else
    let payload := dict_set (py "headers") (JObj []) payload in
    if fits payload max_bytes then Some payload else
    let query_val := get_str (py "query") payload in
    let '(payload, fitted) :=
      if truthy query_val then
        let payload := dict_set (py "query") (JStr (firstn 256 query_val)) payload in
        (payload, fits payload max_bytes)
      else (payload, false) in
    if fitted then Some payload else
    let url_val := get_str (py "url") payload in
    let '(payload, fitted) :=
      if truthy url_val then
        let payload := dict_set (py "url") (JStr (firstn 256 url_val)) payload in
        (payload, fits payload max_bytes)
      else (payload, false) in
    if fitted then Some payload else
    Some (minimal_payload request)
  end.

(** One call [add_ip_blacklist(ip, reason, extended_request_info=...)] to
    the storage collaborator. *)
Record blacklist_call := {
  call_ip : pystr;
  call_reason : pystr;
  call_extended_request_info : option dict
}.

(** [BlacklistManager.block(ip, reason)] with the default
    [extended_request_info=None]; [storage] is the sequence of calls made
    to [add_ip_blacklist] so far. *)
Definition block (ctx : option request) (cfg : config) (ip reason : pystr)
    (storage : list blacklist_call) : list blacklist_call :=
  let extended_request_info := _build_request_info ctx cfg in
  storage ++ [{| call_ip := ip; call_reason := reason;
                 call_extended_request_info := extended_request_info |}].

End BlacklistManager.

(** ** aiwaf_flask/honeypot_timing_middleware.py *)

Module HoneypotTimingMiddleware.
Import BlacklistManager.

(** The mutable state the hook touches: the module-level [_aiwaf_cache]
    and the storage behind [BlacklistManager]. *)
Record world := {
  _aiwaf_cache : gmap pystr Q;
  storage : list blacklist_call
}.

(** [jsonify({"error": "blocked"}), 403] *)
Inductive response := Blocked403.

(** [f"honeypot_get:{ip}"] *)
Definition cache_key (ip : pystr) : pystr := py "honeypot_get:" ++ ip.

(** Rounding of a non-negative rational to the nearest integer, ties to
    even. *)
Definition round_half_even (q : Q) : Z :=
  let n := Qnum q in
  let d := Zpos (Qden q) in
  let f := n / d in
  let r := n mod d in
  if 2 * r <? d then f
  else if d <? 2 * r then f + 1
  else if Z.even f then f else f + 1.

Definition decimal (z : Z) : pystr :=
  py (NilZero.string_of_uint (N.to_uint (Z.to_N z))).

(** [f"{x:.2f}"] *)
Definition format_2f (x : Q) : pystr :=
  let n := round_half_even (Qabs x * 100) in
  (if Qlt_bool x 0 then py "-" else [])
  ++ decimal (n / 100) ++ py "."
  ++ decimal ((n / 10) mod 10) ++ decimal (n mod 10).

(** [f"Form submitted too quickly ({time_diff:.2f}s)"] *)
Definition reason_of (time_diff : Q) : pystr :=
  py "Form submitted too quickly (" ++ format_2f time_diff ++ py "s)".

(** The [before_request] hook. [should_apply_honeypot] is the value of
    [should_apply_middleware('honeypot')], [is_authenticated] that of
    [_is_authenticated_request()], [ip] that of [get_ip()] and [now] that
    of [time.time()]; [now - get_time] is a subtraction of floats, and the
    comparison with the configured number is exact. The result is the
    response ([None]: the request proceeds) and the state left behind. *)
Definition before_request (cfg : config)
    (should_apply_honeypot is_authenticated : bool)
    (ip : pystr) (now : Q) (request : request) (w : world)
    : option response * world :=
  if negb should_apply_honeypot then (None, w) else
  if get (AIWAF_HONEYPOT_SKIP_AUTHENTICATED cfg) true && is_authenticated
  then (None, w) else
  if decide (method request = py "POST") then
    match _aiwaf_cache w !! cache_key ip with
    | Some get_time =>
        let time_diff := fsub now get_time in
        let min_time := get (AIWAF_MIN_FORM_TIME cfg) 1%Q in
        if Qlt_bool time_diff min_time then
          (Some Blocked403,
           {| _aiwaf_cache := _aiwaf_cache w;
              storage := block (Some request) cfg ip (reason_of time_diff)
                               (storage w) |})
        else (None, w)
    | None => (None, w)
    end
  else if decide (method request = py "GET") then
    (None,
     {| _aiwaf_cache := <[cache_key ip := now]> (_aiwaf_cache w);
        storage := storage w |})
  else (None, w).

End HoneypotTimingMiddleware.

(** ** The exemption resolver *)

Module Exemption.

(** Modelled from the spec: [aiwaf_flask/exemption_decorators.py] is not
    part of the sources at hand (only its tests and its caller
    [should_apply_middleware('honeypot')] are). The four layered rules of
    the per-route policy. *)
Inductive rule :=
| EXEMPT_ALL
| EXEMPT_FROM (names : list pystr)
| ONLY (names : list pystr)
| REQUIRE (names : list pystr).

Definition requires (detector : pystr) (r : rule) : bool :=
  match r with REQUIRE names => bool_decide (detector ∈ names) | _ => false end.

Definition exempts (detector : pystr) (r : rule) : bool :=
  match r with
  | EXEMPT_ALL => true
  | EXEMPT_FROM names => bool_decide (detector ∈ names)
  | _ => false
  end.

Definition admits (detector : pystr) (r : rule) : bool :=
  match r with ONLY names => bool_decide (detector ∈ names) | _ => true end.

(** Modelled from the spec: the resolution over the rules active for one
    route. REQUIRE: the listed detectors always run; EXEMPT_ALL: no
    detector runs; EXEMPT_FROM: the listed detectors are skipped; ONLY:
    exactly the listed detectors run. *)
Definition resolve (rules : list rule) (detector : pystr) : bool :=
  if existsb (requires detector) rules then true
  else if existsb (exempts detector) rules then false
  else forallb (admits detector) rules.

(** Modelled from the spec: [should_apply(detector, route)] combines all
    rules active for the matched route; a route without a policy is fully
    protected. *)
Definition should_apply (policy : gmap pystr (list rule))
    (detector route : pystr) : bool :=
  match policy !! route with
  | Some rules => resolve rules detector
  | None => true
  end.

End Exemption.

(** ** Specification-side definitions *)

Module Spec.
Import Benchmark BlacklistManager.

(** The number of configured keywords occurring in a path. *)
Definition keyword_hits (static_keywords : list pystr) (path_lower : pystr) : Z :=
  Z.of_nat (List.length (List.filter (contains path_lower) static_keywords)).

(** The timestamp of a record as a float: the stored float, the nearest
    double of a stored int, and 0.0 when the record has none. *)
Definition stamp (e : record) : Q :=
  match r_timestamp e with
  | Some (PFloat q) => q
  | Some (PInt z) => round64 (inject_Z z)
  | None => 0%Q
  end.

(** Record [j] counts toward the burst of the record at index [i] with
    timestamp [ts]: another record, whose timestamp is at most 10 away from
    [ts] by the double-precision difference. *)
Definition in_burst (entries : list record) (i : nat) (ts : Q) (j : nat) : bool :=
  negb (Nat.eqb i j) &&
  match entries !! j with
  | Some other => Qle_bool (Qabs (round64 (ts - stamp other))) 10
  | None => false
  end.

Definition burst (entries : list record) (i : nat) (ts : Q) : Z :=
  Z.of_nat (List.length (List.filter (in_burst entries i ts)
                                     (seq 0 (List.length entries)))).

(** The keyword hits of one record: zero when its keyword check is off. *)
Definition kw_hits_of (static_keywords : list pystr) (e : record) : Z :=
  if get (r_kw_check e) true
  then keyword_hits static_keywords (get (r_path_lower e) [])
  else 0.

Definition is_404 (e : record) : bool :=
  int (get (r_status e) (PInt 0)) =? 404.

Definition is_scanning_404 (e : record) : bool :=
  is_404 e && existsb (contains (get (r_path_lower e) [])) SCAN_MARKERS.

(** The sum of a list of integers. *)
Definition total (l : list Z) : Z := fold_right Z.add 0 l.

Definition count {A} (P : A -> bool) (l : list A) : Z :=
  Z.of_nat (List.length (List.filter P l)).

(** The five stages of the payload degradation, as the spec lists them. *)
Section Stages.
Variable request : request.
Variable selected_headers : dict.

Definition stage (url query : pystr) (headers : dict) : dict :=
  [(py "url", JStr url);
   (py "path", JStr (path request));
   (py "query", JStr query);
   (py "method", JStr (method request));
   (py "host", JStr (host request));
   (py "headers", JObj headers)].

Definition stage1 : dict :=
  stage (url request) (query_string request) selected_headers.
Definition stage2 : dict :=
  stage (url request) (query_string request) [].
Definition stage3 : dict :=
  stage (url request) (firstn 256 (query_string request)) [].
Definition stage4 : dict :=
  stage (firstn 256 (url request)) (firstn 256 (query_string request)) [].
Definition stage5 : dict :=
  [(py "path", JStr (path request));
   (py "method", JStr (method request));
   (py "host", JStr (host request));
   (py "truncated", JBool true)].

(** The first stage that fits the budget. *)
Definition degrade (max_bytes : Z) : dict :=
  match List.find (fun p => compact_size p <=? max_bytes)
                  [stage1; stage2; stage3; stage4] with
  | Some p => p
  | None => stage5
  end.
End Stages.

(** The configured values [_build_request_info] reads, with their
    defaults. *)
Definition max_bytes_of (cfg : config) : Z :=
  get (AIWAF_EXTENDED_REQUEST_INFO_MAX_BYTES cfg) 4096.

Definition redact_headers_of (cfg : config) : list pystr :=
  get (AIWAF_EXTENDED_REQUEST_INFO_REDACT_HEADERS cfg) DEFAULT_REDACT_HEADERS.

Definition capture_headers_of (cfg : config) : list pystr :=
  get (AIWAF_EXTENDED_REQUEST_INFO_HEADERS cfg) DEFAULT_CAPTURE_HEADERS.

Definition selected_headers_of (request : request) (cfg : config) : dict :=
  select_headers request (make_redact_set (redact_headers_of cfg))
                 (capture_headers_of cfg).



End Spec.

(** ** Concrete inputs *)

Module Samples.
Import Benchmark BlacklistManager HoneypotTimingMiddleware Exemption.

Definition entry (path_lower : string) (timestamp : Q) (status : Z)
    (kw_check : bool) : record :=
  {| r_ip := None; r_path_lower := Some (py path_lower);
     r_path_len := None; r_timestamp := Some (PFloat timestamp);
     r_response_time := None; r_status := Some (PInt status);
     r_status_idx := None; r_kw_check := Some kw_check;
     r_total_404 := None |}.

(** The entries of [benchmark_analysis_helpers]. *)
Definition bench_entries : list record :=
  [entry "/wp-admin" 1000 404 true; entry "/home" 1001 200 false].

(** One request hitting three of the keywords. *)
Definition hot_entries : list record :=
  [entry "/wp-admin/select.sql" 1000 200 true].

(** Two hundred unremarkable requests, one per minute. *)
Definition quiet_entries : list record :=
  map (fun k => entry "/home" (inject_Z (60 * Z.of_nat k)) 200 true) (seq 0 200).



(** The first record of [benchmark_analysis_helpers]. *)
Definition bench_record : record :=
  {| r_ip := Some (py "1.2.3.4"); r_path_lower := Some (py "/wp-admin");
     r_path_len := Some (PInt 9); r_timestamp := Some (PFloat 1000);
     r_response_time := Some (PFloat (1 # 10)); r_status := None;
     r_status_idx := Some (PInt 0); r_kw_check := Some true;
     r_total_404 := Some (PInt 2) |}.

(** The request and configuration of
    [test_block_with_request_context_size_limit_truncates]. *)
Definition size_limit_request : request :=
  {| url := py "https://example.com/very/long/path/for/testing/size/limit?payload="
            ++ repeat 120%N 2048;
     path := py "/very/long/path/for/testing/size/limit";
     query_string := py "payload=" ++ repeat 120%N 2048;
     method := py "POST";
     host := py "example.com";
     headers_get :=
       headers_of [(py "HTTP_USER_AGENT", py "agent-" ++ repeat 121%N 2048);
                   (py "HTTP_AUTHORIZATION", py "Bearer secret")] |}.

Definition test_config (max_bytes : Z) : config :=
  {| AIWAF_CAPTURE_EXTENDED_REQUEST_INFO := Some true;
     AIWAF_EXTENDED_REQUEST_INFO_MAX_BYTES := Some max_bytes;
     AIWAF_EXTENDED_REQUEST_INFO_HEADERS :=
       Some [py "User-Agent"; py "Authorization"];
     AIWAF_EXTENDED_REQUEST_INFO_REDACT_HEADERS := Some [py "Authorization"];
     AIWAF_HONEYPOT_SKIP_AUTHENTICATED := None;
     AIWAF_MIN_FORM_TIME := Some (1 # 2) |}.

(** The request of
    [test_block_with_request_context_attaches_extended_info], with the
    bearer token left open. *)
Definition login_request (token : pystr) : request :=
  {| url := py "https://example.com/login?x=1";
     path := py "/login";
     query_string := py "x=1";
     method := py "POST";
     host := py "example.com";
     headers_get :=
       headers_of [(py "HTTP_USER_AGENT", py "pytest-agent");
                   (py "HTTP_AUTHORIZATION", py "Bearer " ++ token)] |}.



Definition get_request : request :=
  {| url := py "http://localhost/test_post"; path := py "/test_post";
     query_string := []; method := py "GET"; host := py "localhost";
     headers_get := headers_of [] |}.

Definition post_request : request :=
  {| url := py "http://localhost/test_post"; path := py "/test_post";
     query_string := []; method := py "POST"; host := py "localhost";
     headers_get := headers_of [] |}.

Definition client : pystr := py "127.0.0.1".

Definition honeypot_config : config :=
  {| AIWAF_CAPTURE_EXTENDED_REQUEST_INFO := None;
     AIWAF_EXTENDED_REQUEST_INFO_MAX_BYTES := None;
     AIWAF_EXTENDED_REQUEST_INFO_HEADERS := None;
     AIWAF_EXTENDED_REQUEST_INFO_REDACT_HEADERS := None;
     AIWAF_HONEYPOT_SKIP_AUTHENTICATED := None;
     AIWAF_MIN_FORM_TIME := Some (1 # 2) |}.

Definition empty_world : world := {| _aiwaf_cache := ∅; storage := [] |}.

(** The time 0.3, as the float it is. *)
Definition after_0_3 : Q := round64 (3 # 10).

(** The state after a GET of [client] at time 0. *)
Definition after_get : world :=
  snd (before_request honeypot_config true false client 0 get_request empty_world).

(** The route of [test_required_protection]: exempted from rate limiting,
    with rate limiting required. *)
Definition critical_rules : list rule :=
  [EXEMPT_FROM [py "rate_limit"]; REQUIRE [py "rate_limit"]].

Definition critical_policy : gmap pystr (list rule) :=
  {[ py "/admin/critical" := critical_rules ]}.

End Samples.

(** ** aiwaf_flask/cli.py *)

Module Cli.

(** A CSV file as [csv.reader] yields it and [csv.writer] wrote it: a list
    of rows, each a list of fields, every line of the file ending with the
    line terminator as [csv.writer] leaves it. *)
Abbreviation row := (list pystr).

(** The data directory: each of the three files is absent or holds rows.
    Console output is not modelled, and no file operation fails. *)
Record data_dir := {
  whitelist_csv : option (list row);
  blacklist_csv : option (list row);
  keywords_csv : option (list row)
}.

(** The value kept per blacklisted ip: [{'timestamp': ..., 'reason': ...}]. *)
Record bl_entry := {
  bl_timestamp : pystr;
  bl_reason : pystr
}.

(** [next(reader, None)]: the first row is skipped as the header. *)
Definition skip_header (rows : list row) : list row := drop 1 rows.

(** The loop of [_read_csv_whitelist] and [_read_csv_keywords]. *)
Definition read_first_fields (rows : list row) : gset pystr :=
  fold_left (fun (acc : gset pystr) (r : row) =>
               match r with
               | [] => acc
               | value :: _ => acc ∪ {[ value ]}
               end)
            (skip_header rows) ∅.

Definition _read_csv_whitelist (d : data_dir) : gset pystr :=
  match whitelist_csv d with
  | None => ∅
  | Some rows => read_first_fields rows
  end.

Definition _read_csv_keywords (d : data_dir) : gset pystr :=
  match keywords_csv d with
  | None => ∅
  | Some rows => read_first_fields rows
  end.

(** The body of the loop of [_read_csv_blacklist]: rows with fewer than two
    fields are passed over, a missing reason is the empty string, and a
    later row of the same ip replaces the earlier one. *)
Definition blacklist_step (blacklist : list (pystr * bl_entry)) (r : row)
    : list (pystr * bl_entry) :=
  match r with
  | ip :: timestamp :: rest =>
      let reason := match rest with
                    | reason :: _ => reason
                    | [] => []
                    end in
      dict_set ip {| bl_timestamp := timestamp; bl_reason := reason |} blacklist
  | _ => blacklist
  end.

Definition read_blacklist_rows (rows : list row) : list (pystr * bl_entry) :=
  fold_left blacklist_step (skip_header rows) [].

Definition _read_csv_blacklist (d : data_dir) : list (pystr * bl_entry) :=
  match blacklist_csv d with
  | None => []
  | Some rows => read_blacklist_rows rows
  end.

(** Opening in append mode and writing one row, after the header if the
    file did not exist. The row is a row of its own because the last line
    of the file is terminated; after a last line without terminator, as an
    editor may leave it, the written row would be joined to that line,
    which is why the effect of an addition is stated for the directories
    the manager has produced ([managed]). *)
Definition append_row (header new_row : row) (file : option (list row))
    : option (list row) :=
  match file with
  | None => Some [header; new_row]
  | Some rows => Some (rows ++ [new_row])
  end.

(** [now] stands for [datetime.now().isoformat()]. *)
Definition _append_csv_whitelist (ip now : pystr) (d : data_dir) : data_dir :=
  {| whitelist_csv := append_row [py "ip"; py "timestamp"] [ip; now] (whitelist_csv d);
     blacklist_csv := blacklist_csv d;
     keywords_csv := keywords_csv d |}.

Definition _append_csv_blacklist (ip reason now : pystr) (d : data_dir) : data_dir :=
  {| whitelist_csv := whitelist_csv d;
     blacklist_csv := append_row [py "ip"; py "timestamp"; py "reason"]
                                 [ip; now; reason] (blacklist_csv d);
     keywords_csv := keywords_csv d |}.

Definition _append_csv_keyword (keyword now : pystr) (d : data_dir) : data_dir :=
  {| whitelist_csv := whitelist_csv d;
     blacklist_csv := blacklist_csv d;
     keywords_csv := append_row [py "keyword"; py "timestamp"] [keyword; now]
                                (keywords_csv d) |}.

(** [a <= b] on strings: lexicographic order of the code points. *)
Fixpoint str_leb (a b : pystr) : bool :=
  match a, b with
  | [], _ => true
  | _ :: _, [] => false
  | x :: a', y :: b' =>
      if (x <? y)%N then true
      else if (y <? x)%N then false
      else str_leb a' b'
  end.

(** [sorted(l, key=key)], as a stable insertion sort. *)
Fixpoint insert_by {A} (key : A -> pystr) (x : A) (l : list A) : list A :=
  match l with
  | [] => [x]
  | y :: l' =>
      if str_leb (key x) (key y) then x :: y :: l' else y :: insert_by key x l'
  end.

Definition sorted_by {A} (key : A -> pystr) (l : list A) : list A :=
  fold_right (insert_by key) [] l.

(** The order [sorted] leaves two neighbours in. *)
Definition key_le {A} (key : A -> pystr) (a b : A) : Prop :=
  str_leb (key a) (key b) = true.

(** [AIWAFManager.list_whitelist]: [sorted(list(whitelist))]. *)
Definition list_whitelist (d : data_dir) : list pystr :=
  sorted_by (fun ip => ip) (elements (_read_csv_whitelist d)).

(** [AIWAFManager.list_keywords] *)
Definition list_keywords (d : data_dir) : list pystr :=
  sorted_by (fun kw => kw) (elements (_read_csv_keywords d)).

(** [AIWAFManager.list_blacklist]: [dict(sorted(blacklist.items()))]; the
    keys being distinct, the items are ordered by key. *)
Definition list_blacklist (d : data_dir) : list (pystr * bl_entry) :=
  sorted_by fst (_read_csv_blacklist d).

(** [AIWAFManager.add_to_whitelist], [add_to_blacklist], [add_keyword]:
    the flag returned and the directory left behind. *)
Definition add_to_whitelist (ip now : pystr) (d : data_dir) : bool * data_dir :=
  (true, _append_csv_whitelist ip now d).

Definition add_to_blacklist (ip reason now : pystr) (d : data_dir)
    : bool * data_dir :=
  (true, _append_csv_blacklist ip reason now d).

Definition add_keyword (keyword now : pystr) (d : data_dir) : bool * data_dir :=
  (true, _append_csv_keyword keyword now d).

(** [AIWAFManager.remove_from_whitelist]. [clock k] is the value of
    [datetime.now().isoformat()] when the [k]-th row is written. *)
Definition remove_from_whitelist (ip : pystr) (clock : nat -> pystr)
    (d : data_dir) : bool * data_dir :=
  match whitelist_csv d with
  | None => (false, d)
  | Some _ =>
      let current := list_whitelist d in
      if negb (bool_decide (ip ∈ current)) then (false, d)
      else
        let kept := filter (fun existing_ip => existing_ip <> ip) current in
        (true,
         {| whitelist_csv :=
              Some ([py "ip"; py "timestamp"]
                    :: imap (fun k existing_ip => [existing_ip; clock k]) kept);
            blacklist_csv := blacklist_csv d;
            keywords_csv := keywords_csv d |})
  end.

(** [AIWAFManager.remove_from_blacklist]; the entries read from the CSV
    file are always dicts, so the branch for other values is never taken. *)
Definition remove_from_blacklist (ip : pystr) (d : data_dir) : bool * data_dir :=
  match blacklist_csv d with
  | None => (false, d)
  | Some _ =>
      let current := list_blacklist d in
      if negb (bool_decide (ip ∈ map fst current)) then (false, d)
      else
        let kept := filter (fun item => fst item <> ip) current in
        (true,
         {| whitelist_csv := whitelist_csv d;
            blacklist_csv :=
              Some ([py "ip"; py "timestamp"; py "reason"]
                    :: map (fun item => [fst item; bl_timestamp (snd item);
                                         bl_reason (snd item)]) kept);
            keywords_csv := keywords_csv d |})
  end.

(** The value a blacklisted ip maps to in an imported configuration: a JSON
    object with string fields, or anything else. *)
Inductive import_data :=
| DataDict (fields : list (pystr * pystr))
| DataOther.

(** The JSON document [export_config] writes and [import_config] reads,
    reduced to the three keys [import_config] looks at; each may be
    missing. *)
Record config_file := {
  cf_whitelist : option (list pystr);
  cf_blacklist : option (list (pystr * import_data));
  cf_keywords : option (list pystr)
}.

(** [AIWAFManager.export_config]: the flag returned and the document
    written. *)
Definition export_config (d : data_dir) : bool * config_file :=
  (true,
   {| cf_whitelist := Some (list_whitelist d);
      cf_blacklist :=
        Some (map (fun item =>
                     (fst item,
                      DataDict [(py "timestamp", bl_timestamp (snd item));
                                (py "reason", bl_reason (snd item))]))
                  (list_blacklist d));
      cf_keywords := Some (list_keywords d) |}).

(** [data.get('reason', 'Imported from config') if isinstance(data, dict)
    else 'Imported from config'] *)
Definition imported_reason (data : import_data) : pystr :=
  match data with
  | DataDict fields =>
      match dict_get (py "reason") fields with
      | Some reason => reason
      | None => py "Imported from config"
      end
  | DataOther => py "Imported from config"
  end.

(** The running state of [import_config]: the successes counted, the
    number of additions made (the index of the next clock reading) and the
    data directory. *)
Record import_state := {
  success_count : nat;
  calls : nat;
  dir : data_dir
}.

Definition count_call (st : import_state) (result : bool * data_dir)
    : import_state :=
  {| success_count :=
       if fst result then S (success_count st) else success_count st;
     calls := S (calls st);
     dir := snd result |}.

(** [AIWAFManager.import_config], from the parsed document on. [clock k] is
    the time of the [k]-th addition. *)
Definition import_config (config : config_file) (clock : nat -> pystr)
    (d : data_dir) : bool * nat * data_dir :=
  let st := {| success_count := 0; calls := 0; dir := d |} in
  let st :=
    fold_left (fun st ip =>
                 count_call st (add_to_whitelist ip (clock (calls st)) (dir st)))
              (get (cf_whitelist config) []) st in
  let st :=
    fold_left (fun st (item : pystr * import_data) =>
                 let reason := imported_reason (snd item) in
                 count_call st (add_to_blacklist (fst item) reason
                                                 (clock (calls st)) (dir st)))
              (get (cf_blacklist config) []) st in
  let st :=
    fold_left (fun st keyword =>
                 count_call st (add_keyword keyword (clock (calls st)) (dir st)))
              (get (cf_keywords config) []) st in
  (true, success_count st, dir st).

(** A data directory with none of the three files. *)
Definition fresh_dir : data_dir :=
  {| whitelist_csv := None; blacklist_csv := None; keywords_csv := None |}.

(** The data directories the manager has produced: a directory without
    files, then any sequence of its operations. Every line of their files
    was written by [csv.writer]. *)
Inductive managed : data_dir -> Prop :=
| managed_fresh : managed fresh_dir
| managed_add_to_whitelist ip now d :
    managed d -> managed (snd (add_to_whitelist ip now d))
| managed_add_to_blacklist ip reason now d :
    managed d -> managed (snd (add_to_blacklist ip reason now d))
| managed_add_keyword keyword now d :
    managed d -> managed (snd (add_keyword keyword now d))
| managed_remove_from_whitelist ip clock d :
    managed d -> managed (snd (remove_from_whitelist ip clock d))
| managed_remove_from_blacklist ip d :
    managed d -> managed (snd (remove_from_blacklist ip d))
| managed_import_config config clock d :
    managed d -> managed (snd (import_config config clock d)).

(** None of the three files exists without a row. *)
Definition with_rows (d : data_dir) : Prop :=
  whitelist_csv d <> Some [] /\ blacklist_csv d <> Some []
  /\ keywords_csv d <> Some [].

End Cli.

(** ** Further specification-side definitions *)

Module More.
Import Benchmark.

(** A record lies within 10 seconds of the timestamp [ts], as the scorer
    measures it. *)
Definition near (ts : Q) (other : record) : bool :=
  Qle_bool (Qabs (fsub ts (timestamp_of other))) 10.

(** The number of records within 10 seconds of [ts], a record at [ts]
    itself included. *)
Definition near_count (entries : list record) (ts : Q) : Z :=
  Spec.count (near ts) entries.

(** [len(s.encode("utf-8"))] *)
Definition utf8_size (s : pystr) : Z := Z.of_nat (List.length (encode_utf8 s)).

(** The encoded size of a string between its quotes. *)
Definition content_size (s : pystr) : Z := utf8_size (flat_map escape_char s).

(** The encoded size of a serialised value, computed on the value. *)
Fixpoint json_size (v : json) : Z :=
  match v with
  | JStr s => content_size s + 2
  | JBool b => if b then 4 else 5
  | JObj items =>
      2 + (fix members (l : list (pystr * json)) : Z :=
             match l with
             | [] => 0
             | [(k, w)] => content_size k + 3 + json_size w
             | (k, w) :: rest =>
                 content_size k + 3 + json_size w + 1 + members rest
             end) items
  end.

(** [app.config] with another byte budget. *)
Definition with_max_bytes (cfg : config) (max_bytes : Z) : config :=
  {| AIWAF_CAPTURE_EXTENDED_REQUEST_INFO := AIWAF_CAPTURE_EXTENDED_REQUEST_INFO cfg;
     AIWAF_EXTENDED_REQUEST_INFO_MAX_BYTES := Some max_bytes;
     AIWAF_EXTENDED_REQUEST_INFO_HEADERS := AIWAF_EXTENDED_REQUEST_INFO_HEADERS cfg;
     AIWAF_EXTENDED_REQUEST_INFO_REDACT_HEADERS :=
       AIWAF_EXTENDED_REQUEST_INFO_REDACT_HEADERS cfg;
     AIWAF_HONEYPOT_SKIP_AUTHENTICATED := AIWAF_HONEYPOT_SKIP_AUTHENTICATED cfg;
     AIWAF_MIN_FORM_TIME := AIWAF_MIN_FORM_TIME cfg |}.

(** A stripped header name is one of the configured capture names. *)
Definition configured (cfg : config) (key : pystr) : bool :=
  existsb (fun h => truthy h && bool_decide (strip h = key))
          (Spec.capture_headers_of cfg).

(** The value a captured header is stored with. *)
Definition captured_value (cfg : config) (key value : pystr) : json :=
  if bool_decide (lower key ∈ BlacklistManager.make_redact_set
                                (Spec.redact_headers_of cfg))
  then JStr BlacklistManager.REDACTED else JStr value.

(** One request reaching the honeypot hook, with the values the hook reads
    from its collaborators. *)
Record event := {
  ev_should_apply : bool;
  ev_authenticated : bool;
  ev_ip : pystr;
  ev_now : Q;
  ev_request : request
}.

(** The state left by the hook after one request, and after a sequence of
    requests handled in order. *)
Definition handle (cfg : config) (w : HoneypotTimingMiddleware.world)
    (e : event) : HoneypotTimingMiddleware.world :=
  snd (HoneypotTimingMiddleware.before_request cfg (ev_should_apply e)
         (ev_authenticated e) (ev_ip e) (ev_now e) (ev_request e) w).

Definition run (cfg : config) (events : list event)
    (w : HoneypotTimingMiddleware.world) : HoneypotTimingMiddleware.world :=
  fold_left (handle cfg) events w.

(** The detector acts on a request: honeypot checks apply to the route and
    the request is not skipped as authenticated. *)
Definition active (cfg : config) (should_apply_honeypot is_authenticated : bool)
    : bool :=
  should_apply_honeypot
  && negb (get (AIWAF_HONEYPOT_SKIP_AUTHENTICATED cfg) true && is_authenticated).

End More.

Module MoreSamples.
Import Benchmark Samples.

(** Five probes for a dotfile, each answered with 404. *)
Definition probe_entries : list record :=
  map (fun k => entry "/.env" (inject_Z (100 * Z.of_nat k)) 404 false) (seq 0 5).

(** Twenty-six requests for an admin page within the same second. *)
Definition flood_entries : list record :=
  repeat (entry "/wp-admin" 1000 200 true) 26.

(** Requests arriving between a client's GET and its POST: a GET of another
    client and an earlier, too quick POST of the client itself. *)
Definition between_events : list More.event :=
  [ {| More.ev_should_apply := true; More.ev_authenticated := false;
       More.ev_ip := py "10.0.0.9"; More.ev_now := 1 # 16;
       More.ev_request := get_request |};
    {| More.ev_should_apply := true; More.ev_authenticated := false;
       More.ev_ip := client; More.ev_now := 1 # 8;
       More.ev_request := post_request |} ].

(** A world that already holds an older timestamp for the client. *)
Definition stale_world : HoneypotTimingMiddleware.world :=
  {| HoneypotTimingMiddleware._aiwaf_cache :=
       {[ HoneypotTimingMiddleware.cache_key client := (-50)%Q ]};
     HoneypotTimingMiddleware.storage := [] |}.

(** A data directory: a whitelist with a repeated ip and a blank line, a
    blacklist with a re-blocked ip, a one-field row and a row without a
    reason, and no keywords file. *)
Definition sample_dir : Cli.data_dir :=
  {| Cli.whitelist_csv :=
       Some [[py "ip"; py "timestamp"];
             [py "10.0.0.2"; py "2026-01-01T00:00:01"];
             [py "10.0.0.1"; py "2026-01-01T00:00:02"];
             [];
             [py "10.0.0.2"; py "2026-01-01T00:00:03"]];
     Cli.blacklist_csv :=
       Some [[py "ip"; py "timestamp"; py "reason"];
             [py "6.6.6.6"; py "2026-01-01T00:00:01"; py "scan"];
             [py "7.7.7.7"];
             [py "6.6.6.6"; py "2026-01-01T00:00:02"; py "flood"];
             [py "1.2.3.4"; py "2026-01-01T00:00:03"]];
     Cli.keywords_csv := None |}.

(** A directory the manager has produced: two ips whitelisted, one of them
    removed again, and one ip blacklisted twice. *)
Definition tool_dir : Cli.data_dir :=
  snd (Cli.add_to_blacklist (py "6.6.6.6") (py "flood") (py "2026-01-01T00:00:05")
    (snd (Cli.add_to_blacklist (py "6.6.6.6") (py "scan") (py "2026-01-01T00:00:04")
      (snd (Cli.remove_from_whitelist (py "10.0.0.3")
              (fun _ => py "2026-01-01T00:00:03")
        (snd (Cli.add_to_whitelist (py "10.0.0.3") (py "2026-01-01T00:00:02")
          (snd (Cli.add_to_whitelist (py "10.0.0.1") (py "2026-01-01T00:00:01")
                  Cli.fresh_dir))))))))).

(** A directory whose whitelist file exists but holds no row. *)
Definition blank_dir : Cli.data_dir :=
  {| Cli.whitelist_csv := Some [];
     Cli.blacklist_csv := None;
     Cli.keywords_csv := None |}.

(** A configuration document to import. *)
Definition sample_doc : Cli.config_file :=
  {| Cli.cf_whitelist := Some [py "8.8.8.8"];
     Cli.cf_blacklist :=
       Some [(py "6.6.6.6", Cli.DataDict [(py "reason", py "imported")]);
             (py "5.5.5.5", Cli.DataOther)];
     Cli.cf_keywords := None |}.

End MoreSamples.

(** ** The kernel's binary64 numbers

    The doubles of the kernel, with which the rounding of [Py.round64] is
    compared on sample values. *)

Module Binary64.
Import PrimFloat SpecFloat FloatOps.

(** The exact value of a finite double. *)
Definition value (f : PrimFloat.float) : Q :=
  match Prim2SF f with
  | S754_finite s m e =>
      let v := scale2 (inject_Z (Zpos m)) e in if s then (- v)%Q else v
  | _ => 0%Q
  end.

(** Doubles of all sizes: timestamps, small deltas, powers of two and their
    neighbours, subnormal numbers. *)
Definition doubles : list PrimFloat.float :=
  [0; 0.5; 0.25; 10; 1000; 0x1p-70; (-0x1p-60); 0x1.f426666666666p+9;
   0x1.999999999999ap-4; 0x1.3333333333333p-2; 0x1.954fc4007df3bp+30;
   0x1.6345785d8a0000p+56; 0x1.7e43c8800759cp+996; 0x1.921f9f01b866ep+1;
   (-2.5); 0x1.fffffffffffffp52; 0x1p53; 0x1.0000000000001p0; 0x1p-53;
   0x1.8p-53; 0x1p-54; 0x1p-1022; 0x0.00000000007e8p-1022; 0x1p-1074]%float.

(** [a - b] of the kernel has the value [fsub] gives. *)
Definition sub_agrees (a b : PrimFloat.float) : bool :=
  Qeq_bool (value (a - b)%float) (fsub (value a) (value b)).

(** Ints around and beyond 2^53. *)
Definition ints : list Z :=
  [0; 1; 1000; 9007199254740992; 9007199254740993; 9007199254740995;
   100000000000000001; 100000000000000009; 1700000000000000011;
   4611686018427387903; 4611686018427388416; 4611686018427388417].

(** The conversion of an int by the kernel has the value [float] gives. *)
Definition of_int_agrees (z : Z) : bool :=
  Qeq_bool (value (of_uint63 (Uint63.of_Z z))) (Py.float (PInt z)).

End Binary64.

(** ** Facts about the Python primitives *)

Section PyFacts.

Lemma startswith_spec (p s : pystr) :
  startswith p s = true <-> exists post, s = p ++ post.
Proof.
  revert s. induction p as [|a p IH]; intros s; simpl.
  - split; [intros _; now exists s | reflexivity].
  - destruct s as [|b s].
    + split; [discriminate | intros [post H]; discriminate].
    + rewrite andb_true_iff, N.eqb_eq, IH. split.
      * intros [-> [post ->]]. now exists post.
      * intros [post H]. injection H as -> ->. split; [reflexivity | now exists post].
Qed.

(** [kw in s] holds exactly when [kw] is a contiguous substring of [s]. *)
Lemma contains_spec (s kw : pystr) :
  contains s kw = true <-> exists pre post, s = pre ++ kw ++ post.
Proof.
  induction s as [|c s IH]; simpl; rewrite orb_true_iff, startswith_spec.
  - split.
    + intros [[post H] | H]; [now exists [], post | discriminate].
    + intros (pre & post & H). left.
      destruct pre; [now exists post | discriminate].
  - rewrite IH. split.
    + intros [[post H] | (pre & post & H)].
      * now exists [], post.
      * exists (c :: pre), post. simpl. now rewrite H.
    + intros (pre & post & H). destruct pre as [|c' pre]; simpl in H.
      * left. now exists post.
      * right. injection H as _ H. now exists pre, post.
Qed.

Lemma Qlt_bool_iff (x y : Q) : Qlt_bool x y = true <-> (x < y)%Q.
Proof.
  unfold Qlt_bool. rewrite negb_true_iff. split.
  - intros H. apply Qnot_le_lt. intros Hle.
    apply Qle_bool_iff in Hle. congruence.
  - intros H. destruct (Qle_bool y x) eqn:E; [|reflexivity].
    apply Qle_bool_iff in E. exfalso. revert E. now apply Qlt_not_le.
Qed.



Lemma map_snd_enumerate {A B} (f : A -> B) (l : list A) (k : nat) :
  map (fun ie => f (snd ie)) (combine (seq k (List.length l)) l) = map f l.
Proof.
  revert k. induction l as [|a l IH]; intros k; simpl; [reflexivity|].
  now rewrite IH.
Qed.

(** A loop that increments a counter on a condition counts the elements
    satisfying it. *)
Lemma count_fold {A} (F : Z -> A -> Z) (P : A -> bool) (l : list A) (a : Z) :
  (forall acc x, F acc x = if P x then acc + 1 else acc) ->
  fold_left F l a = a + Z.of_nat (List.length (List.filter P l)).
Proof.
  intros HF. revert a. induction l as [|x l IH]; intros a; simpl.
  - lia.
  - rewrite IH, HF. destruct (P x); simpl; lia.
Qed.

(** Counting over [enumerate] is counting over the indices. *)
Lemma count_enumerate {A} (P : nat -> A -> bool) (l : list A) (k : nat) :
  List.length (List.filter (fun ie => P (fst ie) (snd ie))
                           (combine (seq k (List.length l)) l))
  = List.length (List.filter
      (fun j => match l !! (j - k)%nat with Some o => P j o | None => false end)
      (seq k (List.length l))).
Proof.
  revert k. induction l as [|a l IH]; intros k; [reflexivity|].
  cbn [List.length seq combine List.filter fst snd].
  rewrite Nat.sub_diag. cbn [lookup list_lookup].
  assert (Hrest :
    List.filter (fun j => match (a :: l) !! (j - k)%nat with
                          | Some o => P j o | None => false end)
                (seq (S k) (List.length l))
    = List.filter (fun j => match l !! (j - S k)%nat with
                            | Some o => P j o | None => false end)
                  (seq (S k) (List.length l))).
  { apply List.filter_ext_in. intros j Hj. apply in_seq in Hj.
    replace (j - k)%nat with (S (j - S k)) by lia. reflexivity. }
  destruct (P k a); cbn [List.length]; rewrite Hrest, IH; reflexivity.
Qed.

Lemma fold_append {A B} (f : A -> B) (l : list A) (acc : list B) :
  fold_left (fun acc x => acc ++ [f x]) l acc = acc ++ map f l.
Proof.
  revert acc. induction l as [|x l IH]; intros acc; simpl.
  - now rewrite app_nil_r.
  - rewrite IH, <- app_assoc. reflexivity.
Qed.

End PyFacts.

(** ** Rounding to the nearest double *)

Section RoundingFacts.

Lemma round64_zero (x : Q) : Qnum x = 0 -> round64 x = 0%Q.
Proof.
  intros H. unfold round64, round_magnitude. destruct x as [n d].
  cbn in *. subst n. reflexivity.
Qed.

(** [x - x] is [0.0]. *)
Lemma fsub_diag (x : Q) : fsub x x = 0%Q.
Proof.
  apply round64_zero. destruct x as [n d]. cbn. lia.
Qed.

(** The magnitude of a rounded number is the rounded magnitude. *)
Lemma Qabs_round64 (x : Q) :
  (Qabs (round64 x) == Qabs (round_magnitude (Qabs x)))%Q.
Proof.
  unfold round64. destruct (Qnum x <? 0); [apply Qabs_opp | reflexivity].
Qed.


(** Rounding to the nearest integer stays below an integer bound. *)
Lemma round_nearest_even_bounds (n : Z) (d : positive) (t : Z) :
  0 <= n -> n <= t * Zpos d ->
  0 <= round_nearest_even (n # d) <= t.
Proof.
  intros Hn Ht. unfold round_nearest_even. cbn [Qnum Qden].
  pose proof (Z.div_mod n (Zpos d) ltac:(lia)) as Hdm.
  pose proof (Z.mod_pos_bound n (Zpos d) ltac:(lia)) as Hr.
  assert (Hq : 0 <= n / Zpos d) by (apply Z.div_pos; lia).
  assert (Hqt : n / Zpos d <= t) by (apply Z.div_le_upper_bound; lia).
  assert (Hstep : 0 < n mod Zpos d -> n / Zpos d + 1 <= t) by nia.
  destruct (2 * (n mod Zpos d) <? Zpos d) eqn:E1; [lia|].
  apply Z.ltb_ge in E1.
  destruct (Zpos d <? 2 * (n mod Zpos d)); [lia|].
  destruct (Z.even (n / Zpos d)); lia.
Qed.

Lemma floor_log2_le (n : Z) (d : positive) :
  0 < n -> floor_log2 (n # d) <= Z.log2 n - Z.log2 (Zpos d).
Proof.
  intros _. unfold floor_log2. cbn [Qnum Qden].
  destruct (Qle_bool _ _); lia.
Qed.

(** Rounding does not cross 10, which is a double. *)
Lemma round_magnitude_10 (y : Q) :
  (0 <= y)%Q -> (y <= 10)%Q ->
  (0 <= round_magnitude y)%Q /\ (round_magnitude y <= 10)%Q.
Proof.
  destruct y as [n d]. unfold Qle. cbn [Qnum Qden]. intros H0 H10.
  unfold round_magnitude. cbn [Qnum].
  destruct (Z.eqb_spec n 0) as [->|Hn]; [split; unfold Qle; cbn; lia|].
  assert (Hpos : 0 < n) by lia.
  set (e := Z.max (floor_log2 (n # d) - 52) (-1074)).
  assert (He : e <= -48).
  { pose proof (floor_log2_le n d Hpos) as Hk.
    assert (Z.log2 n <= Z.log2 (Zpos d * 2 ^ 4)).
    { apply Z.log2_le_mono. lia. }
    rewrite Z.log2_mul_pow2 in H by lia. subst e. lia. }
  assert (Hp : 0 < 2 ^ (- e)) by (apply Z.pow_pos_nonneg; lia).
  assert (Hinner : scale2 (n # d) (- e) = (n * 2 ^ (- e) # d)).
  { unfold scale2. cbn [Qnum Qden].
    destruct (Z.leb_spec 0 (- e)) as [_|Hbad]; [reflexivity | lia]. }
  rewrite Hinner.
  assert (Hscaled : n * 2 ^ (- e) <= 10 * 2 ^ (- e) * Zpos d).
  { replace (10 * 2 ^ (- e) * Zpos d) with (10 * Zpos d * 2 ^ (- e)) by ring.
    apply Z.mul_le_mono_nonneg_r; lia. }
  assert (Hnonneg : 0 <= n * 2 ^ (- e)) by (apply Z.mul_nonneg_nonneg; lia).
  pose proof (round_nearest_even_bounds (n * 2 ^ (- e)) d (10 * 2 ^ (- e))
                Hnonneg Hscaled) as [Hlo Hhi].
  set (m := round_nearest_even (n * 2 ^ (- e) # d)) in *.
  unfold scale2. cbn [inject_Z Qnum Qden].
  destruct (Z.leb_spec 0 e) as [Hbad|_]; [lia|].
  unfold Qle. cbn [Qnum Qden].
  rewrite Pos.mul_1_l, Z2Pos.id by lia. lia.
Qed.

Lemma round64_within_10 (x : Q) :
  (Qabs x <= 10)%Q -> (Qabs (round64 x) <= 10)%Q.
Proof.
  intros H. rewrite Qabs_round64.
  destruct (round_magnitude_10 (Qabs x) (Qabs_nonneg x) H) as [Hlo Hhi].
  now rewrite Qabs_pos.
Qed.


(** On the sample values, the difference of two floats and the conversion
    of an int are those of the kernel's binary64 arithmetic. *)
Lemma round64_agrees_with_binary64 :
  forallb (fun a => forallb (Binary64.sub_agrees a) Binary64.doubles)
          Binary64.doubles = true
  /\ forallb Binary64.of_int_agrees Binary64.ints = true.
Proof. split; vm_compute; reflexivity. Qed.

End RoundingFacts.

(** ** The anomaly scorer and the feature extractor *)

Section BenchmarkFacts.
Import Benchmark.
Variable static_keywords : list pystr.

Lemma count_keywords_spec (path_lower : pystr) :
  count_keywords static_keywords path_lower
  = Spec.keyword_hits static_keywords path_lower.
Proof.
  unfold count_keywords, Spec.keyword_hits.
  rewrite (count_fold _ (contains path_lower)); [lia | reflexivity].
Qed.

Lemma extract_features_map (records : list record) :
  extract_features_python records static_keywords
  = map (extract_one static_keywords) records.
Proof. unfold extract_features_python. now rewrite fold_append. Qed.

(** The state of the main loop after any number of iterations. *)
Lemma loop_body_fold (entries : list record) (l : list (nat * record))
    (st : loop_state) :
  fold_left (loop_body entries static_keywords) l st =
  {| recent_kw_hits :=
       recent_kw_hits st
       ++ map (fun ie => Spec.kw_hits_of static_keywords (snd ie)) l;
     recent_404s :=
       recent_404s st + Spec.count (fun ie => Spec.is_404 (snd ie)) l;
     recent_burst_counts :=
       recent_burst_counts st
       ++ map (fun ie => entry_burst_of entries (fst ie) (timestamp_of (snd ie))) l;
     st_scanning_404s :=
       st_scanning_404s st
       + Spec.count (fun ie => Spec.is_scanning_404 (snd ie)) l |}.
Proof.
  revert st. induction l as [|[i e] l IH]; intros st.
  - destruct st. unfold Spec.count. simpl.
    rewrite !app_nil_r, !Z.add_0_r. reflexivity.
  - cbn [fold_left]. rewrite IH. clear IH.
    unfold loop_body, Spec.count, Spec.kw_hits_of, Spec.is_scanning_404,
      Spec.is_404.
    cbn [recent_kw_hits recent_404s recent_burst_counts st_scanning_404s
         map List.filter fst snd].
    rewrite count_keywords_spec, <- !app_assoc.
    cbn [app].
    destruct (int (get (r_status e) (PInt 0)) =? 404);
      cbn [andb];
      [destruct (existsb _ SCAN_MARKERS)|];
      cbn [List.length]; f_equal; lia.
Qed.

Lemma count_snd_enumerate (P : record -> bool) (entries : list record) :
  Spec.count (fun ie => P (snd ie)) (enumerate entries) = Spec.count P entries.
Proof.
  unfold Spec.count, enumerate. f_equal.
  rewrite <- (length_map (fun ie : nat * record => snd ie)).
  rewrite <- (length_map (fun e : record => e) (List.filter P entries)).
  f_equal. generalize 0%nat.
  induction entries as [|e l IH]; intros k; [reflexivity|].
  cbn [List.length seq combine List.filter snd].
  destruct (P e); cbn [map snd]; now rewrite IH.
Qed.

Lemma run_loop_spec (entries : list record) :
  run_loop entries static_keywords =
  {| recent_kw_hits := map (Spec.kw_hits_of static_keywords) entries;
     recent_404s := Spec.count Spec.is_404 entries;
     recent_burst_counts :=
       map (fun ie => entry_burst_of entries (fst ie) (timestamp_of (snd ie)))
           (enumerate entries);
     st_scanning_404s := Spec.count Spec.is_scanning_404 entries |}.
Proof.
  unfold run_loop. rewrite loop_body_fold.
  cbn [loop_init recent_kw_hits recent_404s recent_burst_counts
       st_scanning_404s app].
  rewrite !count_snd_enumerate, !Z.add_0_l.
  unfold enumerate at 1. rewrite map_snd_enumerate. reflexivity.
Qed.

(** The timestamp the loop reads is the record's timestamp as a float. *)
Lemma timestamp_of_stamp (e : record) : timestamp_of e = Spec.stamp e.
Proof.
  unfold timestamp_of, Spec.stamp.
  destruct (r_timestamp e) as [[z|q]|]; reflexivity.
Qed.

Lemma entry_burst_spec (entries : list record) (i : nat) (ts : Q) :
  entry_burst_of entries i ts = Spec.burst entries i ts.
Proof.
  unfold entry_burst_of, Spec.burst, enumerate.
  pose (P := fun (j : nat) (other : record) =>
    negb (Nat.eqb i j) && Qle_bool (Qabs (fsub ts (timestamp_of other))) 10).
  rewrite (count_fold _ (fun ie => P (fst ie) (snd ie))).
  - rewrite (count_enumerate P), Z.add_0_l. do 2 f_equal.
    apply List.filter_ext. intros j. rewrite Nat.sub_0_r.
    unfold Spec.in_burst, P. destruct (entries !! j) as [other|].
    + now rewrite timestamp_of_stamp.
    + now rewrite andb_false_r.
  - intros acc [j other]. unfold P. cbn [fst snd].
    destruct (Nat.eqb i j); reflexivity.
Qed.



Lemma sum_total (l : list Z) : sum l = Spec.total l.
Proof.
  unfold sum, Spec.total.
  assert (H : forall a, fold_left Z.add l a = a + fold_right Z.add 0 l).
  { induction l as [|x l IH]; intros a; simpl; [lia|]. rewrite IH. lia. }
  now rewrite H.
Qed.

Lemma mean_spec (l : list Z) :
  l <> [] ->
  mean l = (inject_Z (Spec.total l) / inject_Z (Z.of_nat (List.length l)))%Q.
Proof.
  intros H. destruct l as [|x l]; [congruence|].
  unfold mean. now rewrite sum_total.
Qed.

Lemma mean_zero (l : list Z) : Forall (fun x => x = 0) l -> (mean l == 0)%Q.
Proof.
  intros H. destruct l as [|x l]; [reflexivity|].
  unfold mean. rewrite sum_total.
  assert (Ht : Spec.total (x :: l) = 0).
  { induction H as [|y l' Hy _ IH]; [reflexivity|]. simpl. lia. }
  rewrite Ht. unfold Qdiv. apply Qmult_0_l.
Qed.

End BenchmarkFacts.


Section Verdict.
Import Benchmark.

Lemma count_none {A} (P : A -> bool) (l : list A) :
  Forall (fun x => P x = false) l -> Spec.count P l = 0.
Proof.
  intros H. unfold Spec.count.
  induction H as [|x l Hx _ IH]; [reflexivity|].
  cbn [List.filter]. now rewrite Hx.
Qed.

(** The verdict, read off the returned aggregates. *)
Lemma verdict_unfold (entries : list record) (static_keywords : list pystr) :
  let s := analyze_recent_behavior_python entries static_keywords in
  should_block s =
  if Qeq_bool (avg_kw_hits s) 0 && (max_404s s =? 0) then false
  else negb (Qlt_bool (avg_kw_hits s) 3 && (scanning_404s s <? 5)
             && (legitimate_404s s <? 20) && Qlt_bool (avg_burst s) 25
             && (total_requests s <? 150)).
Proof. reflexivity. Qed.

(** The aggregates of the snapshot, in terms of the input sequence. *)
Lemma analyze_aggregates (entries : list record) (static_keywords : list pystr) :
  let s := analyze_recent_behavior_python entries static_keywords in
  avg_kw_hits s = mean (map (Spec.kw_hits_of static_keywords) entries)
  /\ max_404s s = Spec.count Spec.is_404 entries
  /\ scanning_404s s = Spec.count Spec.is_scanning_404 entries
  /\ legitimate_404s s = max_404s s - scanning_404s s
  /\ total_requests s = Z.of_nat (List.length entries).
Proof.
  cbv zeta. unfold analyze_recent_behavior_python.
  rewrite run_loop_spec. cbn. repeat split; reflexivity.
Qed.

(** C1. The verdict of the anomaly scorer: [should_block] is false exactly
    when all five bounds hold (avg_kw_hits < 3, scanning_404s < 5,
    legitimate_404s < 20, avg_burst < 25, total_requests < 150) or the
    override applies (avg_kw_hits == 0 and max_404s == 0). A sequence whose
    records all have zero keyword hits and no 404 status is never blocked,
    whatever its length; an average of at least 3 keyword hits always
    blocks. *)
Theorem should_block_verdict (entries : list record) (static_keywords : list pystr) :
  let s := analyze_recent_behavior_python entries static_keywords in
  (should_block s = false <->
     ((avg_kw_hits s < 3)%Q /\ scanning_404s s < 5 /\ legitimate_404s s < 20
      /\ (avg_burst s < 25)%Q /\ total_requests s < 150)
     \/ ((avg_kw_hits s == 0)%Q /\ max_404s s = 0))
  /\ (Forall (fun e => Spec.kw_hits_of static_keywords e = 0
                       /\ Spec.is_404 e = false) entries ->
      should_block s = false)
  /\ ((3 <= avg_kw_hits s)%Q -> should_block s = true).
Proof.
  intros s.
  assert (Hiff : should_block s = false <->
     ((avg_kw_hits s < 3)%Q /\ scanning_404s s < 5 /\ legitimate_404s s < 20
      /\ (avg_burst s < 25)%Q /\ total_requests s < 150)
     \/ ((avg_kw_hits s == 0)%Q /\ max_404s s = 0)).
  { subst s. rewrite verdict_unfold.
    set (s := analyze_recent_behavior_python entries static_keywords).
    rewrite <- !Qlt_bool_iff, <- Qeq_bool_iff, <- !Z.ltb_lt, <- Z.eqb_eq.
    destruct (Qeq_bool (avg_kw_hits s) 0), (max_404s s =? 0),
      (Qlt_bool (avg_kw_hits s) 3), (scanning_404s s <? 5),
      (legitimate_404s s <? 20), (Qlt_bool (avg_burst s) 25),
      (total_requests s <? 150); cbn; intuition congruence. }
  split; [exact Hiff|]. split.
  - intros Hquiet. apply Hiff. right.
    destruct (analyze_aggregates entries static_keywords) as (Ha & Hm & _).
    fold s in Ha, Hm. rewrite Ha, Hm. split.
    + apply mean_zero. apply List.Forall_map.
      eapply List.Forall_impl; [|exact Hquiet]. now intros e [H _].
    + apply count_none. eapply List.Forall_impl; [|exact Hquiet].
      now intros e [_ H].
  - intros Hkw. apply not_false_is_true. intros E.
    apply Hiff in E. destruct E as [[H _] | [H _]]; lra.
Qed.

(** Each mean divides by the length of a list it has found non-empty, so
    the division never fails. *)
Lemma mean_checked_total (l : list Z) : mean_checked l = Some (mean l).
Proof.
  destruct l as [|x l]; [reflexivity|].
  unfold mean_checked, truediv, mean.
  destruct (Z.eqb_spec (Z.of_nat (List.length (x :: l))) 0) as [H|_];
    [discriminate H | reflexivity].
Qed.

(** No [ZeroDivisionError] escapes the scorer, and what it returns is the
    snapshot of [analyze_recent_behavior_python]. *)
Lemma analyze_checked_total (entries : list record) (static_keywords : list pystr) :
  analyze_recent_behavior_checked entries static_keywords
  = Some (analyze_recent_behavior_python entries static_keywords).
Proof.
  unfold analyze_recent_behavior_checked, analyze_recent_behavior_python.
  now rewrite !mean_checked_total.
Qed.

(** C10. On the empty sequence the scorer performs no division by zero:
    both lists of the loop are empty, so that the quotient sum / len would
    raise on either, and both means are guarded and default to 0.0; the
    scorer returns the snapshot with every count and mean 0 and the verdict
    to allow. *)
Theorem analyze_empty (static_keywords : list pystr) :
  run_loop [] static_keywords = loop_init
  /\ truediv (sum (recent_kw_hits loop_init))
             (Z.of_nat (List.length (recent_kw_hits loop_init))) = None
  /\ truediv (sum (recent_burst_counts loop_init))
             (Z.of_nat (List.length (recent_burst_counts loop_init))) = None
  /\ mean_checked (recent_kw_hits loop_init) = Some 0%Q
  /\ mean_checked (recent_burst_counts loop_init) = Some 0%Q
  /\ analyze_recent_behavior_checked [] static_keywords =
     Some {| avg_kw_hits := 0; max_404s := 0; avg_burst := 0;
             total_requests := 0; scanning_404s := 0; legitimate_404s := 0;
             should_block := false |}
  /\ (forall entries,
        analyze_recent_behavior_checked entries static_keywords
        = Some (analyze_recent_behavior_python entries static_keywords)).
Proof.
  assert (Hloop : run_loop [] static_keywords = loop_init) by reflexivity.
  split; [exact Hloop|]. do 4 (split; [reflexivity|]). split.
  - unfold analyze_recent_behavior_checked. rewrite Hloop. reflexivity.
  - intros entries. apply analyze_checked_total.
Qed.


(** C5. Feature extraction maps each record, independently of the others,
    to one feature vector: kw_hits is the number of configured keywords
    occurring as substrings of the lowercased path when the keyword check is
    on and 0 when it is off, burst_count is 1, and the other fields are the
    record's values passed through or cast (with the defaults of [.get]). *)
Theorem extract_features_correct (records : list record)
    (static_keywords : list pystr) (i : nat) (rec : record) :
  records !! i = Some rec ->
  let f := extract_one static_keywords rec in
  List.length (extract_features_python records static_keywords)
    = List.length records
  /\ extract_features_python records static_keywords !! i = Some f
  /\ f_kw_hits f =
       (if get (r_kw_check rec) true
        then Spec.keyword_hits static_keywords (get (r_path_lower rec) [])
        else 0)
  /\ (forall kw, In kw (List.filter (contains (get (r_path_lower rec) []))
                                    static_keywords) <->
                 In kw static_keywords
                 /\ exists pre post, get (r_path_lower rec) [] = pre ++ kw ++ post)
  /\ f_burst_count f = 1
  /\ f_ip f = r_ip rec
  /\ f_path_len f = int (get (r_path_len rec) (PInt 0))
  /\ f_response_time f = float (get (r_response_time rec) (PFloat 0))
  /\ f_status_idx f = int (get (r_status_idx rec) (PInt (-1)))
  /\ f_total_404 f = int (get (r_total_404 rec) (PInt 0)).
Proof.
  intros Hi f. rewrite extract_features_map.
  split; [apply length_map|]. split.
  { rewrite list_lookup_fmap, Hi. reflexivity. }
  split.
  { subst f. unfold extract_one. cbn [f_kw_hits].
    destruct (get (r_kw_check rec) true); [apply count_keywords_spec | reflexivity]. }
  split.
  { intros kw. rewrite List.filter_In, contains_spec. reflexivity. }
  repeat split; reflexivity.
Qed.

End Verdict.

Section VerdictWitnesses.
Import Benchmark Samples.

Lemma should_block_verdict_witness :
  ((3 <= avg_kw_hits (analyze_recent_behavior_python hot_entries STATIC_KEYWORDS))%Q
   /\ should_block (analyze_recent_behavior_python hot_entries STATIC_KEYWORDS) = true)
  /\ (Forall (fun e => Spec.kw_hits_of STATIC_KEYWORDS e = 0
                       /\ Spec.is_404 e = false) quiet_entries
      /\ should_block (analyze_recent_behavior_python quiet_entries STATIC_KEYWORDS) = false).
Proof.
  assert (Hhot : (3 <= avg_kw_hits
            (analyze_recent_behavior_python hot_entries STATIC_KEYWORDS))%Q).
  { vm_compute. discriminate. }
  assert (Hquiet : Forall (fun e => Spec.kw_hits_of STATIC_KEYWORDS e = 0
                       /\ Spec.is_404 e = false) quiet_entries).
  { apply Forall_forall. intros e He. unfold quiet_entries in He.
    apply list_elem_of_In, in_map_iff in He. destruct He as (k & <- & _).
    split; reflexivity. }
  split; split; try assumption.
  - exact (proj2 (proj2 (should_block_verdict hot_entries STATIC_KEYWORDS)) Hhot).
  - exact (proj1 (proj2 (should_block_verdict quiet_entries STATIC_KEYWORDS)) Hquiet).
Defined.



Lemma extract_features_correct_witness :
  [bench_record] !! 0%nat = Some bench_record
  /\ extract_features_python [bench_record] STATIC_KEYWORDS !! 0%nat
     = Some (extract_one STATIC_KEYWORDS bench_record).
Proof.
  split; [reflexivity|].
  exact (proj1 (proj2 (extract_features_correct [bench_record] STATIC_KEYWORDS 0
                         bench_record eq_refl))).
Defined.

End VerdictWitnesses.

(** ** The diagnostic payload *)

Section PayloadFacts.
Import BlacklistManager Spec.

Lemma dict_get_set {A} (key key' : pystr) (v : A) (d : list (pystr * A)) :
  dict_get key (dict_set key' v d)
  = if decide (key' = key) then Some v else dict_get key d.
Proof.
  induction d as [|[k w] d IH]; simpl.
  - destruct (decide (key' = key)); reflexivity.
  - destruct (decide (k = key')) as [->|Hne]; simpl.
    + destruct (decide (key' = key)); reflexivity.
    + destruct (decide (k = key)) as [->|Hne'].
      * destruct (decide (key' = key)); [congruence | reflexivity].
      * exact IH.
Qed.

Variable request : request.

Lemma set_headers (u q : pystr) (h h' : dict) :
  dict_set (py "headers") (JObj h') (stage request u q h) = stage request u q h'.
Proof. reflexivity. Qed.

Lemma set_query (u q q' : pystr) (h : dict) :
  dict_set (py "query") (JStr q') (stage request u q h) = stage request u q' h.
Proof. reflexivity. Qed.

Lemma set_url (u u' q : pystr) (h : dict) :
  dict_set (py "url") (JStr u') (stage request u q h) = stage request u' q h.
Proof. reflexivity. Qed.

Lemma get_query (u q : pystr) (h : dict) :
  get_str (py "query") (stage request u q h) = q.
Proof. reflexivity. Qed.

Lemma get_url (u q : pystr) (h : dict) :
  get_str (py "url") (stage request u q h) = u.
Proof. reflexivity. Qed.

Lemma firstn_truthy (s : pystr) : truthy s = false -> firstn 256 s = s.
Proof. destruct s; [reflexivity | discriminate]. Qed.

(** The mutations of [_build_request_info] walk through the stages of the
    spec and return the first one that fits. *)
Lemma build_request_info_degrade (cfg : config) :
  _build_request_info (Some request) cfg =
  if get (AIWAF_CAPTURE_EXTENDED_REQUEST_INFO cfg) false
  then Some (degrade request (selected_headers_of request cfg) (max_bytes_of cfg))
  else None.
Proof.
  unfold _build_request_info.
  destruct (get (AIWAF_CAPTURE_EXTENDED_REQUEST_INFO cfg) false); [|reflexivity].
  cbn [negb].
  fold (max_bytes_of cfg) (redact_headers_of cfg) (capture_headers_of cfg).
  fold (selected_headers_of request cfg).
  set (sel := selected_headers_of request cfg). set (mb := max_bytes_of cfg).
  change [(py "url", JStr (url request)); (py "path", JStr (path request));
          (py "query", JStr (query_string request));
          (py "method", JStr (method request)); (py "host", JStr (host request));
          (py "headers", JObj sel)]
    with (stage1 request sel).
  unfold degrade, fits. cbn [List.find].
  destruct (compact_size (stage1 request sel) <=? mb); [reflexivity|].
  unfold stage1. rewrite set_headers. fold (stage2 request).
  destruct (compact_size (stage2 request) <=? mb) eqn:E2; [reflexivity|].
  unfold stage2 in *. rewrite get_query.
  destruct (truthy (query_string request)) eqn:Eq.
  - rewrite set_query. fold (stage3 request).
    destruct (compact_size (stage3 request) <=? mb) eqn:E3; [reflexivity|].
    unfold stage3 in *. rewrite get_url.
    destruct (truthy (url request)) eqn:Eu.
    + rewrite set_url. fold (stage4 request).
      destruct (compact_size (stage4 request) <=? mb); reflexivity.
    + unfold stage4. rewrite (firstn_truthy _ Eu), E3. reflexivity.
  - unfold stage3, stage4. rewrite (firstn_truthy _ Eq), E2, get_url.
    destruct (truthy (url request)) eqn:Eu.
    + rewrite set_url.
      destruct (compact_size (stage request (firstn 256 (url request))
                                    (query_string request) []) <=? mb);
        reflexivity.
    + rewrite (firstn_truthy _ Eu), E2. reflexivity.
Qed.

End PayloadFacts.

Section Redaction.
Import BlacklistManager Spec.





(** The headers of any stage are the selected headers or none. *)
Lemma degrade_headers (request : request) (sel hs : dict) (max_bytes : Z) :
  dict_get (py "headers") (degrade request sel max_bytes) = Some (JObj hs) ->
  hs = sel \/ hs = [].
Proof.
  unfold degrade. cbn [List.find].
  destruct (compact_size (stage1 request sel) <=? max_bytes);
    [intros H; injection H as <-; now left|].
  destruct (compact_size (stage2 request) <=? max_bytes);
    [intros H; injection H as <-; now right|].
  destruct (compact_size (stage3 request) <=? max_bytes);
    [intros H; injection H as <-; now right|].
  destruct (compact_size (stage4 request) <=? max_bytes);
    [intros H; injection H as <-; now right|].
  intros H. discriminate H.
Qed.

(** C2. With capture enabled the builder returns the first of these that
    serialises to at most the byte budget, the size being measured again on
    each: (1) the full payload with the selected headers; (2) the same with
    headers emptied; (3) with the query also cut to its first 256
    characters; (4) with the url also cut to its first 256 characters;
    (5) the minimal payload of path, method, host and truncated: true. *)
Theorem build_request_info_stages (request : request) (cfg : config) :
  get (AIWAF_CAPTURE_EXTENDED_REQUEST_INFO cfg) false = true ->
  let sel := selected_headers_of request cfg in
  let fits p := compact_size p <=? max_bytes_of cfg in
  _build_request_info (Some request) cfg =
  Some (if fits (stage1 request sel) then stage1 request sel
        else if fits (stage2 request) then stage2 request
        else if fits (stage3 request) then stage3 request
        else if fits (stage4 request) then stage4 request
        else stage5 request).
Proof.
  intros Hen sel fits. rewrite build_request_info_degrade, Hen.
  unfold degrade. cbn [List.find]. fold sel. subst fits. cbv beta.
  destruct (compact_size (stage1 request sel) <=? max_bytes_of cfg); [reflexivity|].
  destruct (compact_size (stage2 request) <=? max_bytes_of cfg); [reflexivity|].
  destruct (compact_size (stage3 request) <=? max_bytes_of cfg); [reflexivity|].
  destruct (compact_size (stage4 request) <=? max_bytes_of cfg); reflexivity.
Qed.

(** C3, amended. Every payload the builder returns serialises to at most
    the configured byte budget, unless it is the minimal payload of path,
    method, host and truncated: true, which is returned unmeasured once the
    four larger stages have all exceeded the budget. *)
Theorem payload_within_budget_or_minimal (ctx : option request) (cfg : config)
    (payload : dict) :
  _build_request_info ctx cfg = Some payload ->
  compact_size payload <= max_bytes_of cfg
  \/ exists request, ctx = Some request
       /\ payload = minimal_payload request
       /\ max_bytes_of cfg < compact_size (stage4 request).
Proof.
  destruct ctx as [request|]; [|discriminate].
  rewrite build_request_info_degrade.
  destruct (get (AIWAF_CAPTURE_EXTENDED_REQUEST_INFO cfg) false); [|discriminate].
  intros H. injection H as <-. unfold degrade. cbn [List.find].
  destruct (compact_size (stage1 request _) <=? max_bytes_of cfg) eqn:E1;
    [left; lia|].
  destruct (compact_size (stage2 request) <=? max_bytes_of cfg) eqn:E2;
    [left; lia|].
  destruct (compact_size (stage3 request) <=? max_bytes_of cfg) eqn:E3;
    [left; lia|].
  destruct (compact_size (stage4 request) <=? max_bytes_of cfg) eqn:E4;
    [left; lia|].
  right. exists request. split; [reflexivity|]. split; [reflexivity | lia].
Qed.


End Redaction.

Section PayloadWitnesses.
Import BlacklistManager Spec Samples.

Lemma build_request_info_stages_witness :
  get (AIWAF_CAPTURE_EXTENDED_REQUEST_INFO (test_config 700)) false = true
  /\ _build_request_info (Some size_limit_request) (test_config 700)
     = Some (stage4 size_limit_request).
Proof.
  split; [reflexivity|].
  rewrite (build_request_info_stages size_limit_request (test_config 700) eq_refl).
  vm_compute. reflexivity.
Defined.

(** C3 as stated fails on the input of
    [test_block_with_request_context_size_limit_truncates]: with a budget
    of 64 bytes the builder returns the minimal payload, which serialises
    to 103 bytes. *)
Lemma minimal_payload_exceeds_budget :
  _build_request_info (Some size_limit_request) (test_config 64)
  = Some (minimal_payload size_limit_request)
  /\ max_bytes_of (test_config 64) = 64
  /\ compact_size (minimal_payload size_limit_request) = 103
  /\ ~ (compact_size (minimal_payload size_limit_request)
        <= max_bytes_of (test_config 64)).
Proof.
  split; [vm_compute; reflexivity|].
  split; [reflexivity|].
  split; [vm_compute; reflexivity|].
  vm_compute. intros H. apply H. reflexivity.
Defined.

Lemma payload_within_budget_or_minimal_witness :
  _build_request_info (Some (login_request (py "secret"))) (test_config 8192)
  = Some (stage1 (login_request (py "secret"))
            (selected_headers_of (login_request (py "secret")) (test_config 8192)))
  /\ (compact_size
        (stage1 (login_request (py "secret"))
           (selected_headers_of (login_request (py "secret")) (test_config 8192)))
      <= max_bytes_of (test_config 8192)
      \/ exists request,
           Some (login_request (py "secret")) = Some request
           /\ stage1 (login_request (py "secret"))
                (selected_headers_of (login_request (py "secret")) (test_config 8192))
              = minimal_payload request
           /\ max_bytes_of (test_config 8192) < compact_size (stage4 request)).
Proof.
  assert (H : _build_request_info (Some (login_request (py "secret")))
                (test_config 8192)
    = Some (stage1 (login_request (py "secret"))
              (selected_headers_of (login_request (py "secret")) (test_config 8192)))).
  { vm_compute. reflexivity. }
  split; [exact H|].
  exact (payload_within_budget_or_minimal _ _ _ H).
Defined.





End PayloadWitnesses.

(** ** The honeypot timing detector *)

Section Honeypot.
Import BlacklistManager HoneypotTimingMiddleware.

Lemma cache_key_inj (ip ip' : pystr) : cache_key ip' = cache_key ip -> ip' = ip.
Proof. unfold cache_key. apply app_inv_head. Qed.

Lemma get_is_not_post (request : request) :
  method request = py "GET" -> method request <> py "POST".
Proof. intros ->. discriminate. Qed.

(** C4, amended. When the detector is active for the request (honeypot
    checks apply to the route, and the request is not skipped as
    authenticated), a POST is blocked exactly when a GET timestamp is stored
    for the client and now - get_time < MIN_FORM_TIME, the difference being
    the one of the two floats in double precision; the block is recorded
    with the measured delta, printed with two decimals, in its reason; a
    POST that is not blocked, in particular one without a stored GET, leaves
    the state untouched; a GET stores the current time for the client and
    nothing else. A GET is never blocked, and an inactive detector does
    nothing. *)
Theorem honeypot_decision (cfg : config)
    (should_apply_honeypot is_authenticated : bool)
    (ip : pystr) (now : Q) (request : request) (w : world) :
  let active :=
    should_apply_honeypot
    && negb (get (AIWAF_HONEYPOT_SKIP_AUTHENTICATED cfg) true && is_authenticated) in
  let min_time := get (AIWAF_MIN_FORM_TIME cfg) 1%Q in
  let r := before_request cfg should_apply_honeypot is_authenticated ip now
                          request w in
  (active = true -> method request = py "POST" ->
     (fst r = Some Blocked403 <->
        exists get_time, _aiwaf_cache w !! cache_key ip = Some get_time
                         /\ (fsub now get_time < min_time)%Q)
     /\ (forall get_time,
           _aiwaf_cache w !! cache_key ip = Some get_time ->
           (fsub now get_time < min_time)%Q ->
           snd r = {| _aiwaf_cache := _aiwaf_cache w;
                      storage := storage w ++
                        [{| call_ip := ip;
                            call_reason := reason_of (fsub now get_time);
                            call_extended_request_info :=
                              _build_request_info (Some request) cfg |}] |})
     /\ (fst r = None -> snd r = w)
     /\ (_aiwaf_cache w !! cache_key ip = None -> r = (None, w)))
  /\ (active = true -> method request = py "GET" ->
      r = (None, {| _aiwaf_cache := <[cache_key ip := now]> (_aiwaf_cache w);
                    storage := storage w |}))
  /\ (method request = py "GET" ->
      fst r = None /\ storage (snd r) = storage w
      /\ forall ip', ip' <> ip ->
           _aiwaf_cache (snd r) !! cache_key ip' = _aiwaf_cache w !! cache_key ip')
  /\ (active = false -> r = (None, w)).
Proof.
  intros active min_time r. subst active r. unfold before_request.
  fold min_time.
  destruct should_apply_honeypot; cbn [negb andb];
    [|repeat split; try discriminate; intros; reflexivity].
  destruct (get (AIWAF_HONEYPOT_SKIP_AUTHENTICATED cfg) true && is_authenticated);
    cbn [negb]; [repeat split; try discriminate; intros; reflexivity|].
  split; [|split; [|split]]; try discriminate.
  - intros _ Hpost. destruct (decide (method request = py "POST")); [|contradiction].
    destruct (_aiwaf_cache w !! cache_key ip) as [get_time|].
    + destruct (Qlt_bool (fsub now get_time) min_time) eqn:E; cbn [fst snd].
      * apply Qlt_bool_iff in E.
        split; [split; [intros _; now exists get_time | reflexivity]|].
        split; [intros g Hg _; injection Hg as <-; reflexivity|].
        split; discriminate.
      * assert (Hno : ~ (fsub now get_time < min_time)%Q).
        { intros Hlt. apply Qlt_bool_iff in Hlt. congruence. }
        split.
        { split; [discriminate|]. intros (g & Hg & Hlt).
          injection Hg as <-. contradiction. }
        split; [intros g Hg Hlt; injection Hg as <-; contradiction|].
        split; [reflexivity | discriminate].
    + cbn [fst snd].
      split.
      { split; [discriminate|]. intros (g & Hg & _). discriminate Hg. }
      split; [intros g Hg; discriminate Hg|].
      split; reflexivity.
  - intros _ Hget.
    destruct (decide (method request = py "POST")) as [Hp|_];
      [now apply get_is_not_post in Hget|].
    destruct (decide (method request = py "GET")); [reflexivity | contradiction].
  - intros Hget.
    destruct (decide (method request = py "POST")) as [Hp|_];
      [now apply get_is_not_post in Hget|].
    destruct (decide (method request = py "GET")); [|contradiction].
    cbn [fst snd _aiwaf_cache storage]. repeat split.
    intros ip' Hne. apply lookup_insert_ne.
    intros Hk. apply Hne. symmetry. now apply cache_key_inj.
Qed.

End Honeypot.

Section HoneypotWitnesses.
Import BlacklistManager HoneypotTimingMiddleware Samples.

Lemma honeypot_decision_witness :
  fst (before_request honeypot_config true false client after_0_3
                      post_request after_get) = Some Blocked403
  /\ map call_reason
       (storage (snd (before_request honeypot_config true false client
                                     after_0_3 post_request after_get)))
     = [py "Form submitted too quickly (0.30s)"]
  /\ before_request honeypot_config true false client 2 post_request after_get
     = (None, after_get).
Proof.
  destruct (honeypot_decision honeypot_config true false client after_0_3
              post_request after_get) as [Hpost _].
  destruct (Hpost eq_refl eq_refl) as (Hiff & Hstate & _).
  split; [|split].
  - apply Hiff. exists 0%Q. split; vm_compute; reflexivity.
  - rewrite (Hstate 0%Q); vm_compute; reflexivity.
  - vm_compute. reflexivity.
Defined.

(** C4 as stated fails behind the gates of the hook: a GET timestamp is
    stored for the client and the POST comes 0.3 s later with
    MIN_FORM_TIME = 0.5, yet the POST of an authenticated request (the skip
    is on by default) and the POST to a route exempt from honeypot checks
    are not blocked. *)
Lemma gated_post_not_blocked :
  method post_request = py "POST"
  /\ _aiwaf_cache after_get !! cache_key client = Some 0%Q
  /\ (after_0_3 - 0 < get (AIWAF_MIN_FORM_TIME honeypot_config) 1)%Q
  /\ (fsub after_0_3 0 < get (AIWAF_MIN_FORM_TIME honeypot_config) 1)%Q
  /\ fst (before_request honeypot_config true true client after_0_3
                         post_request after_get) = None
  /\ fst (before_request honeypot_config false false client after_0_3
                         post_request after_get) = None.
Proof. repeat split; vm_compute; reflexivity. Defined.

(** The delta is the rounded one: a GET at 2^-70 and a POST at 0.5 are less
    than 0.5 apart, but their difference in double precision is 0.5, and
    with MIN_FORM_TIME = 0.5 the POST passes. *)
Lemma rounded_delta_passes :
  ((1 # 2) - (1 # 1180591620717411303424) < 1 # 2)%Q
  /\ (fsub (1 # 2) (1 # 1180591620717411303424) == 1 # 2)%Q
  /\ fst (before_request honeypot_config true false client (1 # 2) post_request
            (snd (before_request honeypot_config true false client
                    (1 # 1180591620717411303424) get_request empty_world)))
     = None.
Proof.
  split; [reflexivity|]. split; vm_compute; reflexivity.
Qed.

End HoneypotWitnesses.

(** ** The exemption resolver *)

Section ExemptionFacts.
Import Exemption.

Lemma requires_in (detector : pystr) (names : list pystr) (rules : list rule) :
  In (REQUIRE names) rules -> In detector names ->
  existsb (requires detector) rules = true.
Proof.
  intros Hr Hd. apply existsb_exists. exists (REQUIRE names).
  split; [exact Hr|]. cbn. apply bool_decide_eq_true. now apply list_elem_of_In.
Qed.

Lemma resolve_required (detector : pystr) (names : list pystr) (rules : list rule) :
  In (REQUIRE names) rules -> In detector names -> resolve rules detector = true.
Proof.
  intros Hr Hd. unfold resolve. now rewrite (requires_in detector names rules).
Qed.

(** C7. When a REQUIRE rule and an EXEMPT rule naming the same detector are
    both active for a route, the detector runs, in whatever order the rules
    were layered; with the EXEMPT rule alone it does not. *)
Theorem require_overrides_exempt (policy : gmap pystr (list rule))
    (detector route : pystr) (rules : list rule)
    (required exempted : list pystr) :
  policy !! route = Some rules ->
  In (REQUIRE required) rules -> In detector required ->
  In (EXEMPT_FROM exempted) rules -> In detector exempted ->
  should_apply policy detector route = true
  /\ (forall rules', Permutation rules rules' ->
        should_apply (<[route := rules']> policy) detector route = true)
  /\ should_apply (<[route := [EXEMPT_FROM exempted]]> policy) detector route
     = false.
Proof.
  intros Hroute Hreq Hd Hex Hd'. unfold should_apply. split; [|split].
  - rewrite Hroute. now apply (resolve_required detector required).
  - intros rules' Hperm. rewrite lookup_insert_eq.
    apply (resolve_required detector required); [|exact Hd].
    now apply (Permutation_in _ Hperm).
  - rewrite lookup_insert_eq. unfold resolve. cbn.
    rewrite bool_decide_eq_true_2; [reflexivity|]. now apply list_elem_of_In.
Qed.

End ExemptionFacts.

Section ExemptionWitnesses.
Import Exemption Samples.

Lemma require_overrides_exempt_witness :
  critical_policy !! py "/admin/critical" = Some critical_rules
  /\ should_apply critical_policy (py "rate_limit") (py "/admin/critical") = true.
Proof.
  split; [vm_compute; reflexivity|].
  refine (proj1 (require_overrides_exempt critical_policy (py "rate_limit")
                   (py "/admin/critical") critical_rules
                   [py "rate_limit"] [py "rate_limit"] _ _ _ _ _)).
  - vm_compute. reflexivity.
  - right. left. reflexivity.
  - left. reflexivity.
  - left. reflexivity.
  - left. reflexivity.
Defined.

End ExemptionWitnesses.

(** ** Further properties of the anomaly scorer *)

Section CountingFacts.

Lemma filter_length_le {A} (P : A -> bool) (l : list A) :
  (List.length (List.filter P l) <= List.length l)%nat.
Proof.
  induction l as [|x l IH]; simpl; [lia|]. destruct (P x); simpl; lia.
Qed.

Lemma filter_length_mono {A} (P Q : A -> bool) (l : list A) :
  (forall x, P x = true -> Q x = true) ->
  (List.length (List.filter P l) <= List.length (List.filter Q l))%nat.
Proof.
  intros HPQ. induction l as [|x l IH]; simpl; [lia|].
  destruct (P x) eqn:EP.
  - rewrite (HPQ x EP). simpl. lia.
  - destruct (Q x); simpl; lia.
Qed.

(** Leaving one index of a duplicate-free list out of a count lowers the
    count by one exactly when that index was counted. *)
Lemma filter_except (P : nat -> bool) (l : list nat) (i : nat) :
  List.NoDup l -> In i l ->
  (List.length (List.filter (fun j => negb (Nat.eqb i j) && P j) l)
   + (if P i then 1 else 0)
   = List.length (List.filter P l))%nat.
Proof.
  induction 1 as [|x l Hx Hnd IH]; intros Hin; [destruct Hin|].
  cbn [List.filter]. destruct (Nat.eqb_spec i x) as [<-|Hne].
  - cbn [negb andb].
    assert (Hext : List.filter (fun j => negb (Nat.eqb i j) && P j) l
                   = List.filter P l).
    { apply List.filter_ext_in. intros j Hj.
      destruct (Nat.eqb_spec i j) as [->|_]; [contradiction | reflexivity]. }
    rewrite Hext. destruct (P i); simpl; lia.
  - cbn [negb andb]. destruct Hin as [->|Hin]; [congruence|].
    specialize (IH Hin). destruct (P x); simpl; lia.
Qed.

Lemma count_bounds {A} (P : A -> bool) (l : list A) :
  0 <= Spec.count P l <= Z.of_nat (List.length l).
Proof. unfold Spec.count. pose proof (filter_length_le P l). lia. Qed.

Lemma count_mono {A} (P Q : A -> bool) (l : list A) :
  (forall x, P x = true -> Q x = true) -> Spec.count P l <= Spec.count Q l.
Proof.
  intros H. unfold Spec.count. pose proof (filter_length_mono P Q l H). lia.
Qed.

Lemma total_bounds (l : list Z) (a b : Z) :
  List.Forall (fun x => a <= x <= b) l ->
  a * Z.of_nat (List.length l) <= Spec.total l <= b * Z.of_nat (List.length l).
Proof.
  induction 1 as [|x l Hx _ IH]; [simpl; lia|].
  cbn [Spec.total fold_right List.length]. fold (Spec.total l). lia.
Qed.

(** The mean of a non-empty list lies between any bounds of its elements. *)
Lemma mean_bounds (l : list Z) (a b : Z) :
  l <> [] -> List.Forall (fun x => a <= x <= b) l ->
  (inject_Z a <= Benchmark.mean l /\ Benchmark.mean l <= inject_Z b)%Q.
Proof.
  intros Hne Hall. rewrite (mean_spec l Hne).
  pose proof (total_bounds l a b Hall) as [Hlo Hhi].
  assert (Hpos : (0 < inject_Z (Z.of_nat (List.length l)))%Q).
  { change 0%Q with (inject_Z 0). rewrite <- Zlt_Qlt.
    destruct l; [congruence | simpl; lia]. }
  split.
  - apply Qle_shift_div_l; [exact Hpos|].
    rewrite <- inject_Z_mult, <- Zle_Qle. exact Hlo.
  - apply Qle_shift_div_r; [exact Hpos|].
    rewrite <- inject_Z_mult, <- Zle_Qle. exact Hhi.
Qed.

End CountingFacts.

Section ScorerFacts.
Import Benchmark More.

Lemma enumerate_in {A} (l : list A) (k i : nat) (e : A) :
  In (i, e) (combine (seq k (List.length l)) l) ->
  (k <= i)%nat /\ l !! (i - k)%nat = Some e.
Proof.
  revert k. induction l as [|a l IH]; intros k; [intros []|].
  cbn [List.length seq combine]. intros [H|H].
  - injection H as <- <-. rewrite Nat.sub_diag. split; [lia | reflexivity].
  - apply IH in H as [Hk H]. split; [lia|].
    replace (i - k)%nat with (S (i - S k)) by lia. exact H.
Qed.

Lemma self_near (e : record) : near (timestamp_of e) e = true.
Proof. unfold near. now rewrite fsub_diag. Qed.

(** The burst of a record is the number of records near it, less itself. *)
Lemma burst_near_count (entries : list record) (i : nat) (e : record) :
  entries !! i = Some e ->
  Spec.burst entries i (timestamp_of e)
  = near_count entries (timestamp_of e) - 1.
Proof.
  intros Hi. unfold Spec.burst, near_count.
  pose (P := fun j : nat =>
    match entries !! j with
    | Some other => near (timestamp_of e) other
    | None => false
    end).
  assert (Hin : In i (seq 0 (List.length entries))).
  { apply in_seq. apply lookup_lt_Some in Hi. lia. }
  pose proof (filter_except P _ i (List.seq_NoDup _ _) Hin) as Hex.
  assert (HPi : P i = true) by (unfold P; rewrite Hi; apply self_near).
  rewrite HPi in Hex.
  assert (Hall : List.length (List.filter P (seq 0 (List.length entries)))
                 = List.length (List.filter (near (timestamp_of e)) entries)).
  { pose proof (count_enumerate (fun _ o => near (timestamp_of e) o) entries 0) as Hc.
    pose proof (count_snd_enumerate (near (timestamp_of e)) entries) as Hs.
    unfold Spec.count, enumerate in Hs. apply Nat2Z.inj in Hs.
    cbn [fst snd] in Hc. rewrite Hs in Hc. rewrite Hc.
    f_equal. apply List.filter_ext. intros j. unfold P.
    now rewrite Nat.sub_0_r. }
  unfold Spec.count. rewrite <- Hall, <- Hex.
  assert (Hsame : List.filter (Spec.in_burst entries i (timestamp_of e))
                              (seq 0 (List.length entries))
                  = List.filter (fun j => negb (Nat.eqb i j) && P j)
                                (seq 0 (List.length entries))).
  { apply List.filter_ext. intros j. unfold Spec.in_burst, P, near, fsub.
    destruct (entries !! j) as [other|]; [|reflexivity].
    now rewrite !timestamp_of_stamp. }
  rewrite Hsame. lia.
Qed.

(** The burst counts the loop collects, record by record. *)
Lemma burst_counts_near (entries : list record) (static_keywords : list pystr) :
  recent_burst_counts (run_loop entries static_keywords)
  = map (fun e => near_count entries (timestamp_of e) - 1) entries.
Proof.
  rewrite run_loop_spec. cbn [recent_burst_counts].
  rewrite <- (map_snd_enumerate
                (fun e => near_count entries (timestamp_of e) - 1) entries 0).
  apply List.map_ext_in. intros [i e] Hin.
  apply enumerate_in in Hin as [_ Hi]. rewrite Nat.sub_0_r in Hi.
  cbn [fst snd]. now rewrite entry_burst_spec, (burst_near_count entries i e Hi).
Qed.

Lemma verdict_spec (entries : list record) (static_keywords : list pystr) :
  let s := analyze_recent_behavior_python entries static_keywords in
  should_block s = false <->
    ((avg_kw_hits s < 3)%Q /\ scanning_404s s < 5 /\ legitimate_404s s < 20
     /\ (avg_burst s < 25)%Q /\ total_requests s < 150)
    \/ ((avg_kw_hits s == 0)%Q /\ max_404s s = 0).
Proof.
  intros s. subst s. rewrite verdict_unfold.
  set (s := analyze_recent_behavior_python entries static_keywords).
  rewrite <- !Qlt_bool_iff, <- Qeq_bool_iff, <- !Z.ltb_lt, <- Z.eqb_eq.
  destruct (Qeq_bool (avg_kw_hits s) 0), (max_404s s =? 0),
    (Qlt_bool (avg_kw_hits s) 3), (scanning_404s s <? 5),
    (legitimate_404s s <? 20), (Qlt_bool (avg_burst s) 25),
    (total_requests s <? 150); cbn; intuition congruence.
Qed.

Lemma scanning_is_404 (e : record) :
  Spec.is_scanning_404 e = true -> Spec.is_404 e = true.
Proof. unfold Spec.is_scanning_404. now intros [H _]%andb_true_iff. Qed.

(** X1. The counts of a snapshot are ordered: scanning 404s are 404s, 404s are
    requests, and the legitimate 404s are the 404s that are left. *)
Theorem snapshot_counts_ordered (entries : list record)
    (static_keywords : list pystr) :
  let s := analyze_recent_behavior_python entries static_keywords in
  0 <= scanning_404s s <= max_404s s
  /\ max_404s s <= total_requests s
  /\ 0 <= legitimate_404s s <= max_404s s
  /\ scanning_404s s + legitimate_404s s = max_404s s
  /\ total_requests s = Z.of_nat (List.length entries).
Proof.
  intros s.
  destruct (analyze_aggregates entries static_keywords)
    as (_ & Hm & Hs & Hl & Hn).
  fold s in Hm, Hs, Hl, Hn.
  pose proof (count_bounds Spec.is_scanning_404 entries) as Hb1.
  pose proof (count_bounds Spec.is_404 entries) as Hb2.
  pose proof (count_mono _ _ entries scanning_is_404) as Hb3.
  rewrite Hl, Hm, Hs, Hn. lia.
Qed.

Lemma keyword_hits_bounds (static_keywords : list pystr) (e : record) :
  0 <= Spec.kw_hits_of static_keywords e
    <= Z.of_nat (List.length static_keywords).
Proof.
  unfold Spec.kw_hits_of, Spec.keyword_hits.
  destruct (get (r_kw_check e) true); [|lia].
  pose proof (filter_length_le (contains (get (r_path_lower e) []))
                               static_keywords). lia.
Qed.

Lemma near_count_bounds (entries : list record) (e : record) :
  In e entries ->
  1 <= near_count entries (timestamp_of e) <= Z.of_nat (List.length entries).
Proof.
  intros Hin. unfold near_count. split; [|apply count_bounds].
  unfold Spec.count.
  assert (Hf : In e (List.filter (near (timestamp_of e)) entries)).
  { apply List.filter_In. split; [exact Hin | apply self_near]. }
  destruct (List.filter (near (timestamp_of e)) entries); [destruct Hf|].
  simpl. lia.
Qed.

(** X2. The averages of a snapshot are bounded: a record hits at most every
    configured keyword, and has at most every other record in its burst; so
    the keyword bound cannot trip with fewer than 3 configured keywords, nor
    the burst bound with at most 25 records. *)
Theorem snapshot_averages_bounded (entries : list record)
    (static_keywords : list pystr) :
  let s := analyze_recent_behavior_python entries static_keywords in
  (0 <= avg_kw_hits s)%Q
  /\ (avg_kw_hits s <= inject_Z (Z.of_nat (List.length static_keywords)))%Q
  /\ (0 <= avg_burst s)%Q
  /\ (entries <> [] -> (avg_burst s <= inject_Z (total_requests s - 1))%Q)
  /\ (Z.of_nat (List.length static_keywords) < 3 -> (avg_kw_hits s < 3)%Q)
  /\ (total_requests s <= 25 -> (avg_burst s < 25)%Q).
Proof.
  intros s.
  destruct (analyze_aggregates entries static_keywords) as (Ha & _).
  fold s in Ha.
  assert (Hb : avg_burst s
               = mean (map (fun e => near_count entries (timestamp_of e) - 1)
                           entries)).
  { rewrite <- (burst_counts_near entries static_keywords). reflexivity. }
  assert (Hn : total_requests s = Z.of_nat (List.length entries)) by reflexivity.
  destruct entries as [|e0 entries'] eqn:Een.
  - rewrite Ha, Hb. cbn [map mean].
    split; [discriminate|].
    split; [change 0%Q with (inject_Z 0); rewrite <- Zle_Qle; lia|].
    split; [discriminate|]. split; [congruence|].
    split; reflexivity.
  - rewrite <- Een in *.
    assert (Hne : forall (f : record -> Z), map f entries <> []).
    { intros f. rewrite Een. discriminate. }
    destruct (mean_bounds (map (Spec.kw_hits_of static_keywords) entries) 0
                (Z.of_nat (List.length static_keywords)) (Hne _)) as [H1 H2].
    { apply List.Forall_map, List.Forall_forall. intros e _.
      apply keyword_hits_bounds. }
    destruct (mean_bounds
                (map (fun e => near_count entries (timestamp_of e) - 1) entries)
                0 (Z.of_nat (List.length entries) - 1) (Hne _)) as [H3 H4].
    { apply List.Forall_map, List.Forall_forall. intros e He.
      pose proof (near_count_bounds entries e He). lia. }
    rewrite Ha, Hb, Hn.
    split; [exact H1|]. split; [exact H2|]. split; [exact H3|].
    split; [intros _; exact H4|]. split.
    + intros Hfew. eapply Qle_lt_trans; [exact H2|].
      change 3%Q with (inject_Z 3). now rewrite <- Zlt_Qlt.
    + intros Hsmall. eapply Qle_lt_trans; [exact H4|].
      change 25%Q with (inject_Z 25). rewrite <- Zlt_Qlt. lia.
Qed.

End ScorerFacts.

Section ScorerThresholds.
Import Benchmark More.

(** X3. Five or more 404s on probe paths, or twenty or more other 404s, always
    block: with a 404 in the window the quiet-traffic override cannot
    apply. *)
Theorem error_thresholds_force_block (entries : list record)
    (static_keywords : list pystr) :
  let s := analyze_recent_behavior_python entries static_keywords in
  5 <= scanning_404s s \/ 20 <= legitimate_404s s -> should_block s = true.
Proof.
  intros s Hmany. apply not_false_is_true. intros E.
  apply (verdict_spec entries static_keywords) in E. fold s in E.
  destruct (analyze_aggregates entries static_keywords)
    as (_ & Hm & Hs & Hl & _).
  fold s in Hm, Hs, Hl.
  pose proof (count_bounds Spec.is_scanning_404 entries) as Hb1.
  pose proof (count_mono _ _ entries scanning_is_404) as Hb2.
  rewrite <- Hs, <- Hm in *. lia.
Qed.

Lemma filter_all {A} (P : A -> bool) (l : list A) :
  (forall x, In x l -> P x = true) -> List.filter P l = l.
Proof.
  induction l as [|x l IH]; intros H; [reflexivity|]. simpl.
  rewrite (H x (or_introl eq_refl)), IH; [reflexivity|].
  intros y Hy. apply H. now right.
Qed.

(** X4. When all the records lie within one 10-second window every record has
    every other one in its burst, so avg_burst is one less than the number
    of requests; from 26 requests on, the window is blocked unless it is
    quiet (no keyword hit and no 404). *)
Theorem burst_window_saturates (entries : list record)
    (static_keywords : list pystr) :
  entries <> [] ->
  (forall a b, In a entries -> In b entries ->
     (Qabs (timestamp_of a - timestamp_of b) <= 10)%Q) ->
  let s := analyze_recent_behavior_python entries static_keywords in
  (avg_burst s == inject_Z (total_requests s - 1))%Q
  /\ (26 <= total_requests s ->
      ~ ((avg_kw_hits s == 0)%Q /\ max_404s s = 0) ->
      should_block s = true).
Proof.
  intros Hne Hwin s.
  assert (Hb : avg_burst s
               = mean (map (fun e => near_count entries (timestamp_of e) - 1)
                           entries)).
  { rewrite <- (burst_counts_near entries static_keywords). reflexivity. }
  assert (Hn : total_requests s = Z.of_nat (List.length entries)) by reflexivity.
  assert (Heq : (avg_burst s == inject_Z (total_requests s - 1))%Q).
  { rewrite Hb, Hn.
    destruct (mean_bounds
                (map (fun e => near_count entries (timestamp_of e) - 1) entries)
                (Z.of_nat (List.length entries) - 1)
                (Z.of_nat (List.length entries) - 1)) as [Hlo Hhi].
    - destruct entries; [congruence | discriminate].
    - apply List.Forall_map, List.Forall_forall. intros e He.
      unfold near_count, Spec.count. rewrite filter_all; [lia|].
      intros o Ho. unfold near, fsub.
      apply Qle_bool_iff, round64_within_10. now apply Hwin.
    - now apply Qle_antisym. }
  split; [exact Heq|].
  intros Hmany Hloud. apply not_false_is_true. intros E.
  apply (verdict_spec entries static_keywords) in E. fold s in E.
  destruct E as [(_ & _ & _ & Hburst & _) | Hquiet]; [|contradiction].
  rewrite Heq in Hburst. revert Hburst.
  change 25%Q with (inject_Z 25). rewrite <- Zlt_Qlt. lia.
Qed.

(** X5. The keyword hits the scorer averages are the ones the extractor
    reports for the same records. *)
Theorem scorer_agrees_with_extractor (records : list record)
    (static_keywords : list pystr) :
  recent_kw_hits (run_loop records static_keywords)
  = map f_kw_hits (extract_features_python records static_keywords)
  /\ avg_kw_hits (analyze_recent_behavior_python records static_keywords)
     = mean (map f_kw_hits (extract_features_python records static_keywords)).
Proof.
  assert (H : recent_kw_hits (run_loop records static_keywords)
              = map f_kw_hits (extract_features_python records static_keywords)).
  { rewrite run_loop_spec, extract_features_map, map_map.
    cbn [recent_kw_hits]. apply List.map_ext. intros e.
    unfold Spec.kw_hits_of, extract_one. cbn [f_kw_hits].
    destruct (get (r_kw_check e) true); [|reflexivity].
    symmetry. apply count_keywords_spec. }
  split; [exact H|].
  unfold analyze_recent_behavior_python. cbn [avg_kw_hits]. now rewrite H.
Qed.

Lemma total_perm (l l' : list Z) :
  Permutation l l' -> Spec.total l = Spec.total l'.
Proof.
  unfold Spec.total.
  induction 1 as [|x l l' _ IH|x y l|l l' l'' _ IH1 _ IH2];
    cbn [fold_right] in *; lia.
Qed.

Lemma count_perm {A} (P : A -> bool) (l l' : list A) :
  Permutation l l' -> Spec.count P l = Spec.count P l'.
Proof.
  unfold Spec.count. intros H. f_equal.
  induction H as [|x l l' _ IH|x y l|l l' l'' _ IH1 _ IH2]; simpl.
  - reflexivity.
  - destruct (P x); simpl; lia.
  - destruct (P x), (P y); reflexivity.
  - lia.
Qed.

Lemma mean_perm (l l' : list Z) : Permutation l l' -> mean l = mean l'.
Proof.
  intros H. destruct l as [|x l].
  - apply Permutation_nil in H. now subst.
  - destruct l' as [|y l'].
    + symmetry in H. apply Permutation_nil in H. discriminate H.
    + rewrite !mean_spec by discriminate.
      now rewrite (total_perm _ _ H), (Permutation_length H).
Qed.

(** X6. The snapshot depends neither on the order of the records nor on the
    order of the configured keywords. *)
Theorem analyze_order_irrelevant (entries entries' : list record)
    (static_keywords static_keywords' : list pystr) :
  Permutation entries entries' ->
  Permutation static_keywords static_keywords' ->
  analyze_recent_behavior_python entries static_keywords
  = analyze_recent_behavior_python entries' static_keywords'.
Proof.
  intros He Hk.
  assert (Hkw : forall e, Spec.kw_hits_of static_keywords e
                          = Spec.kw_hits_of static_keywords' e).
  { intros e. unfold Spec.kw_hits_of.
    destruct (get (r_kw_check e) true); [|reflexivity].
    apply (count_perm _ _ _ Hk). }
  assert (H1 : mean (recent_kw_hits (run_loop entries static_keywords))
               = mean (recent_kw_hits (run_loop entries' static_keywords'))).
  { rewrite !run_loop_spec. cbn [recent_kw_hits]. apply mean_perm.
    rewrite (List.map_ext _ _ Hkw). now apply Permutation_map. }
  assert (H2 : recent_404s (run_loop entries static_keywords)
               = recent_404s (run_loop entries' static_keywords')).
  { rewrite !run_loop_spec. cbn [recent_404s]. now apply count_perm. }
  assert (H3 : mean (recent_burst_counts (run_loop entries static_keywords))
               = mean (recent_burst_counts (run_loop entries' static_keywords'))).
  { rewrite !burst_counts_near. apply mean_perm.
    rewrite (List.map_ext
               (fun e => near_count entries (timestamp_of e) - 1)
               (fun e => near_count entries' (timestamp_of e) - 1)).
    - now apply Permutation_map.
    - intros e. unfold near_count. now rewrite (count_perm _ _ _ He). }
  assert (H4 : st_scanning_404s (run_loop entries static_keywords)
               = st_scanning_404s (run_loop entries' static_keywords')).
  { rewrite !run_loop_spec. cbn [st_scanning_404s]. now apply count_perm. }
  unfold analyze_recent_behavior_python. cbv zeta.
  now rewrite H1, H2, H3, H4, (Permutation_length He).
Qed.

End ScorerThresholds.

Section ScorerWitnesses.
Import Benchmark More Samples MoreSamples.

Lemma snapshot_averages_bounded_witness :
  bench_entries <> []
  /\ (avg_burst (analyze_recent_behavior_python bench_entries STATIC_KEYWORDS)
      <= inject_Z
           (total_requests
              (analyze_recent_behavior_python bench_entries STATIC_KEYWORDS) - 1))%Q.
Proof.
  split; [discriminate|].
  apply (proj1 (proj2 (proj2 (proj2
           (snapshot_averages_bounded bench_entries STATIC_KEYWORDS))))).
  discriminate.
Defined.

Lemma error_thresholds_force_block_witness :
  (5 <= scanning_404s (analyze_recent_behavior_python probe_entries STATIC_KEYWORDS)
   \/ 20 <= legitimate_404s
              (analyze_recent_behavior_python probe_entries STATIC_KEYWORDS))
  /\ should_block (analyze_recent_behavior_python probe_entries STATIC_KEYWORDS)
     = true.
Proof.
  assert (H : 5 <= scanning_404s
                     (analyze_recent_behavior_python probe_entries STATIC_KEYWORDS)
              \/ 20 <= legitimate_404s
                     (analyze_recent_behavior_python probe_entries STATIC_KEYWORDS)).
  { left. vm_compute. discriminate. }
  split; [exact H|].
  exact (error_thresholds_force_block probe_entries STATIC_KEYWORDS H).
Defined.

Lemma flood_in_one_window (a b : record) :
  In a flood_entries -> In b flood_entries ->
  (Qabs (timestamp_of a - timestamp_of b) <= 10)%Q.
Proof.
  intros Ha Hb. apply repeat_spec in Ha, Hb. subst a b.
  vm_compute. discriminate.
Qed.

Lemma burst_window_saturates_witness :
  flood_entries <> []
  /\ (avg_burst (analyze_recent_behavior_python flood_entries STATIC_KEYWORDS)
      == inject_Z 25)%Q
  /\ should_block (analyze_recent_behavior_python flood_entries STATIC_KEYWORDS)
     = true.
Proof.
  assert (Hne : flood_entries <> []) by discriminate.
  destruct (burst_window_saturates flood_entries STATIC_KEYWORDS Hne
              flood_in_one_window) as [Havg Hblock].
  split; [exact Hne|]. split; [exact Havg|].
  apply Hblock.
  - vm_compute. discriminate.
  - intros [H _]. vm_compute in H. discriminate H.
Defined.

Lemma analyze_order_irrelevant_witness :
  Permutation bench_entries (rev bench_entries)
  /\ Permutation STATIC_KEYWORDS (rev STATIC_KEYWORDS)
  /\ analyze_recent_behavior_python bench_entries STATIC_KEYWORDS
     = analyze_recent_behavior_python (rev bench_entries) (rev STATIC_KEYWORDS).
Proof.
  split; [apply Permutation_rev|]. split; [apply Permutation_rev|].
  apply analyze_order_irrelevant; apply Permutation_rev.
Defined.

End ScorerWitnesses.

(** ** Further properties of the diagnostic payload *)

Section PayloadSizes.
Import BlacklistManager Spec More.

Lemma utf8_size_app (a b : pystr) : utf8_size (a ++ b) = utf8_size a + utf8_size b.
Proof. unfold utf8_size, encode_utf8. rewrite flat_map_app, length_app. lia. Qed.

Lemma utf8_size_nonneg (s : pystr) : 0 <= utf8_size s.
Proof. unfold utf8_size. lia. Qed.

Lemma content_size_nonneg (s : pystr) : 0 <= content_size s.
Proof. apply utf8_size_nonneg. Qed.

Lemma quote_size (s : pystr) : utf8_size (quote s) = content_size s + 2.
Proof.
  unfold quote. rewrite !utf8_size_app. unfold content_size.
  change (utf8_size [34%N]) with 1. lia.
Qed.

(** The byte length of the serialisation, read off the value. *)
Lemma dumps_size : forall v, utf8_size (dumps v) = json_size v.
Proof.
  fix IH 1. intros [s|b|items].
  - apply quote_size.
  - destruct b; reflexivity.
  - cbn [dumps json_size]. rewrite !utf8_size_app.
    change (utf8_size (py "{")) with 1. change (utf8_size (py "}")) with 1.
    match goal with |- 1 + (utf8_size (?f items) + 1) = 2 + ?g items =>
      assert (H : utf8_size (f items) = g items); [|rewrite H; lia] end.
    induction items as [|[k w] rest IHr]; [reflexivity|].
    destruct rest as [|kw' rest'].
    + rewrite !utf8_size_app, quote_size, IH.
      change (utf8_size (py ":")) with 1. lia.
    + rewrite !utf8_size_app, quote_size, IH, IHr.
      change (utf8_size (py ":")) with 1. change (utf8_size (py ",")) with 1.
      lia.
Qed.

Lemma compact_size_json (payload : dict) :
  compact_size payload = json_size (JObj payload).
Proof. rewrite <- dumps_size. reflexivity. Qed.

Lemma object_size_ge (h : dict) : 2 <= json_size (JObj h).
Proof.
  rewrite <- dumps_size. cbn [dumps]. rewrite !utf8_size_app.
  change (utf8_size (py "{")) with 1. change (utf8_size (py "}")) with 1.
  match goal with |- 2 <= 1 + (utf8_size ?x + 1) =>
    pose proof (utf8_size_nonneg x) end. lia.
Qed.

Lemma content_size_firstn (n : nat) (s : pystr) :
  content_size (firstn n s) <= content_size s.
Proof.
  unfold content_size. rewrite <- (firstn_skipn n s) at 2.
  rewrite flat_map_app, utf8_size_app.
  pose proof (utf8_size_nonneg (flat_map escape_char (skipn n s))). lia.
Qed.

Lemma stage_size (r : request) (u q : pystr) (h : dict) :
  compact_size (stage r u q h)
  = 64 + content_size u + content_size (path r) + content_size q
    + content_size (method r) + content_size (host r) + json_size (JObj h).
Proof.
  rewrite compact_size_json. unfold stage. cbn [json_size].
  change (content_size (py "url")) with 3.
  change (content_size (py "path")) with 4.
  change (content_size (py "query")) with 5.
  change (content_size (py "method")) with 6.
  change (content_size (py "host")) with 4.
  change (content_size (py "headers")) with 7.
  lia.
Qed.

Lemma minimal_size (r : request) :
  compact_size (minimal_payload r)
  = 50 + content_size (path r) + content_size (method r) + content_size (host r).
Proof.
  rewrite compact_size_json. unfold minimal_payload. cbn [json_size].
  change (content_size (py "path")) with 4.
  change (content_size (py "method")) with 6.
  change (content_size (py "host")) with 4.
  change (content_size (py "truncated")) with 9.
  lia.
Qed.

(** Each stage of the degradation is at most as large as the one before. *)
Lemma stage_sizes_ordered (r : request) (sel : dict) :
  compact_size (minimal_payload r) < compact_size (stage4 r)
  /\ compact_size (stage4 r) <= compact_size (stage3 r)
  /\ compact_size (stage3 r) <= compact_size (stage2 r)
  /\ compact_size (stage2 r) <= compact_size (stage1 r sel).
Proof.
  unfold stage1, stage2, stage3, stage4. rewrite minimal_size, !stage_size.
  pose proof (object_size_ge sel).
  pose proof (object_size_ge []).
  assert (json_size (JObj []) = 2) by reflexivity.
  pose proof (content_size_firstn 256 (url r)).
  pose proof (content_size_firstn 256 (query_string r)).
  pose proof (content_size_nonneg (firstn 256 (url r))).
  pose proof (content_size_nonneg (firstn 256 (query_string r))).
  lia.
Qed.

End PayloadSizes.

Section PayloadBudget.
Import BlacklistManager Spec.

(** The returned stage fits the budget unless it is the fallback. *)
Lemma payload_within_budget_or_minimal_aux (r : request) (cfg : config) :
  let p := degrade r (selected_headers_of r cfg) (max_bytes_of cfg) in
  compact_size p <= max_bytes_of cfg \/ p = minimal_payload r.
Proof.
  unfold degrade. cbn [List.find].
  destruct (compact_size (stage1 r _) <=? max_bytes_of cfg) eqn:E1; [left; lia|].
  destruct (compact_size (stage2 r) <=? max_bytes_of cfg) eqn:E2; [left; lia|].
  destruct (compact_size (stage3 r) <=? max_bytes_of cfg) eqn:E3; [left; lia|].
  destruct (compact_size (stage4 r) <=? max_bytes_of cfg) eqn:E4; [left; lia|].
  now right.
Qed.

End PayloadBudget.

Section PayloadShape.
Import BlacklistManager Spec More.

(** What the capture loop leaves under a key: the request's value for a
    configured name, redacted or verbatim, and nothing otherwise. *)
Lemma select_headers_lookup (r : request) (cfg : config) (key : pystr) :
  dict_get key (selected_headers_of r cfg)
  = if configured cfg key
    then captured_value cfg key <$> headers_get r key
    else None.
Proof.
  unfold selected_headers_of, select_headers, configured.
  set (rs := make_redact_set (redact_headers_of cfg)).
  assert (Hgen : forall caps acc,
    dict_get key (fold_left (select_header r rs) caps acc)
    = match (if existsb (fun h => truthy h && bool_decide (strip h = key)) caps
             then headers_get r key else None) with
      | Some value => Some (captured_value cfg key value)
      | None => dict_get key acc
      end).
  { induction caps as [|h caps IH]; intros acc; [reflexivity|].
    cbn [fold_left existsb]. rewrite IH. clear IH.
    unfold select_header.
    destruct (truthy h); cbn [negb andb orb]; [|reflexivity].
    destruct (bool_decide (strip h = key)) eqn:Ek; cbn [orb].
    - apply bool_decide_eq_true in Ek. rewrite Ek.
      destruct (headers_get r key) as [value|].
      + assert (Hset : dict_get key
                  (if bool_decide (lower key ∈ rs)
                   then dict_set key (JStr REDACTED) acc
                   else dict_set key (JStr value) acc)
                = Some (captured_value cfg key value)).
        { unfold captured_value. fold rs.
          destruct (bool_decide (lower key ∈ rs));
            rewrite dict_get_set; destruct (decide (key = key)); congruence. }
        destruct (existsb _ caps); [reflexivity | exact Hset].
      + destruct (existsb _ caps); reflexivity.
    - apply bool_decide_eq_false in Ek.
      assert (Hkeep : dict_get key
                (match headers_get r (strip h) with
                 | Some value =>
                     if bool_decide (lower (strip h) ∈ rs)
                     then dict_set (strip h) (JStr REDACTED) acc
                     else dict_set (strip h) (JStr value) acc
                 | None => acc
                 end) = dict_get key acc).
      { destruct (headers_get r (strip h)); [|reflexivity].
        destruct (bool_decide (lower (strip h) ∈ rs));
          rewrite dict_get_set; destruct (decide (strip h = key)); congruence. }
      destruct (existsb _ caps); [|exact Hkeep].
      destruct (headers_get r key); [reflexivity | exact Hkeep]. }
  rewrite Hgen. destruct (existsb _ (capture_headers_of cfg)); [|reflexivity].
  destruct (headers_get r key); reflexivity.
Qed.

Lemma configured_spec (cfg : config) (key : pystr) :
  configured cfg key = true <->
  exists h, In h (capture_headers_of cfg) /\ h <> [] /\ strip h = key.
Proof.
  unfold configured. rewrite existsb_exists. split.
  - intros (h & Hin & Hh). apply andb_true_iff in Hh as [Ht Hk].
    apply bool_decide_eq_true in Hk. exists h. repeat split; try assumption.
    intros ->. discriminate Ht.
  - intros (h & Hin & Hne & Hk). exists h. split; [exact Hin|].
    apply andb_true_iff. split; [destruct h; [congruence | reflexivity]|].
    now apply bool_decide_eq_true.
Qed.

(** The payload the builder returns is one of the five stages. *)
Lemma degrade_cases (r : request) (sel : dict) (max_bytes : Z) :
  let p := degrade r sel max_bytes in
  (p = stage1 r sel /\ compact_size (stage1 r sel) <= max_bytes)
  \/ p = stage2 r \/ p = stage3 r \/ p = stage4 r
  \/ (p = minimal_payload r /\ max_bytes < compact_size (stage4 r)).
Proof.
  unfold degrade. cbn [List.find].
  destruct (compact_size (stage1 r sel) <=? max_bytes) eqn:E1;
    [left; split; [reflexivity | lia]|].
  destruct (compact_size (stage2 r) <=? max_bytes); [auto|].
  destruct (compact_size (stage3 r) <=? max_bytes); [auto|].
  destruct (compact_size (stage4 r) <=? max_bytes) eqn:E4; [auto|].
  do 4 right. split; [reflexivity | lia].
Qed.

Lemma build_request_info_some (r : request) (cfg : config) (payload : dict) :
  _build_request_info (Some r) cfg = Some payload ->
  get (AIWAF_CAPTURE_EXTENDED_REQUEST_INFO cfg) false = true
  /\ payload = degrade r (selected_headers_of r cfg) (max_bytes_of cfg).
Proof.
  rewrite build_request_info_degrade.
  destruct (get (AIWAF_CAPTURE_EXTENDED_REQUEST_INFO cfg) false); [|discriminate].
  intros H. injection H as <-. split; reflexivity.
Qed.

(** X7. A payload is built exactly when a request context exists and capture
    is enabled (it is off unless configured); whatever its stage, it carries
    the path, method and host of the request unchanged. *)
Theorem payload_gate_and_identity (ctx : option request) (cfg : config) :
  (_build_request_info ctx cfg = None <->
   ctx = None \/ get (AIWAF_CAPTURE_EXTENDED_REQUEST_INFO cfg) false = false)
  /\ forall r payload,
       ctx = Some r -> _build_request_info ctx cfg = Some payload ->
       dict_get (py "path") payload = Some (JStr (path r))
       /\ dict_get (py "method") payload = Some (JStr (method r))
       /\ dict_get (py "host") payload = Some (JStr (host r)).
Proof.
  split.
  - destruct ctx as [r|]; [|split; [now left | reflexivity]].
    rewrite build_request_info_degrade.
    destruct (get (AIWAF_CAPTURE_EXTENDED_REQUEST_INFO cfg) false).
    + split; [discriminate | intros [H|H]; discriminate H].
    + split; [now right | reflexivity].
  - intros r payload -> Hb. apply build_request_info_some in Hb as [_ ->].
    destruct (degrade_cases r (selected_headers_of r cfg) (max_bytes_of cfg))
      as [[-> _] | [-> | [-> | [-> | [-> _]]]]]; repeat split; reflexivity.
Qed.

(** X8. Only the minimal fallback carries the truncated flag: a payload whose
    query or url was cut to 256 characters is returned without it. *)
Theorem truncated_flag_only_on_fallback (r : request) (cfg : config)
    (payload : dict) :
  _build_request_info (Some r) cfg = Some payload ->
  (payload = minimal_payload r
   /\ dict_get (py "truncated") payload = Some (JBool true))
  \/ (dict_get (py "truncated") payload = None
      /\ (get_str (py "url") payload = url r
          \/ get_str (py "url") payload = firstn 256 (url r))
      /\ (get_str (py "query") payload = query_string r
          \/ get_str (py "query") payload = firstn 256 (query_string r))).
Proof.
  intros Hb. apply build_request_info_some in Hb as [_ ->].
  destruct (degrade_cases r (selected_headers_of r cfg) (max_bytes_of cfg))
    as [[-> _] | [-> | [-> | [-> | [-> _]]]]].
  - right. repeat split; now left.
  - right. repeat split; now left.
  - right. split; [reflexivity|]. split; [now left | now right].
  - right. split; [reflexivity|]. split; now right.
  - left. split; reflexivity.
Qed.

(** X9. Every header in a payload is one of the configured capture names,
    stripped, that the request carries, stored with the request's own value
    or with the redaction marker: nothing else is ever captured. *)
Theorem captured_headers_are_configured (r : request) (cfg : config)
    (payload hs : dict) (key : pystr) (v : json) :
  _build_request_info (Some r) cfg = Some payload ->
  dict_get (py "headers") payload = Some (JObj hs) ->
  dict_get key hs = Some v ->
  exists h value,
    In h (capture_headers_of cfg) /\ h <> [] /\ strip h = key
    /\ headers_get r key = Some value
    /\ v = captured_value cfg key value
    /\ (v = JStr value \/ v = JStr REDACTED).
Proof.
  intros Hb Hhs Hv. apply build_request_info_some in Hb as [_ ->].
  apply degrade_headers in Hhs. destruct Hhs as [-> | ->]; [|discriminate Hv].
  rewrite select_headers_lookup in Hv.
  destruct (configured cfg key) eqn:Ec; [|discriminate Hv].
  apply configured_spec in Ec as (h & Hin & Hne & Hk).
  destruct (headers_get r key) as [value|]; [|discriminate Hv].
  injection Hv as <-. exists h, value. repeat split; try assumption.
  unfold captured_value. destruct (bool_decide _); [now right | now left].
Qed.

(** X10. When the full payload fits the budget, every configured header the
    request carries is in it. *)
Theorem capture_complete_when_fits (r : request) (cfg : config)
    (h value : pystr) :
  get (AIWAF_CAPTURE_EXTENDED_REQUEST_INFO cfg) false = true ->
  compact_size (stage1 r (selected_headers_of r cfg)) <= max_bytes_of cfg ->
  In h (capture_headers_of cfg) -> h <> [] ->
  headers_get r (strip h) = Some value ->
  exists payload hs,
    _build_request_info (Some r) cfg = Some payload
    /\ dict_get (py "headers") payload = Some (JObj hs)
    /\ dict_get (strip h) hs = Some (captured_value cfg (strip h) value).
Proof.
  intros Hen Hfit Hin Hne Hget.
  exists (stage1 r (selected_headers_of r cfg)), (selected_headers_of r cfg).
  split; [|split; [reflexivity|]].
  - rewrite build_request_info_degrade, Hen. unfold degrade. cbn [List.find].
    apply Z.leb_le in Hfit. now rewrite Hfit.
  - rewrite select_headers_lookup, Hget.
    assert (Hc : configured cfg (strip h) = true).
    { apply configured_spec. now exists h. }
    now rewrite Hc.
Qed.

(** X11. No payload is smaller than 50 bytes, and none but the minimal fallback
    is smaller than 66: a budget under 66 bytes always yields the fallback,
    and a budget under 50 bytes is never met. *)
Theorem payload_size_floor (r : request) (cfg : config) (payload : dict) :
  _build_request_info (Some r) cfg = Some payload ->
  50 <= compact_size payload
  /\ (payload <> minimal_payload r -> 66 <= compact_size payload)
  /\ (max_bytes_of cfg < 66 -> payload = minimal_payload r).
Proof.
  intros Hb. apply build_request_info_some in Hb as [_ ->].
  pose proof (stage_sizes_ordered r (selected_headers_of r cfg))
    as (H54 & H43 & H32 & H21).
  pose proof (minimal_size r) as Hmin.
  pose proof (content_size_nonneg (path r)).
  pose proof (content_size_nonneg (method r)).
  pose proof (content_size_nonneg (host r)).
  assert (H4 : 66 <= compact_size (stage4 r)).
  { unfold stage4. rewrite stage_size.
    pose proof (content_size_nonneg (firstn 256 (url r))).
    pose proof (content_size_nonneg (firstn 256 (query_string r))).
    assert (json_size (JObj []) = 2) by reflexivity. lia. }
  pose proof (payload_within_budget_or_minimal_aux r cfg) as Hfit.
  cbv zeta in Hfit.
  set (p := degrade r (selected_headers_of r cfg) (max_bytes_of cfg)) in *.
  assert (Hsize : p = minimal_payload r \/ 66 <= compact_size p).
  { destruct (degrade_cases r (selected_headers_of r cfg) (max_bytes_of cfg))
      as [[Hp _] | [Hp | [Hp | [Hp | [Hp _]]]]]; fold p in Hp;
      [right | right | right | right | now left]; rewrite Hp; lia. }
  split; [|split].
  - destruct Hsize as [-> | Hsize]; lia.
  - intros Hn. destruct Hsize as [Hp | Hsize]; [contradiction | exact Hsize].
  - intros Hsmall. destruct Hfit as [Hle | Heq]; [|exact Heq].
    destruct Hsize as [Hp | Hsize]; [exact Hp | exfalso; lia].
Qed.

End PayloadShape.

Section PayloadBudgets.
Import BlacklistManager Spec More.

(** X12. Raising the byte budget never yields a smaller payload. *)
Theorem larger_budget_larger_payload (r : request) (cfg : config)
    (b b' : Z) (p p' : dict) :
  b <= b' ->
  _build_request_info (Some r) (with_max_bytes cfg b) = Some p ->
  _build_request_info (Some r) (with_max_bytes cfg b') = Some p' ->
  compact_size p <= compact_size p'.
Proof.
  intros Hb Hp Hp'.
  apply build_request_info_some in Hp as [_ ->].
  apply build_request_info_some in Hp' as [_ ->].
  change (selected_headers_of r (with_max_bytes cfg b))
    with (selected_headers_of r cfg).
  change (selected_headers_of r (with_max_bytes cfg b'))
    with (selected_headers_of r cfg).
  change (max_bytes_of (with_max_bytes cfg b)) with b.
  change (max_bytes_of (with_max_bytes cfg b')) with b'.
  pose proof (stage_sizes_ordered r (selected_headers_of r cfg))
    as (H54 & H43 & H32 & H21).
  unfold degrade. cbn [List.find].
  destruct (Z.leb_spec (compact_size (stage1 r (selected_headers_of r cfg))) b),
    (Z.leb_spec (compact_size (stage1 r (selected_headers_of r cfg))) b'),
    (Z.leb_spec (compact_size (stage2 r)) b),
    (Z.leb_spec (compact_size (stage2 r)) b'),
    (Z.leb_spec (compact_size (stage3 r)) b),
    (Z.leb_spec (compact_size (stage3 r)) b'),
    (Z.leb_spec (compact_size (stage4 r)) b),
    (Z.leb_spec (compact_size (stage4 r)) b');
    change (stage5 r) with (minimal_payload r); lia.
Qed.

End PayloadBudgets.

Section PayloadExtraWitnesses.
Import BlacklistManager Spec More Samples.

Lemma payload_gate_and_identity_witness :
  _build_request_info (Some (login_request (py "secret"))) (test_config 8192)
  = Some (stage1 (login_request (py "secret"))
            (selected_headers_of (login_request (py "secret")) (test_config 8192)))
  /\ dict_get (py "path")
       (stage1 (login_request (py "secret"))
          (selected_headers_of (login_request (py "secret")) (test_config 8192)))
     = Some (JStr (py "/login")).
Proof.
  assert (H : _build_request_info (Some (login_request (py "secret")))
                (test_config 8192)
    = Some (stage1 (login_request (py "secret"))
              (selected_headers_of (login_request (py "secret")) (test_config 8192)))).
  { vm_compute. reflexivity. }
  split; [exact H|].
  exact (proj1 (proj2 (payload_gate_and_identity _ (test_config 8192))
                  _ _ eq_refl H)).
Defined.

Lemma truncated_flag_only_on_fallback_witness :
  _build_request_info (Some size_limit_request) (test_config 700)
  = Some (stage4 size_limit_request)
  /\ Z.of_nat (List.length (url size_limit_request)) = 2114
  /\ dict_get (py "truncated") (stage4 size_limit_request) = None.
Proof.
  assert (H : _build_request_info (Some size_limit_request) (test_config 700)
              = Some (stage4 size_limit_request)).
  { vm_compute. reflexivity. }
  split; [exact H|]. split; [vm_compute; reflexivity|].
  destruct (truncated_flag_only_on_fallback _ _ _ H) as [[Hmin _] | [Hflag _]].
  - vm_compute in Hmin. discriminate Hmin.
  - exact Hflag.
Defined.

Lemma captured_headers_are_configured_witness :
  _build_request_info (Some (login_request (py "secret"))) (test_config 8192)
  = Some (stage1 (login_request (py "secret"))
            (selected_headers_of (login_request (py "secret")) (test_config 8192)))
  /\ exists h value,
       In h (capture_headers_of (test_config 8192)) /\ h <> []
       /\ strip h = py "Authorization"
       /\ headers_get (login_request (py "secret")) (py "Authorization")
          = Some value
       /\ JStr REDACTED = captured_value (test_config 8192) (py "Authorization") value
       /\ (JStr REDACTED = JStr value \/ JStr REDACTED = JStr REDACTED).
Proof.
  assert (H : _build_request_info (Some (login_request (py "secret")))
                (test_config 8192)
    = Some (stage1 (login_request (py "secret"))
              (selected_headers_of (login_request (py "secret")) (test_config 8192)))).
  { vm_compute. reflexivity. }
  split; [exact H|].
  apply (captured_headers_are_configured _ _ _
           (selected_headers_of (login_request (py "secret")) (test_config 8192))
           _ _ H); vm_compute; reflexivity.
Defined.

Lemma capture_complete_when_fits_witness :
  exists payload hs,
    _build_request_info (Some (login_request (py "secret"))) (test_config 8192)
    = Some payload
    /\ dict_get (py "headers") payload = Some (JObj hs)
    /\ dict_get (strip (py "User-Agent")) hs
       = Some (captured_value (test_config 8192) (strip (py "User-Agent"))
                 (py "pytest-agent")).
Proof.
  apply (capture_complete_when_fits (login_request (py "secret"))
           (test_config 8192) (py "User-Agent") (py "pytest-agent")).
  - reflexivity.
  - vm_compute. discriminate.
  - left. reflexivity.
  - discriminate.
  - vm_compute. reflexivity.
Defined.

Lemma payload_size_floor_witness :
  _build_request_info (Some size_limit_request) (test_config 64)
  = Some (minimal_payload size_limit_request)
  /\ 50 <= compact_size (minimal_payload size_limit_request).
Proof.
  assert (H : _build_request_info (Some size_limit_request) (test_config 64)
              = Some (minimal_payload size_limit_request)).
  { vm_compute. reflexivity. }
  split; [exact H|].
  exact (proj1 (payload_size_floor _ _ _ H)).
Defined.

Lemma larger_budget_larger_payload_witness :
  700 <= 8192
  /\ compact_size (stage4 size_limit_request)
     <= compact_size
          (stage1 size_limit_request
             (selected_headers_of size_limit_request (test_config 64))).
Proof.
  split; [lia|].
  apply (larger_budget_larger_payload size_limit_request (test_config 64)
           700 8192); [lia | vm_compute; reflexivity | vm_compute; reflexivity].
Defined.

End PayloadExtraWitnesses.

(** ** Further properties of the honeypot detector *)

Section HoneypotFacts.
Import BlacklistManager HoneypotTimingMiddleware Spec More.

(** The three things the hook can do. *)
Lemma before_request_cases (cfg : config)
    (should_apply_honeypot is_authenticated : bool)
    (ip : pystr) (now : Q) (request : request) (w : world) :
  let r := before_request cfg should_apply_honeypot is_authenticated ip now
                          request w in
  let min_time := get (AIWAF_MIN_FORM_TIME cfg) 1%Q in
  (r = (None, w)
   /\ ~ (active cfg should_apply_honeypot is_authenticated = true
         /\ method request = py "GET")
   /\ ~ (active cfg should_apply_honeypot is_authenticated = true
         /\ method request = py "POST"
         /\ exists g, _aiwaf_cache w !! cache_key ip = Some g
                      /\ (fsub now g < min_time)%Q))
  \/ (active cfg should_apply_honeypot is_authenticated = true
      /\ method request = py "POST"
      /\ exists g, _aiwaf_cache w !! cache_key ip = Some g
           /\ (fsub now g < min_time)%Q
           /\ r = (Some Blocked403,
                   {| _aiwaf_cache := _aiwaf_cache w;
                      storage := storage w ++
                        [{| call_ip := ip;
                            call_reason := reason_of (fsub now g);
                            call_extended_request_info :=
                              _build_request_info (Some request) cfg |}] |}))
  \/ (active cfg should_apply_honeypot is_authenticated = true
      /\ method request = py "GET"
      /\ r = (None, {| _aiwaf_cache := <[cache_key ip := now]> (_aiwaf_cache w);
                       storage := storage w |})).
Proof.
  cbv zeta. unfold before_request, active.
  destruct should_apply_honeypot; cbn [negb andb];
    [|left; split; [reflexivity|]; split; intros [H _]; discriminate H].
  destruct (get (AIWAF_HONEYPOT_SKIP_AUTHENTICATED cfg) true && is_authenticated);
    cbn [negb];
    [left; split; [reflexivity|]; split; intros [H _]; discriminate H|].
  destruct (decide (method request = py "POST")) as [Hp|Hp].
  - destruct (_aiwaf_cache w !! cache_key ip) as [g|] eqn:Eg.
    + destruct (Qlt_bool (fsub now g) (get (AIWAF_MIN_FORM_TIME cfg) 1%Q)) eqn:E.
      * right. left. apply Qlt_bool_iff in E.
        split; [reflexivity|]. split; [exact Hp|]. now exists g.
      * left. split; [reflexivity|]. split.
        -- intros [_ Hg]. rewrite Hg in Hp. discriminate Hp.
        -- intros (_ & _ & g' & Hg' & Hlt). injection Hg' as <-.
           apply Qlt_bool_iff in Hlt. congruence.
    + left. split; [reflexivity|]. split.
      * intros [_ Hg]. rewrite Hg in Hp. discriminate Hp.
      * intros (_ & _ & g' & Hg' & _). discriminate Hg'.
  - destruct (decide (method request = py "GET")) as [Hg|Hg].
    + right. right. repeat split; assumption.
    + left. split; [reflexivity|]. split.
      * intros [_ H]. contradiction.
      * intros (_ & H & _). contradiction.
Qed.

(** X13. What one request can change: at most one blacklist call, made exactly
    when the request is answered with 403, for the requesting client; and
    at most the GET timestamp of the requesting client, no cache entry ever
    being removed. *)
Theorem honeypot_footprint (cfg : config)
    (should_apply_honeypot is_authenticated : bool)
    (ip : pystr) (now : Q) (request : request) (w : world) :
  let r := before_request cfg should_apply_honeypot is_authenticated ip now
                          request w in
  ((fst r = None /\ storage (snd r) = storage w)
   \/ (fst r = Some Blocked403
       /\ method request = py "POST"
       /\ _aiwaf_cache (snd r) = _aiwaf_cache w
       /\ exists delta,
            storage (snd r) = storage w ++
              [{| call_ip := ip;
                  call_reason := reason_of delta;
                  call_extended_request_info :=
                    _build_request_info (Some request) cfg |}]))
  /\ (forall k, k <> cache_key ip ->
        _aiwaf_cache (snd r) !! k = _aiwaf_cache w !! k)
  /\ (forall k, is_Some (_aiwaf_cache w !! k) ->
        is_Some (_aiwaf_cache (snd r) !! k))
  /\ (method request <> py "GET" -> _aiwaf_cache (snd r) = _aiwaf_cache w).
Proof.
  intros r.
  destruct (before_request_cases cfg should_apply_honeypot is_authenticated
              ip now request w)
    as [(Hr & _) | [(_ & Hp & g & _ & _ & Hr) | (_ & Hg & Hr)]];
    fold r in Hr; rewrite Hr; cbn [fst snd _aiwaf_cache storage].
  - split; [now left|]. repeat split; auto.
  - split; [right; repeat split; [exact Hp | now exists (fsub now g)]|].
    repeat split; auto.
  - split; [now left|]. split; [|split].
    + intros k Hk. apply lookup_insert_ne. congruence.
    + intros k Hsome. destruct (decide (cache_key ip = k)) as [<-|Hne].
      * rewrite lookup_insert_eq. eauto.
      * now rewrite lookup_insert_ne.
    + intros Hng. contradiction.
Qed.

(** Requests that are not an acted-upon GET of a client leave that
    client's stored timestamp alone. *)
Lemma handle_keeps_timestamp (cfg : config) (w : world) (e : event) (ip : pystr) :
  ev_ip e <> ip
  \/ method (ev_request e) <> py "GET"
  \/ active cfg (ev_should_apply e) (ev_authenticated e) = false ->
  _aiwaf_cache (handle cfg w e) !! cache_key ip = _aiwaf_cache w !! cache_key ip.
Proof.
  intros Hother. unfold handle.
  destruct (before_request_cases cfg (ev_should_apply e) (ev_authenticated e)
              (ev_ip e) (ev_now e) (ev_request e) w)
    as [(Hr & _) | [(_ & _ & g & _ & _ & Hr) | (Ha & Hg & Hr)]];
    rewrite Hr; cbn [snd _aiwaf_cache]; try reflexivity.
  destruct Hother as [Hip | [Hm | Hin]]; [|contradiction|congruence].
  apply lookup_insert_ne. intros Hk. apply Hip. now apply cache_key_inj.
Qed.

Lemma run_keeps_timestamp (cfg : config) (events : list event) (w : world)
    (ip : pystr) :
  List.Forall (fun e =>
    ev_ip e <> ip
    \/ method (ev_request e) <> py "GET"
    \/ active cfg (ev_should_apply e) (ev_authenticated e) = false) events ->
  _aiwaf_cache (run cfg events w) !! cache_key ip = _aiwaf_cache w !! cache_key ip.
Proof.
  intros Hall. revert w. unfold run.
  induction Hall as [|e events He _ IH]; intros w; [reflexivity|].
  cbn [fold_left]. rewrite IH. now apply handle_keeps_timestamp.
Qed.

(** X14. A client's POST is judged against its latest acted-upon GET, whatever
    was stored before that GET and whatever other requests (other clients,
    the client's own POSTs, exempt or skipped requests) came in between:
    it is blocked exactly when the time of the POST less the time of that
    GET, subtracted as floats, is below MIN_FORM_TIME. *)
Theorem honeypot_get_then_post (cfg : config) (w : world) (ip : pystr)
    (t0 t1 : Q) (get_request post_request : request)
    (sa0 au0 sa1 au1 : bool) (between : list event) :
  method get_request = py "GET" ->
  method post_request = py "POST" ->
  active cfg sa0 au0 = true ->
  active cfg sa1 au1 = true ->
  List.Forall (fun e =>
    ev_ip e <> ip
    \/ method (ev_request e) <> py "GET"
    \/ active cfg (ev_should_apply e) (ev_authenticated e) = false) between ->
  let w1 := snd (before_request cfg sa0 au0 ip t0 get_request w) in
  let w2 := run cfg between w1 in
  fst (before_request cfg sa1 au1 ip t1 post_request w2) = Some Blocked403
  <-> (fsub t1 t0 < get (AIWAF_MIN_FORM_TIME cfg) 1)%Q.
Proof.
  intros Hget Hpost Ha0 Ha1 Hbetween w1 w2.
  assert (Hstored : _aiwaf_cache w2 !! cache_key ip = Some t0).
  { subst w2. rewrite (run_keeps_timestamp cfg between w1 ip Hbetween).
    subst w1.
    destruct (before_request_cases cfg sa0 au0 ip t0 get_request w)
      as [(_ & Hno & _) | [(_ & Hp & _) | (_ & _ & Hr)]].
    - exfalso. apply Hno. now split.
    - rewrite Hget in Hp. discriminate Hp.
    - rewrite Hr. cbn [snd _aiwaf_cache]. apply lookup_insert_eq. }
  destruct (before_request_cases cfg sa1 au1 ip t1 post_request w2)
    as [(Hr & _ & Hno) | [(_ & _ & g & Hg & Hlt & Hr) | (_ & Hg & _)]].
  - rewrite Hr. cbn [fst]. split; [discriminate|].
    intros Hlt. exfalso. apply Hno. repeat split; try assumption.
    now exists t0.
  - rewrite Hr. cbn [fst]. rewrite Hstored in Hg. injection Hg as <-.
    split; [intros _; exact Hlt | reflexivity].
  - rewrite Hpost in Hg. discriminate Hg.
Qed.

End HoneypotFacts.

Section HoneypotExtraWitnesses.
Import BlacklistManager HoneypotTimingMiddleware Spec More Samples MoreSamples.

Lemma honeypot_footprint_witness :
  method get_request <> py "POST"
  /\ _aiwaf_cache
       (snd (before_request honeypot_config true false client (3 # 10)
                            post_request after_get))
     = _aiwaf_cache after_get.
Proof.
  split; [discriminate|].
  apply (honeypot_footprint honeypot_config true false client (3 # 10)
           post_request after_get).
  discriminate.
Defined.

Lemma honeypot_get_then_post_witness :
  List.Forall (fun e =>
    ev_ip e <> client
    \/ method (ev_request e) <> py "GET"
    \/ active honeypot_config (ev_should_apply e) (ev_authenticated e) = false)
    between_events
  /\ (fsub (1 # 4) 0 < get (AIWAF_MIN_FORM_TIME honeypot_config) 1)%Q
  /\ fst (before_request honeypot_config true false client (1 # 4) post_request
            (run honeypot_config between_events
               (snd (before_request honeypot_config true false client 0
                                    get_request stale_world))))
     = Some Blocked403.
Proof.
  assert (Hbetween : List.Forall (fun e =>
    ev_ip e <> client
    \/ method (ev_request e) <> py "GET"
    \/ active honeypot_config (ev_should_apply e) (ev_authenticated e) = false)
    between_events).
  { apply List.Forall_cons; [left; vm_compute; discriminate|].
    apply List.Forall_cons; [right; left; discriminate|].
    apply List.Forall_nil. }
  assert (Hlt : (fsub (1 # 4) 0 < get (AIWAF_MIN_FORM_TIME honeypot_config) 1)%Q)
    by (vm_compute; reflexivity).
  split; [exact Hbetween|]. split; [exact Hlt|].
  apply (honeypot_get_then_post honeypot_config stale_world client 0 (1 # 4)
           get_request post_request true false true false between_events
           eq_refl eq_refl eq_refl eq_refl Hbetween).
  exact Hlt.
Defined.

End HoneypotExtraWitnesses.

(** ** The command-line manager *)

Section SortingFacts.
Import Cli.

Lemma str_leb_refl (a : pystr) : str_leb a a = true.
Proof.
  induction a as [|x a IH]; [reflexivity|]. cbn [str_leb].
  now rewrite N.ltb_irrefl.
Qed.

Lemma str_leb_total (a b : pystr) : str_leb a b = false -> str_leb b a = true.
Proof.
  revert b. induction a as [|x a IH]; intros [|y b]; cbn [str_leb];
    try discriminate; try reflexivity.
  destruct (N.ltb_spec x y), (N.ltb_spec y x); try discriminate;
    try reflexivity; try lia.
  apply IH.
Qed.

Lemma str_leb_trans (a b c : pystr) :
  str_leb a b = true -> str_leb b c = true -> str_leb a c = true.
Proof.
  revert b c. induction a as [|x a IH]; intros [|y b] [|z c]; cbn [str_leb];
    try discriminate; try reflexivity.
  destruct (N.ltb_spec x y), (N.ltb_spec y x), (N.ltb_spec y z),
    (N.ltb_spec z y), (N.ltb_spec x z), (N.ltb_spec z x);
    try discriminate; try reflexivity; try lia.
  apply IH.
Qed.

Lemma str_leb_antisym (a b : pystr) :
  str_leb a b = true -> str_leb b a = true -> a = b.
Proof.
  revert b. induction a as [|x a IH]; intros [|y b]; cbn [str_leb];
    try discriminate; try reflexivity.
  destruct (N.ltb_spec x y), (N.ltb_spec y x); try discriminate; try lia.
  intros H1 H2. f_equal; [lia | now apply IH].
Qed.

Section SortedBy.
Context {A : Type} (key : A -> pystr).

Lemma insert_by_perm (x : A) (l : list A) : insert_by key x l ≡ₚ x :: l.
Proof.
  induction l as [|y l IH]; [reflexivity|]. cbn [insert_by].
  destruct (str_leb (key x) (key y)); [reflexivity|].
  rewrite IH. apply perm_swap.
Qed.

Lemma sorted_by_perm (l : list A) : sorted_by key l ≡ₚ l.
Proof.
  induction l as [|x l IH]; [reflexivity|].
  cbn [sorted_by fold_right]. fold (sorted_by key l).
  now rewrite insert_by_perm, IH.
Qed.

Lemma insert_by_sorted (x : A) (l : list A) :
  Sorted (key_le key) l -> Sorted (key_le key) (insert_by key x l).
Proof.
  induction 1 as [|y l Hs IH Hhd]; cbn [insert_by].
  - repeat constructor.
  - destruct (str_leb (key x) (key y)) eqn:E.
    + constructor; [now constructor|]. now constructor.
    + constructor; [exact IH|].
      destruct l as [|z l]; cbn [insert_by].
      * constructor. now apply str_leb_total.
      * destruct (str_leb (key x) (key z)).
        -- constructor. now apply str_leb_total.
        -- constructor. now inversion Hhd.
Qed.

Lemma sorted_by_sorted (l : list A) :
  StronglySorted (key_le key) (sorted_by key l).
Proof.
  apply Sorted_StronglySorted.
  - intros a b c. apply str_leb_trans.
  - induction l as [|x l IH]; [constructor|].
    cbn [sorted_by fold_right]. now apply insert_by_sorted.
Qed.

Lemma sorted_by_elem (x : A) (l : list A) : x ∈ sorted_by key l <-> x ∈ l.
Proof. now rewrite sorted_by_perm. Qed.

End SortedBy.

End SortingFacts.

Section ManagedFacts.
Import Cli.

Lemma append_row_nonempty (header new_row : row) (file : option (list row)) :
  append_row header new_row file <> Some [].
Proof.
  destruct file as [rows|]; cbn [append_row]; [|discriminate].
  intros H. injection H as H. now apply app_eq_nil in H as [_ H].
Qed.

Lemma fold_with_rows {A} (step : import_state -> A -> import_state)
    (l : list A) (st : import_state) :
  (forall st x, with_rows (dir st) -> with_rows (dir (step st x))) ->
  with_rows (dir st) -> with_rows (dir (fold_left step l st)).
Proof.
  intros Hstep. revert st. induction l as [|x l IH]; intros st H; [exact H|].
  cbn [fold_left]. apply IH, Hstep, H.
Qed.

Lemma import_config_with_rows (config : config_file) (clock : nat -> pystr)
    (d : data_dir) :
  with_rows d -> with_rows (snd (import_config config clock d)).
Proof.
  intros H. unfold import_config. cbn [snd].
  repeat apply fold_with_rows; try exact H;
    intros st x (Hw & Hb & Hk); cbn [count_call dir snd add_to_whitelist
      add_to_blacklist add_keyword _append_csv_whitelist _append_csv_blacklist
      _append_csv_keyword];
    repeat split; cbn [whitelist_csv blacklist_csv keywords_csv];
    try assumption; apply append_row_nonempty.
Qed.

(** In a directory the manager has produced, a file that exists starts with
    its header row. *)
Lemma managed_with_rows (d : data_dir) : managed d -> with_rows d.
Proof.
  induction 1 as [|ip now d _ (Hw & Hb & Hk)|ip reason now d _ (Hw & Hb & Hk)
                  |keyword now d _ (Hw & Hb & Hk)|ip clock d _ (Hw & Hb & Hk)
                  |ip d _ (Hw & Hb & Hk)|config clock d _ IH].
  - repeat split; discriminate.
  - repeat split; cbn; try assumption. apply append_row_nonempty.
  - repeat split; cbn; try assumption. apply append_row_nonempty.
  - repeat split; cbn; try assumption. apply append_row_nonempty.
  - unfold remove_from_whitelist. destruct (whitelist_csv d) eqn:E;
      [|repeat split; cbn; congruence].
    destruct (negb _); cbn [snd]; repeat split; cbn; try assumption;
      try congruence; discriminate.
  - unfold remove_from_blacklist. destruct (blacklist_csv d) eqn:E;
      [|repeat split; cbn; congruence].
    destruct (negb _); cbn [snd]; repeat split; cbn; try assumption;
      try congruence; discriminate.
  - now apply import_config_with_rows.
Qed.

End ManagedFacts.

Section WhitelistFacts.
Import Cli.

Lemma read_fold_elem (l : list row) (acc : gset pystr) (x : pystr) :
  x ∈ fold_left (fun (acc : gset pystr) (r : row) =>
                   match r with
                   | [] => acc
                   | value :: _ => acc ∪ {[ value ]}
                   end) l acc
  <-> x ∈ acc \/ exists rest, (x :: rest) ∈ l.
Proof.
  revert acc. induction l as [|r l IH]; intros acc; cbn [fold_left].
  - split; [now left|]. intros [H | (rest & H)]; [exact H|].
    now apply elem_of_nil in H.
  - rewrite IH. split.
    + intros [H | (rest & H)].
      * destruct r as [|value r']; [now left|].
        apply elem_of_union in H as [H | H]; [now left|].
        apply elem_of_singleton in H as ->. right. exists r'. now left.
      * right. exists rest. now right.
    + intros [H | (rest & H)].
      * left. destruct r; [exact H | apply elem_of_union; now left].
      * apply elem_of_cons in H as [<- | H].
        -- left. apply elem_of_union. right. now apply elem_of_singleton.
        -- right. now exists rest.
Qed.

Lemma read_first_fields_elem (rows : list row) (x : pystr) :
  x ∈ read_first_fields rows <-> exists rest, (x :: rest) ∈ skip_header rows.
Proof.
  unfold read_first_fields. rewrite read_fold_elem. split.
  - intros [H | H]; [now apply elem_of_empty in H | exact H].
  - intros H. now right.
Qed.

Lemma sorted_elements_facts (X : gset pystr) :
  StronglySorted (key_le (fun s => s)) (sorted_by (fun s => s) (elements X))
  /\ NoDup (sorted_by (fun s => s) (elements X))
  /\ forall x, x ∈ sorted_by (fun s => s) (elements X) <-> x ∈ X.
Proof.
  split; [apply sorted_by_sorted|]. split.
  - rewrite sorted_by_perm. apply NoDup_elements.
  - intros x. now rewrite sorted_by_elem, elem_of_elements.
Qed.

(** X16. The listed whitelist and keywords are sorted, free of duplicates, and
    hold exactly the first fields of the non-empty rows below the first row
    of their file (nothing when the file is absent). *)
Theorem lists_sorted_and_unique (d : data_dir) :
  (StronglySorted (key_le (fun s => s)) (list_whitelist d)
   /\ NoDup (list_whitelist d)
   /\ forall ip, ip ∈ list_whitelist d <->
        exists rows rest, whitelist_csv d = Some rows
                          /\ (ip :: rest) ∈ skip_header rows)
  /\ (StronglySorted (key_le (fun s => s)) (list_keywords d)
      /\ NoDup (list_keywords d)
      /\ forall kw, kw ∈ list_keywords d <->
           exists rows rest, keywords_csv d = Some rows
                             /\ (kw :: rest) ∈ skip_header rows).
Proof.
  unfold list_whitelist, list_keywords, _read_csv_whitelist, _read_csv_keywords.
  split.
  - destruct (sorted_elements_facts
                (match whitelist_csv d with
                 | Some rows => read_first_fields rows
                 | None => ∅
                 end)) as (Hs & Hn & He).
    split; [exact Hs|]. split; [exact Hn|].
    intros ip. rewrite He. destruct (whitelist_csv d) as [rows|].
    + rewrite read_first_fields_elem. split.
      * intros (rest & H). now exists rows, rest.
      * intros (rows' & rest & Hr & H). injection Hr as <-. now exists rest.
    + split; [intros H; now apply elem_of_empty in H|].
      intros (rows' & rest & Hr & _). discriminate Hr.
  - destruct (sorted_elements_facts
                (match keywords_csv d with
                 | Some rows => read_first_fields rows
                 | None => ∅
                 end)) as (Hs & Hn & He).
    split; [exact Hs|]. split; [exact Hn|].
    intros kw. rewrite He. destruct (keywords_csv d) as [rows|].
    + rewrite read_first_fields_elem. split.
      * intros (rest & H). now exists rows, rest.
      * intros (rows' & rest & Hr & H). injection Hr as <-. now exists rest.
    + split; [intros H; now apply elem_of_empty in H|].
      intros (rows' & rest & Hr & _). discriminate Hr.
Qed.

Lemma list_whitelist_elem (d : data_dir) (x : pystr) :
  x ∈ list_whitelist d <-> x ∈ _read_csv_whitelist d.
Proof.
  unfold list_whitelist. now rewrite sorted_by_elem, elem_of_elements.
Qed.

Lemma append_row_elem (header new_row : row) (file : option (list row))
    (x : pystr) :
  file <> Some [] ->
  (exists rest, (x :: rest) ∈ skip_header
                  (default [] (append_row header new_row file)))
  <-> (exists rest, (x :: rest) ∈ skip_header (default [] file))
      \/ exists rest, new_row = x :: rest.
Proof.
  intros Hne. destruct file as [[|h rows]|]; [congruence| |];
    cbn [append_row default skip_header drop app].
  - split.
    + intros (rest & H). apply elem_of_app in H as [H | H].
      * left. now exists rest.
      * right. apply list_elem_of_singleton in H. now exists rest.
    + intros [(rest & H) | (rest & H)]; exists rest; apply elem_of_app.
      * now left.
      * right. now apply list_elem_of_singleton.
  - split.
    + intros (rest & H). right. apply list_elem_of_singleton in H.
      now exists rest.
    + intros [(rest & H) | (rest & H)].
      * now apply elem_of_nil in H.
      * exists rest. now apply list_elem_of_singleton.
Qed.

Lemma read_whitelist_default (d : data_dir) (x : pystr) :
  x ∈ _read_csv_whitelist d
  <-> exists rest, (x :: rest) ∈ skip_header (default [] (whitelist_csv d)).
Proof.
  unfold _read_csv_whitelist. destruct (whitelist_csv d) as [rows|]; cbn [default].
  - apply read_first_fields_elem.
  - split; [intros H; now apply elem_of_empty in H|].
    intros (rest & H). now apply elem_of_nil in H.
Qed.

(** X17. In a data directory the manager has produced (a directory without
    files, then any of its operations), adding an ip to the whitelist
    succeeds and lists it from then on beside what was listed before; the
    other two files are left as they were. *)
Theorem add_to_whitelist_listed (ip now : pystr) (d : data_dir) :
  managed d ->
  let d' := snd (add_to_whitelist ip now d) in
  fst (add_to_whitelist ip now d) = true
  /\ (forall x, x ∈ list_whitelist d' <-> x = ip \/ x ∈ list_whitelist d)
  /\ blacklist_csv d' = blacklist_csv d
  /\ keywords_csv d' = keywords_csv d.
Proof.
  intros Hm d'. destruct (managed_with_rows d Hm) as (Hne & _ & _).
  split; [reflexivity|]. split; [|split; reflexivity].
  intros x. rewrite !list_whitelist_elem, !read_whitelist_default.
  subst d'. cbn [add_to_whitelist snd _append_csv_whitelist whitelist_csv].
  rewrite (append_row_elem _ _ _ x Hne). split.
  - intros [H | (rest & H)]; [now right|]. left. now injection H.
  - intros [-> | H]; [right; now exists [now] | now left].
Qed.

(** X18. The edge the precondition above leaves out: when whitelist.csv exists
    but holds no row, the added row lands on the header line, is skipped on
    reading, and the ip is not listed although the call reports success. *)
Theorem add_to_empty_whitelist_lost (ip now : pystr) (d : data_dir) :
  whitelist_csv d = Some [] ->
  fst (add_to_whitelist ip now d) = true
  /\ whitelist_csv (snd (add_to_whitelist ip now d)) = Some [[ip; now]]
  /\ list_whitelist (snd (add_to_whitelist ip now d)) = [].
Proof.
  intros Hempty. split; [reflexivity|].
  unfold list_whitelist, _read_csv_whitelist.
  cbn [add_to_whitelist snd _append_csv_whitelist whitelist_csv].
  rewrite Hempty. cbn [append_row app]. split; [reflexivity|].
  unfold read_first_fields. cbn [skip_header drop fold_left].
  now rewrite elements_empty.
Qed.

End WhitelistFacts.

Section WhitelistRemoval.
Import Cli.

Lemma rewritten_rows_elem (clock : nat -> pystr) (kept : list pystr) (x : pystr) :
  (exists rest, (x :: rest) ∈ imap (fun k existing_ip => [existing_ip; clock k]) kept)
  <-> x ∈ kept.
Proof.
  split.
  - intros (rest & H). apply elem_of_lookup_imap in H as (i & y & Hy & Hi).
    injection Hy as -> _. now apply list_elem_of_lookup_2 in Hi.
  - intros H. apply list_elem_of_lookup_1 in H as (i & Hi).
    exists [clock i].
    apply (elem_of_lookup_imap_2 (fun k existing_ip => [existing_ip; clock k])
             kept x i Hi).
Qed.

(** X19. Removing an ip from the whitelist succeeds exactly when it is listed;
    a failed removal changes nothing; a successful one rewrites the file so
    that exactly the other listed ips remain listed, each row now carrying
    the time of the rewrite in place of its old timestamp, leaves the other
    two files alone, and cannot be repeated. *)
Theorem remove_from_whitelist_spec (ip : pystr) (clock clock' : nat -> pystr)
    (d : data_dir) :
  let r := remove_from_whitelist ip clock d in
  (fst r = true <-> ip ∈ list_whitelist d)
  /\ (fst r = false -> snd r = d)
  /\ (fst r = true ->
      (forall x, x ∈ list_whitelist (snd r) <-> x ∈ list_whitelist d /\ x <> ip)
      /\ (forall rows' row', whitelist_csv (snd r) = Some rows' ->
            row' ∈ skip_header rows' ->
            exists existing_ip k,
              row' = [existing_ip; clock k]
              /\ existing_ip ∈ list_whitelist d /\ existing_ip <> ip)
      /\ blacklist_csv (snd r) = blacklist_csv d
      /\ keywords_csv (snd r) = keywords_csv d
      /\ fst (remove_from_whitelist ip clock' (snd r)) = false).
Proof.
  intros r.
  assert (Hafter : forall rows,
    whitelist_csv d = Some rows -> ip ∈ list_whitelist d ->
    r = (true,
         {| whitelist_csv :=
              Some ([py "ip"; py "timestamp"]
                    :: imap (fun k existing_ip => [existing_ip; clock k])
                         (filter (fun existing_ip => existing_ip <> ip)
                                 (list_whitelist d)));
            blacklist_csv := blacklist_csv d;
            keywords_csv := keywords_csv d |})).
  { intros rows Hrows Hin. subst r. unfold remove_from_whitelist.
    rewrite Hrows, bool_decide_eq_true_2 by exact Hin. reflexivity. }
  assert (Hlisted : forall d0 x,
    whitelist_csv d0
    = Some ([py "ip"; py "timestamp"]
            :: imap (fun k existing_ip => [existing_ip; clock k])
                 (filter (fun existing_ip => existing_ip <> ip)
                         (list_whitelist d))) ->
    x ∈ list_whitelist d0 <-> x ∈ list_whitelist d /\ x <> ip).
  { intros d0 x Hd0. rewrite list_whitelist_elem. unfold _read_csv_whitelist.
    rewrite Hd0, read_first_fields_elem. cbn [skip_header drop].
    rewrite drop_0, rewritten_rows_elem, list_elem_of_filter. tauto. }
  destruct (whitelist_csv d) as [rows|] eqn:Erows.
  - destruct (decide (ip ∈ list_whitelist d)) as [Hin|Hout].
    + rewrite (Hafter rows eq_refl Hin). cbn [fst snd].
      split; [tauto|]. split; [discriminate|]. intros _.
      split; [intros x; now apply Hlisted|].
      split.
      { intros rows' row' Hrows' Hrow'. cbn [whitelist_csv] in Hrows'.
        injection Hrows' as <-. cbn [skip_header drop] in Hrow'.
        rewrite drop_0 in Hrow'.
        apply elem_of_lookup_imap in Hrow' as (k & e & -> & He).
        apply list_elem_of_lookup_2, list_elem_of_filter in He as [Hne He].
        now exists e, k. }
      split; [reflexivity|]. split; [reflexivity|].
      unfold remove_from_whitelist. cbn [whitelist_csv].
      rewrite bool_decide_eq_false_2; [reflexivity|].
      rewrite Hlisted by reflexivity. tauto.
    + subst r. unfold remove_from_whitelist.
      rewrite Erows, bool_decide_eq_false_2 by exact Hout. cbn [negb fst snd].
      split; [split; [discriminate | contradiction]|].
      split; [reflexivity | discriminate].
  - subst r. unfold remove_from_whitelist. rewrite Erows. cbn [fst snd].
    split.
    + split; [discriminate|]. intros Hin.
      apply list_whitelist_elem in Hin. unfold _read_csv_whitelist in Hin.
      rewrite Erows in Hin. now apply elem_of_empty in Hin.
    + split; [reflexivity | discriminate].
Qed.

End WhitelistRemoval.

Section BlacklistFacts.
Import Cli.

Lemma dict_set_keys {A} (k : pystr) (v : A) (d : list (pystr * A)) (x : pystr) :
  x ∈ map fst (dict_set k v d) <-> x = k \/ x ∈ map fst d.
Proof.
  induction d as [|[k' w] d IH]; cbn [dict_set map fst].
  - rewrite list_elem_of_singleton. split; [now left|].
    intros [H | H]; [exact H | now apply elem_of_nil in H].
  - destruct (decide (k' = k)) as [->|Hne]; cbn [map fst];
      rewrite !elem_of_cons; [tauto|]. rewrite IH. tauto.
Qed.

Lemma dict_set_NoDup {A} (k : pystr) (v : A) (d : list (pystr * A)) :
  NoDup (map fst d) -> NoDup (map fst (dict_set k v d)).
Proof.
  induction d as [|[k' w] d IH]; cbn [dict_set map fst]; intros Hnd.
  - apply NoDup_singleton.
  - apply NoDup_cons in Hnd as [Hk Hnd].
    destruct (decide (k' = k)) as [->|Hne]; cbn [map fst].
    + now apply NoDup_cons.
    + apply NoDup_cons. split; [|now apply IH].
      rewrite dict_set_keys. intros [H | H]; [congruence | contradiction].
Qed.

Lemma dict_set_fresh {A} (k : pystr) (v : A) (d : list (pystr * A)) :
  k ∉ map fst d -> dict_set k v d = d ++ [(k, v)].
Proof.
  induction d as [|[k' w] d IH]; cbn [dict_set map fst app]; intros Hk;
    [reflexivity|].
  apply not_elem_of_cons in Hk as [Hne Hk].
  destruct (decide (k' = k)); [congruence|]. now rewrite IH.
Qed.

(** With distinct keys, a lookup finds exactly the pairs of the list. *)
Lemma dict_get_elem {A} (k : pystr) (v : A) (d : list (pystr * A)) :
  NoDup (map fst d) -> dict_get k d = Some v <-> (k, v) ∈ d.
Proof.
  induction d as [|[k' w] d IH]; cbn [dict_get map fst]; intros Hnd.
  - split; [discriminate | intros H; now apply elem_of_nil in H].
  - apply NoDup_cons in Hnd as [Hk Hnd]. rewrite elem_of_cons.
    destruct (decide (k' = k)) as [->|Hne].
    + split; [intros H; left; congruence|].
      intros [H | H]; [congruence|]. exfalso. apply Hk.
      apply list_elem_of_In, in_map_iff. exists (k, v).
      split; [reflexivity | now apply list_elem_of_In].
    + rewrite (IH Hnd). split; [now right|].
      intros [H | H]; [congruence | exact H].
Qed.

Lemma map_fst_perm {A} (l l' : list (pystr * A)) :
  l ≡ₚ l' -> map fst l ≡ₚ map fst l'.
Proof. apply Permutation_map. Qed.

Lemma dict_get_perm {A} (k : pystr) (l l' : list (pystr * A)) :
  NoDup (map fst l) -> l ≡ₚ l' -> dict_get k l = dict_get k l'.
Proof.
  intros Hnd Hp.
  assert (Hnd' : NoDup (map fst l')) by now rewrite <- (map_fst_perm l l' Hp).
  destruct (dict_get k l) as [v|] eqn:E.
  - symmetry. apply (dict_get_elem k v l' Hnd'). rewrite <- Hp.
    now apply (dict_get_elem k v l Hnd).
  - destruct (dict_get k l') as [v'|] eqn:E'; [|reflexivity].
    apply (dict_get_elem k v' l' Hnd') in E'. rewrite <- Hp in E'.
    apply (dict_get_elem k v' l Hnd) in E'. congruence.
Qed.

Lemma dict_get_filter {A} (k ip : pystr) (l : list (pystr * A)) :
  dict_get k (filter (fun item => fst item <> ip) l)
  = if decide (k = ip) then None else dict_get k l.
Proof.
  induction l as [|[k' w] l IH]; [now destruct (decide (k = ip))|].
  rewrite filter_cons. cbn [fst].
  destruct (decide (k' <> ip)) as [Hne|Heq]; cbn [dict_get].
  - destruct (decide (k' = k)) as [->|Hk].
    + destruct (decide (k = ip)); [contradiction | reflexivity].
    + exact IH.
  - apply dec_stable in Heq. subst k'. rewrite IH.
    destruct (decide (k = ip)) as [->|Hk]; [reflexivity|].
    destruct (decide (ip = k)); [congruence | reflexivity].
Qed.

End BlacklistFacts.

Section BlacklistListing.
Import Cli.

Lemma blacklist_step_NoDup (acc : list (pystr * bl_entry)) (r : row) :
  NoDup (map fst acc) -> NoDup (map fst (blacklist_step acc r)).
Proof.
  intros H. unfold blacklist_step. destruct r as [|ip [|ts rest]]; try exact H.
  now apply dict_set_NoDup.
Qed.

Lemma blacklist_fold_NoDup (l : list row) (acc : list (pystr * bl_entry)) :
  NoDup (map fst acc) -> NoDup (map fst (fold_left blacklist_step l acc)).
Proof.
  revert acc. induction l as [|r l IH]; intros acc H; [exact H|].
  cbn [fold_left]. now apply IH, blacklist_step_NoDup.
Qed.

Lemma blacklist_fold_keys (l : list row) (acc : list (pystr * bl_entry))
    (x : pystr) :
  x ∈ map fst (fold_left blacklist_step l acc)
  <-> x ∈ map fst acc \/ exists ts rest, (x :: ts :: rest) ∈ l.
Proof.
  revert acc. induction l as [|r l IH]; intros acc; cbn [fold_left].
  - split; [now left|]. intros [H | (ts & rest & H)]; [exact H|].
    now apply elem_of_nil in H.
  - rewrite IH. unfold blacklist_step. split.
    + intros [H | (ts & rest & H)].
      * destruct r as [|ip [|ts rest]]; try (now left).
        apply dict_set_keys in H as [-> | H]; [|now left].
        right. exists ts, rest. now left.
      * right. exists ts, rest. now right.
    + intros [H | (ts & rest & H)].
      * left. destruct r as [|ip [|ts rest]]; try exact H.
        apply dict_set_keys. now right.
      * apply elem_of_cons in H as [<- | H].
        -- left. apply dict_set_keys. now left.
        -- right. now exists ts, rest.
Qed.

Lemma read_blacklist_default (d : data_dir) :
  _read_csv_blacklist d
  = fold_left blacklist_step (skip_header (default [] (blacklist_csv d))) [].
Proof.
  unfold _read_csv_blacklist. now destruct (blacklist_csv d).
Qed.

Lemma read_blacklist_NoDup (d : data_dir) : NoDup (map fst (_read_csv_blacklist d)).
Proof.
  rewrite read_blacklist_default. apply blacklist_fold_NoDup. constructor.
Qed.

Lemma list_blacklist_NoDup (d : data_dir) : NoDup (map fst (list_blacklist d)).
Proof.
  unfold list_blacklist.
  rewrite (map_fst_perm _ _ (sorted_by_perm fst (_read_csv_blacklist d))).
  apply read_blacklist_NoDup.
Qed.

Lemma list_blacklist_get (d : data_dir) (k : pystr) :
  dict_get k (list_blacklist d) = dict_get k (_read_csv_blacklist d).
Proof.
  symmetry. apply dict_get_perm; [apply read_blacklist_NoDup|].
  symmetry. apply sorted_by_perm.
Qed.

(** X20. The listed blacklist is ordered by ip with one entry per ip, and lists
    exactly the ips of the rows with at least two fields below the first
    row of blacklist.csv. *)
Theorem blacklist_one_entry_per_ip (d : data_dir) :
  StronglySorted (key_le fst) (list_blacklist d)
  /\ NoDup (map fst (list_blacklist d))
  /\ forall ip, ip ∈ map fst (list_blacklist d) <->
       exists rows ts rest, blacklist_csv d = Some rows
                            /\ (ip :: ts :: rest) ∈ skip_header rows.
Proof.
  split; [apply sorted_by_sorted|]. split; [apply list_blacklist_NoDup|].
  intros ip. unfold list_blacklist.
  rewrite (map_fst_perm _ _ (sorted_by_perm fst (_read_csv_blacklist d))).
  unfold _read_csv_blacklist, read_blacklist_rows.
  destruct (blacklist_csv d) as [rows|].
  - rewrite blacklist_fold_keys. split.
    + intros [H | (ts & rest & H)]; [now apply elem_of_nil in H|].
      now exists rows, ts, rest.
    + intros (rows' & ts & rest & Hr & H). injection Hr as <-.
      right. now exists ts, rest.
  - split; [intros H; now apply elem_of_nil in H|].
    intros (rows' & ts & rest & Hr & _). discriminate Hr.
Qed.

Lemma append_row_rows (header new_row : row) (file : option (list row)) :
  file <> Some [] ->
  skip_header (default [] (append_row header new_row file))
  = skip_header (default [] file) ++ [new_row].
Proof.
  intros Hne. destruct file as [[|h rows]|]; [congruence| |]; reflexivity.
Qed.

(** X21. In a data directory the manager has produced, blacklisting an ip
    succeeds and leaves the ip listed with the new reason and timestamp,
    replacing what was listed for it; every other ip keeps its entry and
    the other two files are left as they were. *)
Theorem add_to_blacklist_overwrites (ip reason now : pystr) (d : data_dir) :
  managed d ->
  let d' := snd (add_to_blacklist ip reason now d) in
  fst (add_to_blacklist ip reason now d) = true
  /\ dict_get ip (list_blacklist d')
     = Some {| bl_timestamp := now; bl_reason := reason |}
  /\ (forall ip', ip' <> ip ->
        dict_get ip' (list_blacklist d') = dict_get ip' (list_blacklist d))
  /\ whitelist_csv d' = whitelist_csv d
  /\ keywords_csv d' = keywords_csv d.
Proof.
  intros Hm d'. destruct (managed_with_rows d Hm) as (_ & Hne & _).
  split; [reflexivity|].
  assert (Hread : _read_csv_blacklist d'
                  = dict_set ip {| bl_timestamp := now; bl_reason := reason |}
                             (_read_csv_blacklist d)).
  { rewrite !read_blacklist_default. subst d'.
    cbn [add_to_blacklist snd _append_csv_blacklist blacklist_csv].
    rewrite (append_row_rows _ _ _ Hne), fold_left_app. reflexivity. }
  split; [|split; [|split; reflexivity]].
  - rewrite list_blacklist_get, Hread, dict_get_set.
    destruct (decide (ip = ip)); congruence.
  - intros ip' Hip. rewrite !list_blacklist_get, Hread, dict_get_set.
    destruct (decide (ip = ip')); congruence.
Qed.

End BlacklistListing.

Section BlacklistRemoval.
Import Cli.

Lemma filter_keys_NoDup {A} (ip : pystr) (l : list (pystr * A)) :
  NoDup (map fst l) ->
  NoDup (map fst (filter (fun item => fst item <> ip) l)).
Proof.
  induction l as [|[k w] l IH]; intros Hnd; [constructor|].
  cbn [map fst] in Hnd. apply NoDup_cons in Hnd as [Hk Hnd].
  rewrite filter_cons. cbn [fst].
  destruct (decide (k <> ip)); [|now apply IH].
  cbn [map fst]. apply NoDup_cons. split; [|now apply IH].
  intros Hin. apply Hk.
  apply list_elem_of_In, in_map_iff in Hin as ([k' w'] & Hk' & Hin).
  cbn [fst] in Hk'. subst k'. apply list_elem_of_In, list_elem_of_filter in Hin.
  destruct Hin as [_ Hin]. apply list_elem_of_In, in_map_iff.
  exists (k, w'). split; [reflexivity | now apply list_elem_of_In].
Qed.

(** Reading back the rows written for entries with distinct ips gives the
    entries again, in the same order. *)
Lemma blacklist_rows_read_back (kept acc : list (pystr * bl_entry)) :
  NoDup (map fst (acc ++ kept)) ->
  fold_left blacklist_step
    (map (fun item => [fst item; bl_timestamp (snd item); bl_reason (snd item)])
         kept) acc
  = acc ++ kept.
Proof.
  revert acc. induction kept as [|[k e] kept IH]; intros acc Hnd.
  - now rewrite app_nil_r.
  - cbn [map fold_left fst snd blacklist_step].
    assert (Hfresh : k ∉ map fst acc).
    { rewrite map_app in Hnd. apply NoDup_app in Hnd as (_ & Hdis & _).
      intros Hin. apply (Hdis k Hin). cbn [map fst]. now left. }
    replace {| bl_timestamp := bl_timestamp e; bl_reason := bl_reason e |}
      with e by now destruct e.
    rewrite (dict_set_fresh k e acc Hfresh), IH, <- app_assoc; [reflexivity|].
    now rewrite <- app_assoc.
Qed.

(** X22. Removing an ip from the blacklist succeeds exactly when it is listed;
    a failed removal changes nothing; a successful one rewrites the file so
    that the ip is no longer listed while every other ip keeps its
    timestamp and reason, and leaves the other two files alone. *)
Theorem remove_from_blacklist_spec (ip : pystr) (d : data_dir) :
  let r := remove_from_blacklist ip d in
  (fst r = true <-> ip ∈ map fst (list_blacklist d))
  /\ (fst r = false -> snd r = d)
  /\ (fst r = true ->
      dict_get ip (list_blacklist (snd r)) = None
      /\ (forall ip', ip' <> ip ->
            dict_get ip' (list_blacklist (snd r))
            = dict_get ip' (list_blacklist d))
      /\ whitelist_csv (snd r) = whitelist_csv d
      /\ keywords_csv (snd r) = keywords_csv d
      /\ fst (remove_from_blacklist ip (snd r)) = false).
Proof.
  intros r.
  destruct (blacklist_csv d) as [rows|] eqn:Erows.
  - destruct (decide (ip ∈ map fst (list_blacklist d))) as [Hin|Hout].
    + assert (Hr : r = (true,
         {| whitelist_csv := whitelist_csv d;
            blacklist_csv :=
              Some ([py "ip"; py "timestamp"; py "reason"]
                    :: map (fun item => [fst item; bl_timestamp (snd item);
                                         bl_reason (snd item)])
                         (filter (fun item => fst item <> ip) (list_blacklist d)));
            keywords_csv := keywords_csv d |})).
      { subst r. unfold remove_from_blacklist.
        rewrite Erows, bool_decide_eq_true_2 by exact Hin. reflexivity. }
      rewrite Hr. cbn [fst snd].
      set (d' := {| whitelist_csv := whitelist_csv d;
                    blacklist_csv := _; keywords_csv := keywords_csv d |}).
      assert (Hread : _read_csv_blacklist d'
                      = filter (fun item => fst item <> ip) (list_blacklist d)).
      { unfold _read_csv_blacklist, read_blacklist_rows. subst d'.
        cbn [blacklist_csv skip_header drop]. rewrite drop_0.
        rewrite blacklist_rows_read_back; [reflexivity|].
        cbn [app]. apply filter_keys_NoDup, list_blacklist_NoDup. }
      assert (Hget : forall k, dict_get k (list_blacklist d')
                = if decide (k = ip) then None else dict_get k (list_blacklist d)).
      { intros k. now rewrite list_blacklist_get, Hread, dict_get_filter. }
      split; [tauto|]. split; [discriminate|]. intros _.
      split; [rewrite Hget; destruct (decide (ip = ip)); congruence|].
      split; [intros ip' Hip; rewrite Hget;
              destruct (decide (ip' = ip)); congruence|].
      split; [reflexivity|]. split; [reflexivity|].
      assert (Hex : exists rows', blacklist_csv d' = Some rows')
        by (eexists; reflexivity).
      destruct Hex as [rows' Hrows'].
      unfold remove_from_blacklist. rewrite Hrows'.
      rewrite bool_decide_eq_false_2; [reflexivity|].
      intros Hk. apply list_elem_of_In, in_map_iff in Hk as ([k e] & Hk & Hin').
      cbn [fst] in Hk. subst k.
      apply list_elem_of_In in Hin'.
      apply (dict_get_elem ip e _ (list_blacklist_NoDup d')) in Hin'.
      rewrite Hget in Hin'. destruct (decide (ip = ip)); congruence.
    + subst r. unfold remove_from_blacklist.
      rewrite Erows, bool_decide_eq_false_2 by exact Hout. cbn [negb fst snd].
      split; [split; [discriminate | contradiction]|].
      split; [reflexivity | discriminate].
  - subst r. unfold remove_from_blacklist. rewrite Erows. cbn [fst snd].
    split.
    + split; [discriminate|]. intros Hin. exfalso. revert Hin.
      unfold list_blacklist, _read_csv_blacklist. rewrite Erows.
      cbn. apply not_elem_of_nil.
    + split; [reflexivity | discriminate].
Qed.

End BlacklistRemoval.

Section CliWitnesses.
Import Cli MoreSamples.

Lemma tool_dir_managed : managed tool_dir.
Proof. unfold tool_dir. repeat constructor. Qed.

Lemma add_to_whitelist_listed_witness :
  managed tool_dir
  /\ list_whitelist tool_dir = [py "10.0.0.1"]
  /\ py "9.9.9.9"
       ∈ list_whitelist
           (snd (add_to_whitelist (py "9.9.9.9") (py "2026-02-02T00:00:00")
                                  tool_dir)).
Proof.
  split; [exact tool_dir_managed|]. split; [vm_compute; reflexivity|].
  apply (proj1 (proj2 (add_to_whitelist_listed (py "9.9.9.9")
                         (py "2026-02-02T00:00:00") tool_dir tool_dir_managed))).
  now left.
Defined.

Lemma add_to_empty_whitelist_lost_witness :
  whitelist_csv blank_dir = Some []
  /\ list_whitelist
       (snd (add_to_whitelist (py "9.9.9.9") (py "2026-02-02T00:00:00") blank_dir))
     = [].
Proof.
  split; [reflexivity|].
  apply (add_to_empty_whitelist_lost (py "9.9.9.9") (py "2026-02-02T00:00:00")
           blank_dir eq_refl).
Defined.

Lemma remove_from_whitelist_spec_witness :
  py "10.0.0.2" ∈ list_whitelist sample_dir
  /\ fst (remove_from_whitelist (py "10.0.0.2") (fun _ => py "2026-02-02T00:00:00")
            sample_dir) = true
  /\ list_whitelist
       (snd (remove_from_whitelist (py "10.0.0.2")
               (fun _ => py "2026-02-02T00:00:00") sample_dir))
     = [py "10.0.0.1"].
Proof.
  assert (Hin : py "10.0.0.2" ∈ list_whitelist sample_dir).
  { apply (bool_decide_unpack (py "10.0.0.2" ∈ list_whitelist sample_dir)).
    vm_compute. exact I. }
  split; [exact Hin|]. split; [|vm_compute; reflexivity].
  apply (proj1 (remove_from_whitelist_spec (py "10.0.0.2")
                  (fun _ => py "2026-02-02T00:00:00")
                  (fun _ => py "2026-02-02T00:00:00") sample_dir)).
  exact Hin.
Defined.

Lemma add_to_blacklist_overwrites_witness :
  managed tool_dir
  /\ dict_get (py "6.6.6.6") (list_blacklist tool_dir)
     = Some {| bl_timestamp := py "2026-01-01T00:00:05"; bl_reason := py "flood" |}
  /\ dict_get (py "6.6.6.6")
       (list_blacklist
          (snd (add_to_blacklist (py "6.6.6.6") (py "Manual CLI addition")
                  (py "2026-02-02T00:00:00") tool_dir)))
     = Some {| bl_timestamp := py "2026-02-02T00:00:00";
               bl_reason := py "Manual CLI addition" |}.
Proof.
  split; [exact tool_dir_managed|]. split; [vm_compute; reflexivity|].
  apply (add_to_blacklist_overwrites (py "6.6.6.6") (py "Manual CLI addition")
           (py "2026-02-02T00:00:00") tool_dir tool_dir_managed).
Defined.

Lemma remove_from_blacklist_spec_witness :
  py "6.6.6.6" ∈ map fst (list_blacklist sample_dir)
  /\ fst (remove_from_blacklist (py "6.6.6.6") sample_dir) = true
  /\ list_blacklist (snd (remove_from_blacklist (py "6.6.6.6") sample_dir))
     = [(py "1.2.3.4",
         {| bl_timestamp := py "2026-01-01T00:00:03"; bl_reason := [] |})].
Proof.
  assert (Hin : py "6.6.6.6" ∈ map fst (list_blacklist sample_dir)).
  { apply (bool_decide_unpack (py "6.6.6.6" ∈ map fst (list_blacklist sample_dir))).
    vm_compute. exact I. }
  split; [exact Hin|]. split; [|vm_compute; reflexivity].
  apply (proj1 (remove_from_blacklist_spec (py "6.6.6.6") sample_dir)).
  exact Hin.
Defined.

End CliWitnesses.

Section ImportFacts.
Import Cli.

Lemma read_keywords_default (d : data_dir) (x : pystr) :
  x ∈ _read_csv_keywords d
  <-> exists rest, (x :: rest) ∈ skip_header (default [] (keywords_csv d)).
Proof.
  unfold _read_csv_keywords. destruct (keywords_csv d) as [rows|]; cbn [default].
  - apply read_first_fields_elem.
  - split; [intros H; now apply elem_of_empty in H|].
    intros (rest & H). now apply elem_of_nil in H.
Qed.

Lemma append_whitelist_elem (ip now : pystr) (d : data_dir) (x : pystr) :
  whitelist_csv d <> Some [] ->
  x ∈ _read_csv_whitelist (_append_csv_whitelist ip now d)
  <-> x = ip \/ x ∈ _read_csv_whitelist d.
Proof.
  intros Hne. rewrite !read_whitelist_default.
  cbn [_append_csv_whitelist whitelist_csv].
  rewrite (append_row_elem _ _ _ x Hne). split.
  - intros [H | (rest & H)]; [now right|]. left. now injection H.
  - intros [-> | H]; [right; now exists [now] | now left].
Qed.

Lemma append_keyword_elem (keyword now : pystr) (d : data_dir) (x : pystr) :
  keywords_csv d <> Some [] ->
  x ∈ _read_csv_keywords (_append_csv_keyword keyword now d)
  <-> x = keyword \/ x ∈ _read_csv_keywords d.
Proof.
  intros Hne. rewrite !read_keywords_default.
  cbn [_append_csv_keyword keywords_csv].
  rewrite (append_row_elem _ _ _ x Hne). split.
  - intros [H | (rest & H)]; [now right|]. left. now injection H.
  - intros [-> | H]; [right; now exists [now] | now left].
Qed.

Lemma append_blacklist_read (ip reason now : pystr) (d : data_dir) :
  blacklist_csv d <> Some [] ->
  _read_csv_blacklist (_append_csv_blacklist ip reason now d)
  = dict_set ip {| bl_timestamp := now; bl_reason := reason |}
             (_read_csv_blacklist d).
Proof.
  intros Hne. rewrite !read_blacklist_default.
  cbn [_append_csv_blacklist blacklist_csv].
  rewrite (append_row_rows _ _ _ Hne), fold_left_app. reflexivity.
Qed.

(** The whitelist loop of the import. *)
Lemma import_whitelist_fold (clock : nat -> pystr) (l : list pystr)
    (st : import_state) :
  let st' :=
    fold_left (fun st ip =>
                 count_call st (add_to_whitelist ip (clock (calls st)) (dir st)))
              l st in
  success_count st' = (success_count st + List.length l)%nat
  /\ blacklist_csv (dir st') = blacklist_csv (dir st)
  /\ keywords_csv (dir st') = keywords_csv (dir st)
  /\ (whitelist_csv (dir st) <> Some [] ->
      forall x, x ∈ _read_csv_whitelist (dir st')
                <-> x ∈ l \/ x ∈ _read_csv_whitelist (dir st)).
Proof.
  revert st. induction l as [|ip l IH]; intros st; cbn [fold_left].
  - cbn [List.length]. rewrite Nat.add_0_r.
    split; [reflexivity|]. split; [reflexivity|]. split; [reflexivity|].
    intros _ x. split; [now right|].
    intros [H | H]; [now apply elem_of_nil in H | exact H].
  - destruct (IH (count_call st (add_to_whitelist ip (clock (calls st)) (dir st))))
      as (Hc & Hb & Hk & Hw). clear IH.
    cbn [count_call add_to_whitelist fst snd success_count dir
         _append_csv_whitelist blacklist_csv keywords_csv whitelist_csv] in *.
    split; [rewrite Hc; cbn [List.length]; lia|].
    split; [exact Hb|]. split; [exact Hk|].
    intros Hne x. rewrite (Hw (append_row_nonempty _ _ _) x).
    rewrite elem_of_cons.
    pose proof (append_whitelist_elem ip (clock (calls st)) (dir st) x Hne) as Ha.
    cbn [_append_csv_whitelist] in Ha. rewrite Ha. tauto.
Qed.

(** The keywords loop of the import. *)
Lemma import_keywords_fold (clock : nat -> pystr) (l : list pystr)
    (st : import_state) :
  let st' :=
    fold_left (fun st keyword =>
                 count_call st (add_keyword keyword (clock (calls st)) (dir st)))
              l st in
  success_count st' = (success_count st + List.length l)%nat
  /\ whitelist_csv (dir st') = whitelist_csv (dir st)
  /\ blacklist_csv (dir st') = blacklist_csv (dir st)
  /\ (keywords_csv (dir st) <> Some [] ->
      forall x, x ∈ _read_csv_keywords (dir st')
                <-> x ∈ l \/ x ∈ _read_csv_keywords (dir st)).
Proof.
  revert st. induction l as [|kw l IH]; intros st; cbn [fold_left].
  - cbn [List.length]. rewrite Nat.add_0_r.
    split; [reflexivity|]. split; [reflexivity|]. split; [reflexivity|].
    intros _ x. split; [now right|].
    intros [H | H]; [now apply elem_of_nil in H | exact H].
  - destruct (IH (count_call st (add_keyword kw (clock (calls st)) (dir st))))
      as (Hc & Hw & Hb & Hk). clear IH.
    cbn [count_call add_keyword fst snd success_count dir
         _append_csv_keyword blacklist_csv keywords_csv whitelist_csv] in *.
    split; [rewrite Hc; cbn [List.length]; lia|].
    split; [exact Hw|]. split; [exact Hb|].
    intros Hne x. rewrite (Hk (append_row_nonempty _ _ _) x).
    rewrite elem_of_cons.
    pose proof (append_keyword_elem kw (clock (calls st)) (dir st) x Hne) as Ha.
    cbn [_append_csv_keyword] in Ha. rewrite Ha. tauto.
Qed.

(** The blacklist loop of the import. *)
Lemma import_blacklist_fold (clock : nat -> pystr)
    (l : list (pystr * import_data)) (st : import_state) :
  let st' :=
    fold_left (fun st (item : pystr * import_data) =>
                 let reason := imported_reason (snd item) in
                 count_call st (add_to_blacklist (fst item) reason
                                                 (clock (calls st)) (dir st)))
              l st in
  success_count st' = (success_count st + List.length l)%nat
  /\ whitelist_csv (dir st') = whitelist_csv (dir st)
  /\ keywords_csv (dir st') = keywords_csv (dir st)
  /\ (blacklist_csv (dir st) <> Some [] ->
      (forall ip, ip ∉ map fst l ->
         dict_get ip (_read_csv_blacklist (dir st'))
         = dict_get ip (_read_csv_blacklist (dir st)))
      /\ (NoDup (map fst l) -> forall ip data, (ip, data) ∈ l ->
            bl_reason <$> dict_get ip (_read_csv_blacklist (dir st'))
            = Some (imported_reason data))).
Proof.
  revert st. induction l as [|[k data0] l IH]; intros st; cbn [fold_left].
  - cbn [List.length]. rewrite Nat.add_0_r.
    split; [reflexivity|]. split; [reflexivity|]. split; [reflexivity|].
    intros _. split; [reflexivity|].
    intros _ ip data H. now apply elem_of_nil in H.
  - destruct (IH (count_call st
                    (add_to_blacklist k (imported_reason data0)
                                      (clock (calls st)) (dir st))))
      as (Hc & Hw & Hk & Hb). clear IH.
    cbn [count_call add_to_blacklist fst snd success_count dir
         _append_csv_blacklist blacklist_csv keywords_csv whitelist_csv] in *.
    split; [rewrite Hc; cbn [List.length]; lia|].
    split; [exact Hw|]. split; [exact Hk|].
    intros Hne. destruct (Hb (append_row_nonempty _ _ _)) as [Hother Hlisted].
    pose proof (append_blacklist_read k (imported_reason data0)
                  (clock (calls st)) (dir st) Hne) as Hread.
    cbn [_append_csv_blacklist] in Hread.
    split.
    + intros ip Hip. cbn [map fst] in Hip.
      apply not_elem_of_cons in Hip as [Hipk Hip].
      rewrite (Hother ip Hip), Hread, dict_get_set.
      destruct (decide (k = ip)); congruence.
    + intros Hnd ip data Hin. cbn [map fst] in Hnd.
      apply NoDup_cons in Hnd as [Hk' Hnd].
      apply elem_of_cons in Hin as [Hin | Hin].
      * injection Hin as -> ->.
        rewrite (Hother k Hk'), Hread, dict_get_set.
        destruct (decide (k = k)); [reflexivity | congruence].
      * now apply Hlisted.
Qed.

Lemma dict_get_None {A} (k : pystr) (d : list (pystr * A)) :
  k ∉ map fst d -> dict_get k d = None.
Proof.
  induction d as [|[k' w] d IH]; cbn [dict_get map fst]; [reflexivity|].
  intros Hk. apply not_elem_of_cons in Hk as [Hne Hk].
  destruct (decide (k' = k)); [congruence | now apply IH].
Qed.

End ImportFacts.

Section ImportExport.
Import Cli.

Lemma list_keywords_elem (d : data_dir) (x : pystr) :
  x ∈ list_keywords d <-> x ∈ _read_csv_keywords d.
Proof.
  unfold list_keywords. now rewrite sorted_by_elem, elem_of_elements.
Qed.

Lemma read_whitelist_file (d d' : data_dir) :
  whitelist_csv d' = whitelist_csv d -> _read_csv_whitelist d' = _read_csv_whitelist d.
Proof. unfold _read_csv_whitelist. now intros ->. Qed.

Lemma read_blacklist_file (d d' : data_dir) :
  blacklist_csv d' = blacklist_csv d -> _read_csv_blacklist d' = _read_csv_blacklist d.
Proof. unfold _read_csv_blacklist. now intros ->. Qed.

(** What an import leaves behind, loop by loop. *)
Lemma import_config_facts (config : config_file) (clock : nat -> pystr)
    (d : data_dir) :
  whitelist_csv d <> Some [] -> blacklist_csv d <> Some [] ->
  keywords_csv d <> Some [] ->
  let wl := get (cf_whitelist config) [] in
  let bl := get (cf_blacklist config) [] in
  let kw := get (cf_keywords config) [] in
  let r := import_config config clock d in
  r.1.1 = true
  /\ r.1.2 = (List.length wl + List.length bl + List.length kw)%nat
  /\ (forall x, x ∈ _read_csv_whitelist r.2 <-> x ∈ wl \/ x ∈ _read_csv_whitelist d)
  /\ (forall x, x ∈ _read_csv_keywords r.2 <-> x ∈ kw \/ x ∈ _read_csv_keywords d)
  /\ (forall ip, ip ∉ map fst bl ->
        dict_get ip (_read_csv_blacklist r.2) = dict_get ip (_read_csv_blacklist d))
  /\ (NoDup (map fst bl) -> forall ip data, (ip, data) ∈ bl ->
        bl_reason <$> dict_get ip (_read_csv_blacklist r.2)
        = Some (imported_reason data)).
Proof.
  intros Hw Hb Hk wl bl kw r. subst r. unfold import_config. fold wl bl kw.
  set (st0 := {| success_count := 0; calls := 0; dir := d |}).
  destruct (import_whitelist_fold clock wl st0) as (Hc1 & Hb1 & Hk1 & Hw1).
  set (st1 := fold_left _ wl st0) in *.
  destruct (import_blacklist_fold clock bl st1) as (Hc2 & Hw2 & Hk2 & Hb2).
  set (st2 := fold_left _ bl st1) in *.
  destruct (import_keywords_fold clock kw st2) as (Hc3 & Hw3 & Hb3 & Hk3).
  set (st3 := fold_left _ kw st2) in *.
  cbn [fst snd]. cbn [st0 success_count dir] in *.
  split; [reflexivity|]. split; [lia|].
  assert (Hb1' : blacklist_csv (dir st1) <> Some []) by now rewrite Hb1.
  assert (Hk2' : keywords_csv (dir st2) <> Some []) by now rewrite Hk2, Hk1.
  destruct (Hb2 Hb1') as [Hother Hlisted].
  split; [|split; [|split]].
  - intros x. rewrite (read_whitelist_file (dir st2) (dir st3) Hw3).
    rewrite (read_whitelist_file (dir st1) (dir st2) Hw2). now apply Hw1.
  - intros x. rewrite (Hk3 Hk2' x).
    unfold _read_csv_keywords. now rewrite Hk2, Hk1.
  - intros ip Hip. rewrite (read_blacklist_file (dir st2) (dir st3) Hb3).
    rewrite (Hother ip Hip). now rewrite (read_blacklist_file d (dir st1) Hb1).
  - intros Hnd ip data Hin. rewrite (read_blacklist_file (dir st2) (dir st3) Hb3).
    now apply Hlisted.
Qed.

(** X23. An import into a data directory the manager has produced reports
    success, counts every item of the document, and afterwards lists
    the document's whitelist and keywords beside what was listed before;
    every blacklisted ip of the document is listed with the reason the
    document gives (or the default reason), and the other ips keep their
    entries. *)
Theorem import_config_effect (config : config_file) (clock : nat -> pystr)
    (d : data_dir) :
  managed d ->
  let wl := get (cf_whitelist config) [] in
  let bl := get (cf_blacklist config) [] in
  let kw := get (cf_keywords config) [] in
  let r := import_config config clock d in
  r.1.1 = true
  /\ r.1.2 = (List.length wl + List.length bl + List.length kw)%nat
  /\ (forall x, x ∈ list_whitelist r.2 <-> x ∈ wl \/ x ∈ list_whitelist d)
  /\ (forall x, x ∈ list_keywords r.2 <-> x ∈ kw \/ x ∈ list_keywords d)
  /\ (forall ip, ip ∉ map fst bl ->
        dict_get ip (list_blacklist r.2) = dict_get ip (list_blacklist d))
  /\ (NoDup (map fst bl) -> forall ip data, (ip, data) ∈ bl ->
        bl_reason <$> dict_get ip (list_blacklist r.2)
        = Some (imported_reason data)).
Proof.
  intros Hm wl bl kw r. destruct (managed_with_rows d Hm) as (Hw & Hb & Hk).
  destruct (import_config_facts config clock d Hw Hb Hk)
    as (Hok & Hcount & Hwl & Hkw & Hother & Hlisted).
  fold wl bl kw r in Hok, Hcount, Hwl, Hkw, Hother, Hlisted.
  split; [exact Hok|]. split; [exact Hcount|]. split; [|split; [|split]].
  - intros x. rewrite !list_whitelist_elem. apply Hwl.
  - intros x. rewrite !list_keywords_elem. apply Hkw.
  - intros ip Hip. rewrite !list_blacklist_get. now apply Hother.
  - intros Hnd ip data Hin. rewrite list_blacklist_get. now apply Hlisted.
Qed.

(** X24. Export followed by import into a fresh directory restores the
    whitelist and the keywords as listed and every blacklisted ip with its
    reason; the timestamps are those of the import. *)
Theorem export_import_round_trip (clock : nat -> pystr) (d : data_dir) :
  let doc := (export_config d).2 in
  let r := import_config doc clock fresh_dir in
  (export_config d).1 = true
  /\ r.1.1 = true
  /\ list_whitelist r.2 = list_whitelist d
  /\ list_keywords r.2 = list_keywords d
  /\ (forall ip, bl_reason <$> dict_get ip (list_blacklist r.2)
                 = bl_reason <$> dict_get ip (list_blacklist d))
  /\ r.1.2 = (List.length (list_whitelist d) + List.length (list_blacklist d)
              + List.length (list_keywords d))%nat.
Proof.
  intros doc r.
  assert (Hfresh : forall f : option (list row), f = None -> f <> Some [])
    by (intros f ->; discriminate).
  destruct (import_config_facts doc clock fresh_dir
              (Hfresh _ eq_refl) (Hfresh _ eq_refl) (Hfresh _ eq_refl))
    as (Hok & Hcount & Hwl & Hkw & Hother & Hlisted).
  fold r in Hok, Hcount, Hwl, Hkw, Hother, Hlisted.
  cbn [doc export_config snd cf_whitelist cf_blacklist cf_keywords get]
    in Hcount, Hwl, Hkw, Hother, Hlisted.
  split; [reflexivity|]. split; [exact Hok|].
  split; [|split; [|split]].
  - assert (Hset : _read_csv_whitelist r.2 = _read_csv_whitelist d).
    { apply set_eq. intros x. rewrite Hwl, list_whitelist_elem.
      split; [intros [H | H]; [exact H | now apply elem_of_empty in H]
             | now left]. }
    unfold list_whitelist. now rewrite Hset.
  - assert (Hset : _read_csv_keywords r.2 = _read_csv_keywords d).
    { apply set_eq. intros x. rewrite Hkw, list_keywords_elem.
      split; [intros [H | H]; [exact H | now apply elem_of_empty in H]
             | now left]. }
    unfold list_keywords. now rewrite Hset.
  - intros ip. rewrite list_blacklist_get.
    assert (Hkeys : map fst
              (map (fun item : pystr * bl_entry =>
                      (fst item,
                       DataDict [(py "timestamp", bl_timestamp (snd item));
                                 (py "reason", bl_reason (snd item))]))
                   (list_blacklist d))
            = map fst (list_blacklist d)).
    { rewrite map_map. reflexivity. }
    destruct (decide (ip ∈ map fst (list_blacklist d))) as [Hin | Hout].
    + apply list_elem_of_In, in_map_iff in Hin as ([k e] & Hk & Hin).
      cbn [fst] in Hk. subst k. apply list_elem_of_In in Hin.
      rewrite (proj2 (dict_get_elem ip e _ (list_blacklist_NoDup d)) Hin).
      rewrite (Hlisted ltac:(rewrite Hkeys; apply list_blacklist_NoDup) ip
                 (DataDict [(py "timestamp", bl_timestamp e);
                            (py "reason", bl_reason e)])).
      * reflexivity.
      * apply list_elem_of_In, in_map_iff. exists (ip, e).
        split; [reflexivity | now apply list_elem_of_In].
    + rewrite (Hother ip ltac:(now rewrite Hkeys)).
      now rewrite (dict_get_None ip _ Hout).
  - rewrite Hcount, length_map. reflexivity.
Qed.

End ImportExport.

Section ImportWitnesses.
Import Cli MoreSamples.

Lemma import_config_effect_witness :
  managed tool_dir
  /\ (import_config sample_doc (fun _ => py "2026-03-03T00:00:00") tool_dir).1.2
     = 3%nat
  /\ list_whitelist
       (import_config sample_doc (fun _ => py "2026-03-03T00:00:00") tool_dir).2
     = [py "10.0.0.1"; py "8.8.8.8"].
Proof.
  assert (Hm : managed tool_dir) by (unfold tool_dir; repeat constructor).
  split; [exact Hm|]. split; [|vm_compute; reflexivity].
  exact (proj1 (proj2 (import_config_effect sample_doc
                         (fun _ => py "2026-03-03T00:00:00") tool_dir Hm))).
Defined.

End ImportWitnesses.
